(** * Analysis-and-risk decision pipeline: a shallow embedding

    The development follows [analyzer.py] (class [MarketAnalyzer]) and
    [risk_manager.py] (class [RiskManager]).

    Conventions of the embedding.
    - Python records are dictionaries with optional keys; they are kept as
      such: [pyval] is the universe of values that flows through the
      pipeline, a dictionary is an association list in insertion order.
    - [int] and [float] are both read as exact rationals ([Q]); [round] is
      round-half-to-even on the exact value; [int(x)] truncates towards
      zero. The program computes on binary64 floats, so a comparison that
      sits exactly on its boundary can fall to either side there: the
      statements keep the inputs off such boundaries by a margin, or
      leave the side open, and the boundary cases themselves are
      evaluated on floats ([binary64], over the primitive floats of the
      kernel). NaN is not a valuezero. NaN is not a value of the model: where pandas would store one
      (an extreme or a mean of an empty series) the method answers [None]
      of an [option], and a comparison with a rolling mean that is not
      defined yet is false. The quotient of two entries of a frame with a
      zero divisor is an infinity or NaN, not an exception ([npfloat]).
    - A Python exception is a [Raise] in the [result] monad; a
      [try: ... except Exception:] block is [catch], or a block of
      statements ([exec_block]) when the object under construction keeps
      what was done before the exception.
    - [datetime.now().isoformat()] is read from an explicit [now] argument.
    - What the libraries compute ([ta], [talib], [pandas], [numpy], the
      [str] of a value that is not a string) enters as a parameter.
    - The attributes of a [MarketAnalyzer] are assigned in [__init__] and
      never read or assigned again, so its methods are functions; the
      [RiskManager] carries its state explicitly.
    - Calls to the [logging] module are not represented, except for the
      formatting of their arguments where that could raise. *)

From Stdlib Require Import ZArith QArith Qround Qabs Qminmax String Ascii List Bool.
From Stdlib Require Import Lia Lqa DecimalString Sorted.
From Stdlib Require Floats.
From Stdlib Require Uint63.
Import ListNotations.

Local Open Scope Q_scope.
Local Open Scope string_scope.
Local Open Scope list_scope.

(* ===================================================================== *)
(** ** Python values and the operations the pipeline applies to them      *)
(* ===================================================================== *)

Module Py.

#[local] Set Warnings "-register-all".

Inductive pyval : Type :=
| PNone
| PBool (b : bool)
| PNum (q : Q)
| PStr (s : string)
| PList (l : list pyval)
| PDict (d : list (string * pyval)).

Inductive exn : Type :=
| TypeError | AttributeError | KeyError | IndexError | ValueError
| ZeroDivisionError.

Inductive result (A : Type) : Type :=
| Ok (a : A)
| Raise (e : exn).
Arguments Ok {A} a.
Arguments Raise {A} e.

Definition bind {A B : Type} (c : result A) (k : A -> result B) : result B :=
  match c with
  | Ok a => k a
  | Raise e => Raise e
  end.

(** [try: c except Exception: h] *)
Definition catch {A : Type} (c : result A) (h : result A) : result A :=
  match c with
  | Ok a => Ok a
  | Raise _ => h
  end.

Definition is_ok {A : Type} (c : result A) : bool :=
  match c with Ok _ => true | Raise _ => false end.

(** *** Dictionaries *)

Fixpoint lookup (d : list (string * pyval)) (k : string) : option pyval :=
  match d with
  | [] => None
  | (k', v) :: r => if String.eqb k' k then Some v else lookup r k
  end.

(** [d[k] = v]: overwrite in place, or append a new key at the end. *)
Fixpoint dict_set (d : list (string * pyval)) (k : string) (v : pyval)
  : list (string * pyval) :=
  match d with
  | [] => [(k, v)]
  | (k', v') :: r =>
      if String.eqb k' k then (k', v) :: r else (k', v') :: dict_set r k v
  end.

Fixpoint dict_remove (d : list (string * pyval)) (k : string)
  : list (string * pyval) :=
  match d with
  | [] => []
  | (k', v') :: r =>
      if String.eqb k' k then dict_remove r k else (k', v') :: dict_remove r k
  end.

(** [x.get(k, dflt)]; only a dictionary has the method. *)
Definition py_get (x : pyval) (k : string) (dflt : pyval) : result pyval :=
  match x with
  | PDict d => Ok (match lookup d k with Some v => v | None => dflt end)
  | _ => Raise AttributeError
  end.

(** [x[k]] for a string key. *)
Definition py_item (x : pyval) (k : string) : result pyval :=
  match x with
  | PDict d => match lookup d k with Some v => Ok v | None => Raise KeyError end
  | _ => Raise TypeError
  end.

(** [x[k] = v] for a string key. *)
Definition py_setitem (x : pyval) (k : string) (v : pyval) : result pyval :=
  match x with
  | PDict d => Ok (PDict (dict_set d k v))
  | _ => Raise TypeError
  end.

(** Nested lookup [x[k1][k2]...] that answers [None] where a key is
    missing. *)
Fixpoint path (x : pyval) (keys : list string) : option pyval :=
  match keys with
  | [] => Some x
  | k :: r =>
      match x with
      | PDict d =>
          match lookup d k with
          | Some v => path v r
          | None => None
          end
      | _ => None
      end
  end.

(** *** Numbers *)

Definition as_num (x : pyval) : option Q :=
  match x with
  | PNum q => Some q
  | PBool b => Some (if b then 1 else 0)
  | _ => None
  end.

Definition num (x : pyval) : result Q :=
  match as_num x with Some q => Ok q | None => Raise TypeError end.

Definition round_half_even (q : Q) : Z :=
  let f := Qfloor q in
  match Qcompare (q - inject_Z f) 0.5 with
  | Lt => f
  | Gt => (f + 1)%Z
  | Eq => if Z.even f then f else (f + 1)%Z
  end.

(** [round(q, n)] *)
Definition py_round (q : Q) (n : nat) : Q :=
  inject_Z (round_half_even (q * inject_Z (10 ^ Z.of_nat n)))
  / inject_Z (10 ^ Z.of_nat n).

Definition Qltb (a b : Q) : bool :=
  match Qcompare a b with Lt => true | _ => false end.
Definition Qgtb (a b : Q) : bool := Qltb b a.
Definition Qleb (a b : Q) : bool :=
  match Qcompare a b with Gt => false | _ => true end.
Definition Qgeb (a b : Q) : bool := Qleb b a.

(** *** Equality and ordering *)

Fixpoint py_eqb (a b : pyval) {struct a} : bool :=
  match a, b with
  | PNone, PNone => true
  | PStr s, PStr t => String.eqb s t
  | PList l1, PList l2 =>
      (fix go (l1 l2 : list pyval) {struct l1} : bool :=
         match l1, l2 with
         | [], [] => true
         | x :: xs, y :: ys => py_eqb x y && go xs ys
         | _, _ => false
         end) l1 l2
  | PDict d1, PDict d2 =>
      Nat.eqb (List.length d1) (List.length d2) &&
      (fix go (d : list (string * pyval)) : bool :=
         match d with
         | [] => true
         | (k, v) :: r =>
             match lookup d2 k with
             | Some v' => py_eqb v v'
             | None => false
             end && go r
         end) d1
  | PBool x, PBool y => Bool.eqb x y
  | PBool x, PNum y => Qeq_bool (if x then 1 else 0) y
  | PNum x, PBool y => Qeq_bool x (if y then 1 else 0)
  | PNum x, PNum y => Qeq_bool x y
  | _, _ => false
  end.

(** Three-way comparison behind [<], [<=], [>], [>=]: numbers with numbers,
    strings with strings, lists with lists (at the first pair of unequal
    elements); anything else is a [TypeError]. *)
Fixpoint py_cmp (a b : pyval) {struct a} : result comparison :=
  match a, b with
  | PStr s, PStr t => Ok (String.compare s t)
  | PList l1, PList l2 =>
      (fix go (l1 l2 : list pyval) {struct l1} : result comparison :=
         match l1, l2 with
         | [], [] => Ok Eq
         | [], _ :: _ => Ok Lt
         | _ :: _, [] => Ok Gt
         | x :: xs, y :: ys => if py_eqb x y then go xs ys else py_cmp x y
         end) l1 l2
  | PBool x, PBool y => Ok (Qcompare (if x then 1 else 0) (if y then 1 else 0))
  | PBool x, PNum y => Ok (Qcompare (if x then 1 else 0) y)
  | PNum x, PBool y => Ok (Qcompare x (if y then 1 else 0))
  | PNum x, PNum y => Ok (Qcompare x y)
  | _, _ => Raise TypeError
  end.

Definition py_lt (a b : pyval) : result bool :=
  bind (py_cmp a b) (fun c => Ok match c with Lt => true | _ => false end).
Definition py_le (a b : pyval) : result bool :=
  bind (py_cmp a b) (fun c => Ok match c with Gt => false | _ => true end).
Definition py_gt (a b : pyval) : result bool :=
  bind (py_cmp a b) (fun c => Ok match c with Gt => true | _ => false end).
Definition py_ge (a b : pyval) : result bool :=
  bind (py_cmp a b) (fun c => Ok match c with Lt => false | _ => true end).

(** [x == 'literal'] *)
Definition is_str (x : pyval) (s : string) : bool := py_eqb x (PStr s).

(** [x in ['a', 'b', ...]] for string literals *)
Definition in_strs (x : pyval) (l : list string) : bool :=
  existsb (is_str x) l.

(** *** Truth value, length, iteration *)

Definition truthy (x : pyval) : bool :=
  match x with
  | PNone => false
  | PBool b => b
  | PNum q => negb (Qeq_bool q 0)
  | PStr s => negb (String.eqb s "")
  | PList l => match l with [] => false | _ => true end
  | PDict d => match d with [] => false | _ => true end
  end.

(** A byte that continues a UTF-8 sequence ([10xxxxxx]). *)
Definition utf8_cont (c : ascii) : bool :=
  let n := nat_of_ascii c in Nat.leb 128 n && Nat.ltb n 192.

(** The characters (code points) of a UTF-8 encoded string. *)
Fixpoint utf8_chars (s : string) : list string :=
  match s with
  | EmptyString => []
  | String c r =>
      match utf8_chars r with
      | [] => [String c EmptyString]
      | t :: ts =>
          match t with
          | String c' _ =>
              if utf8_cont c' then String c t :: ts
              else String c EmptyString :: t :: ts
          | EmptyString => String c EmptyString :: ts
          end
      end
  end.

(** [for e in x] *)
Definition py_iter (x : pyval) : result (list pyval) :=
  match x with
  | PList l => Ok l
  | PStr s => Ok (map PStr (utf8_chars s))
  | PDict d => Ok (map (fun kv => PStr (fst kv)) d)
  | _ => Raise TypeError
  end.

(** [len(x)] *)
Definition py_len (x : pyval) : result nat :=
  match x with
  | PList l => Ok (List.length l)
  | PStr s => Ok (List.length (utf8_chars s))
  | PDict d => Ok (List.length d)
  | _ => Raise TypeError
  end.

Definition is_substring (needle hay : string) : bool :=
  match String.index 0 needle hay with Some _ => true | None => false end.

(** ['literal' in x] *)
Definition py_contains (x : pyval) (needle : string) : result bool :=
  match x with
  | PStr s => Ok (is_substring needle s)
  | PList l => Ok (existsb (fun e => is_str e needle) l)
  | PDict d => Ok (match lookup d needle with Some _ => true | None => false end)
  | _ => Raise TypeError
  end.

(** *** Arithmetic on fetched values *)

(** [x * c], [x + c], [x - y], [x / y], [abs(x)], [round(x, n)] as the
    pipeline uses them: always with a numeric literal or a value that has
    already been through a numeric operation on the other side. *)
Definition py_mul (x : pyval) (c : Q) : result pyval :=
  bind (num x) (fun q => Ok (PNum (q * c))).
Definition py_add (x : pyval) (c : Q) : result pyval :=
  bind (num x) (fun q => Ok (PNum (q + c))).
Definition py_sub (x y : pyval) : result pyval :=
  bind (num x) (fun a => bind (num y) (fun b => Ok (PNum (a - b)))).
Definition py_div (x y : pyval) : result pyval :=
  bind (num x) (fun a => bind (num y) (fun b =>
    if Qeq_bool b 0 then Raise ZeroDivisionError else Ok (PNum (a / b)))).
Definition py_abs (x : pyval) : result pyval :=
  bind (num x) (fun q => Ok (PNum (Qabs q))).
Definition py_round_val (x : pyval) (n : nat) : result pyval :=
  bind (num x) (fun q => Ok (PNum (py_round q n))).

(** [min(a, b)] keeps [a] unless [b < a]; [max(a, b)] keeps [a] unless
    [b > a]. *)
Definition py_min2 (a b : pyval) : result pyval :=
  bind (py_lt b a) (fun c => Ok (if c then b else a)).
Definition py_max2 (a b : pyval) : result pyval :=
  bind (py_gt b a) (fun c => Ok (if c then b else a)).

(** [min(xs)], [max(xs)] over the elements of an iterable. *)
Fixpoint fold_min (cur : pyval) (l : list pyval) : result pyval :=
  match l with
  | [] => Ok cur
  | x :: r => bind (py_min2 cur x) (fun m => fold_min m r)
  end.
Fixpoint fold_max (cur : pyval) (l : list pyval) : result pyval :=
  match l with
  | [] => Ok cur
  | x :: r => bind (py_max2 cur x) (fun m => fold_max m r)
  end.
Definition py_min (x : pyval) : result pyval :=
  bind (py_iter x) (fun l =>
    match l with [] => Raise ValueError | h :: r => fold_min h r end).
Definition py_max (x : pyval) : result pyval :=
  bind (py_iter x) (fun l =>
    match l with [] => Raise ValueError | h :: r => fold_max h r end).

(** [[e for e in l if test(e)]] *)
Fixpoint filterM (test : pyval -> result bool) (l : list pyval)
  : result (list pyval) :=
  match l with
  | [] => Ok []
  | x :: r =>
      bind (test x) (fun b =>
      bind (filterM test r) (fun r' => Ok (if b then x :: r' else r')))
  end.

(** [any(test(e) for e in l)]: stops at the first hit. *)
Fixpoint anyM {A : Type} (test : A -> result bool) (l : list A) : result bool :=
  match l with
  | [] => Ok false
  | x :: r => bind (test x) (fun b => if b then Ok true else anyM test r)
  end.

(** [list(dict.fromkeys(l))]: first occurrences, in order; a list or a
    dictionary is not hashable. *)
Definition hashable (x : pyval) : bool :=
  match x with PList _ | PDict _ => false | _ => true end.

Fixpoint fromkeys (seen : list pyval) (l : list pyval) : result (list pyval) :=
  match l with
  | [] => Ok (rev seen)
  | x :: r =>
      if hashable x then
        if existsb (py_eqb x) seen then fromkeys seen r
        else fromkeys (x :: seen) r
      else Raise TypeError
  end.

(** [max(a, b)] and [min(a, b)] on numbers: the first argument is kept
    unless the second is strictly beyond it. *)
Definition max2 (a b : Q) : Q := if Qgtb b a then b else a.
Definition min2 (a b : Q) : Q := if Qltb b a then b else a.

(** [x and y], [x or y] on truth values, with their short circuit. *)
Definition andM (x y : result bool) : result bool :=
  bind x (fun a => if a then y else Ok false).
Definition orM (x y : result bool) : result bool :=
  bind x (fun a => if a then Ok true else y).

(** *** Blocks of statements inside one [try]

    Statements update an object in place; when one raises, the object
    keeps what was done to it before. A statement maps the object to the
    object as it is when control leaves the statement, with the exception
    if one is pending. *)

Definition stmt (S : Type) : Type := S -> S * option exn.

(** A statement that completes, or raises before it changes anything. *)
Definition atomic {S : Type} (f : S -> result S) : stmt S :=
  fun s =>
    match f s with
    | Ok s' => (s', None)
    | Raise e => (s, Some e)
    end.

Fixpoint exec_block {S : Type} (stmts : list (stmt S)) (s : S)
  : S * option exn :=
  match stmts with
  | [] => (s, None)
  | st :: r =>
      match st s with
      | (s', None) => exec_block r s'
      | (s', Some e) => (s', Some e)
      end
  end.

(** [if c: block] *)
Definition when {S : Type} (c : S -> bool) (stmts : list (stmt S)) : stmt S :=
  fun s => if c s then exec_block stmts s else (s, None).

(** [try: st except: pass] *)
Definition try_pass {S : Type} (st : stmt S) : stmt S :=
  fun s => (fst (st s), None).

(** *** Formatting *)

(** [str(n)] for a natural number *)
Definition nat_str (n : nat) : string :=
  NilZero.string_of_uint (Nat.to_uint n).

Fixpoint zeros (n : nat) : string :=
  match n with O => "" | S k => String "0" (zeros k) end.

(** [format(q, '.<d>f')] on the exact value: sign, integer part, and [d]
    decimals after rounding half to even. *)
Definition format_fixed (q : Q) (d : nat) : string :=
  let r := Z.to_nat (round_half_even (Qabs q * inject_Z (10 ^ Z.of_nat d))) in
  let unit := Nat.pow 10 d in
  let whole := nat_str (Nat.div r unit) in
  let frac := nat_str (Nat.modulo r unit) in
  let sign := if Qltb q 0 then "-" else "" in
  match d with
  | O => sign ++ whole
  | _ => sign ++ whole ++ "." ++ zeros (d - String.length frac) ++ frac
  end.

(** [f'{x:.<d>f}'] *)
Definition fmt (x : pyval) (d : nat) : result string :=
  bind (num x) (fun q => Ok (format_fixed q d)).

(** *** Binary floating point

    The numbers of the program are binary64 floats. Where the last bit of
    a product decides a comparison, the expression is also given as the
    interpreter evaluates it, on Rocq's primitive floats. *)

Definition float_of_Z (z : Z) : PrimFloat.float :=
  match z with
  | Z0 => PrimFloat.zero
  | Zpos _ => PrimFloat.of_uint63 (Uint63.of_Z z)
  | Zneg p => PrimFloat.opp (PrimFloat.of_uint63 (Uint63.of_Z (Zpos p)))
  end.

(** The float that Python reads from a decimal: for a numerator and a
    denominator below [2^53] both integers convert exactly and the
    division rounds to the nearest float. *)
Definition binary64 (q : Q) : PrimFloat.float :=
  PrimFloat.div (float_of_Z (Qnum q)) (float_of_Z (Zpos (Qden q))).

End Py.

Import Py.

Declare Scope py_scope.
Notation "x <- c ;; k" := (bind c (fun x => k))
  (at level 61, c at next level, right associativity) : py_scope.
Local Open Scope py_scope.

(* ===================================================================== *)
(** ** analyzer.py: class MarketAnalyzer                                  *)
(* ===================================================================== *)

Module Analyzer.

(** *** Data frames

    A frame is a row index (timestamps) and named numeric columns, in the
    order in which the columns were added. Prices are finite numbers. *)

Definition series : Type := list Q.

Record DataFrame : Type := mkDataFrame {
  index : list string;
  columns : list (string * series)
}.

(** [len(df)] *)
Definition len (df : DataFrame) : nat := List.length (index df).

(** [df.empty]: some axis has length 0. *)
Definition empty (df : DataFrame) : bool :=
  Nat.eqb (len df) 0 || Nat.eqb (List.length (columns df)) 0.

Fixpoint find_col (cs : list (string * series)) (name : string)
  : option series :=
  match cs with
  | [] => None
  | (n, c) :: r => if String.eqb n name then Some c else find_col r name
  end.

(** [name in df.columns] *)
Definition has_column (df : DataFrame) (name : string) : bool :=
  match find_col (columns df) name with Some _ => true | None => false end.

(** [df[name]] *)
Definition col (df : DataFrame) (name : string) : result series :=
  match find_col (columns df) name with
  | Some c => Ok c
  | None => Raise KeyError
  end.

Fixpoint put_col (cs : list (string * series)) (name : string) (c : series)
  : list (string * series) :=
  match cs with
  | [] => [(name, c)]
  | (n, c') :: r =>
      if String.eqb n name then (n, c) :: r else (n, c') :: put_col r name c
  end.

(** [df[name] = c] *)
Definition set_col (df : DataFrame) (name : string) (c : series) : DataFrame :=
  {| index := index df; columns := put_col (columns df) name c |}.

(** [s.iloc[-k]] for [k >= 1] *)
Definition iloc_back (s : series) (k : nat) : result Q :=
  if Nat.leb 1 k && Nat.leb k (List.length s)
  then Ok (nth (List.length s - k) s 0)
  else Raise IndexError.

(** A row of the frame ([df.iloc[-k]]), read lazily: [cell df k name] is
    [df.iloc[-k][name]]. The row itself exists when the frame has at least
    [k] rows; a cell exists when the column does. *)
Definition row (df : DataFrame) (k : nat) : result nat :=
  if Nat.leb 1 k && Nat.leb k (len df) then Ok k else Raise IndexError.

Definition cell (df : DataFrame) (k : nat) (name : string) : result Q :=
  c <- col df name ;;
  iloc_back c k.

(** [s.iloc[-n:].values]; for [n = 0] the slice [[-0:]] is the whole
    series. *)
Definition tail_values (s : series) (n : nat) : series :=
  match n with
  | O => s
  | _ => skipn (List.length s - n) s
  end.

(** The frame the market-data connector builds from the terminal's rates
    ([mt5_connector.py], [get_rates]): indexed by time, with these
    columns. *)
Record Bar : Type := mkBar {
  time : string;
  open : Q;
  high : Q;
  low : Q;
  close : Q;
  tick_volume : Q;
  spread : Q;
  real_volume : Q
}.

Definition frame_of_bars (bars : list Bar) : DataFrame := {|
  index := map time bars;
  columns := [("open", map open bars);
              ("high", map high bars);
              ("low", map low bars);
              ("close", map close bars);
              ("tick_volume", map tick_volume bars);
              ("spread", map spread bars);
              ("real_volume", map real_volume bars)]
|}.

(** *** [_calculate_all_indicators] *)

Section Indicators.

(** The indicator formulas come from the libraries [ta], [talib] and
    [pandas]. [lib name df] stands for the right-hand side of the
    assignment [df[name] = ...] evaluated on the frame [df]; it may
    raise. *)
Variable lib : string -> DataFrame -> result series.

Definition assign (name : string) : stmt DataFrame :=
  atomic (fun df => c <- lib name df ;; Ok (set_col df name c)).

Definition trend_columns : list string :=
  ["ema_9"; "ema_20"; "ema_50"; "ema_100"; "ema_200";
   "macd"; "macd_signal"; "macd_diff";
   "adx"; "adx_pos"; "adx_neg"].

Definition momentum_columns : list string :=
  ["rsi"; "stoch_k"; "stoch_d"; "williams_r"; "cci"].

Definition volatility_columns : list string :=
  ["bb_upper"; "bb_middle"; "bb_lower"; "bb_width"; "bb_pct";
   "atr";
   "kc_upper"; "kc_middle"; "kc_lower"].

Definition volume_columns : list string :=
  ["volume_sma"; "volume_ratio"; "obv"; "mfi"].

Definition ichimoku_columns : list string :=
  ["ichi_conversion"; "ichi_base"; "ichi_leading_a"; "ichi_leading_b";
   "ichi_lagging"].

Definition candle_columns : list string :=
  ["body"; "upper_shadow"; "lower_shadow"; "body_ratio"].

(** [abs(df['close'] - df['open'])] *)
Definition body_of (df : DataFrame) : result series :=
  c <- col df "close" ;;
  o <- col df "open" ;;
  Ok (map (fun co => Qabs (fst co - snd co)) (combine c o)).

(** [df['high'] - df[['open', 'close']].max(axis=1)] *)
Definition upper_shadow_of (df : DataFrame) : result series :=
  h <- col df "high" ;;
  o <- col df "open" ;;
  c <- col df "close" ;;
  Ok (map (fun x => fst x - Qmax (fst (snd x)) (snd (snd x)))
          (combine h (combine o c))).

(** [df[['open', 'close']].min(axis=1) - df['low']] *)
Definition lower_shadow_of (df : DataFrame) : result series :=
  o <- col df "open" ;;
  c <- col df "close" ;;
  l <- col df "low" ;;
  Ok (map (fun x => Qmin (fst (fst x)) (snd (fst x)) - snd x)
          (combine (combine o c) l)).

(** [df['body'] / (df['high'] - df['low']).replace(0, 0.0001)] *)
Definition body_ratio_of (df : DataFrame) : result series :=
  b <- col df "body" ;;
  h <- col df "high" ;;
  l <- col df "low" ;;
  Ok (map (fun x =>
             let range := fst (snd x) - snd (snd x) in
             fst x / (if Qeq_bool range 0 then 0.0001 else range))
          (combine b (combine h l))).

Definition assign_from (name : string) (rhs : DataFrame -> result series)
  : stmt DataFrame :=
  atomic (fun df => c <- rhs df ;; Ok (set_col df name c)).

Definition indicator_block : list (stmt DataFrame) :=
  map assign trend_columns
  ++ map assign momentum_columns
  ++ map assign volatility_columns
  ++ [ when (fun df => has_column df "tick_volume")
            (map assign volume_columns);
       when (fun df => Nat.ltb 52 (len df))
            (map assign ichimoku_columns);
       try_pass (assign "sar");
       assign_from "body" body_of;
       assign_from "upper_shadow" upper_shadow_of;
       assign_from "lower_shadow" lower_shadow_of;
       assign_from "body_ratio" body_ratio_of ].

(** Both the normal exit and the handler end in [return df]. *)
Definition _calculate_all_indicators (df : DataFrame) : result DataFrame :=
  let (df', pending) := exec_block indicator_block df in
  catch (match pending with None => Ok df' | Some e => Raise e end)
        (Ok df').

End Indicators.

(** *** [_detect_candlestick_patterns] *)

Definition pattern (name type direction strength : string) (score : Q)
  (timeframe description : string) : pyval :=
  PDict [("name", PStr name);
         ("type", PStr type);
         ("direction", PStr direction);
         ("strength", PStr strength);
         ("strength_score", PNum score);
         ("timeframe", PStr timeframe);
         ("description", PStr description)].

Definition BULLISH_ENGULFING : pyval :=
  pattern "BULLISH_ENGULFING" "REVERSAL" "BULLISH" "STRONG" 8 "SHORT"
          "الگوی بازگشتی صعودی قوی".
Definition BEARISH_ENGULFING : pyval :=
  pattern "BEARISH_ENGULFING" "REVERSAL" "BEARISH" "STRONG" 8 "SHORT"
          "الگوی بازگشتی نزولی قوی".
Definition HAMMER : pyval :=
  pattern "HAMMER" "REVERSAL" "BULLISH" "MEDIUM" 6 "SHORT"
          "الگوی چکش - بازگشت صعودی".
Definition HANGING_MAN : pyval :=
  pattern "HANGING_MAN" "REVERSAL" "BEARISH" "MEDIUM" 6 "SHORT"
          "الگوی مرد به دار آویخته - بازگشت نزولی".
Definition DOJI : pyval :=
  pattern "DOJI" "INDECISION" "NEUTRAL" "WEAK" 3 "SHORT"
          "الگوی دوجی - بلاتکلیفی بازار".
Definition MORNING_STAR : pyval :=
  pattern "MORNING_STAR" "REVERSAL" "BULLISH" "STRONG" 9 "MEDIUM"
          "الگوی ستاره صبحگاهی - بازگشت صعودی".
Definition EVENING_STAR : pyval :=
  pattern "EVENING_STAR" "REVERSAL" "BEARISH" "STRONG" 9 "MEDIUM"
          "الگوی ستاره عصرگاهی - بازگشت نزولی".

(** Comparisons of two cells. *)
Definition ltM (x y : result Q) : result bool :=
  a <- x ;; b <- y ;; Ok (Qltb a b).
Definition gtM (x y : result Q) : result bool :=
  a <- x ;; b <- y ;; Ok (Qgtb a b).

Section Candles.

Variable df : DataFrame.

(** [prev = last_3.iloc[-2]], [curr = last_3.iloc[-1]] *)
Definition engulfing (patterns : list pyval) : result (list pyval) :=
  prev <- row df 2 ;;
  curr <- row df 1 ;;
  bullish <-
    andM (ltM (cell df prev "close") (cell df prev "open"))
   (andM (gtM (cell df curr "close") (cell df curr "open"))
   (andM (ltM (cell df curr "open") (cell df prev "close"))
         (gtM (cell df curr "close") (cell df prev "open")))) ;;
  if bullish then Ok (patterns ++ [BULLISH_ENGULFING]) else
  bearish <-
    andM (gtM (cell df prev "close") (cell df prev "open"))
   (andM (ltM (cell df curr "close") (cell df curr "open"))
   (andM (gtM (cell df curr "open") (cell df prev "close"))
         (ltM (cell df curr "close") (cell df prev "open")))) ;;
  if bearish then Ok (patterns ++ [BEARISH_ENGULFING]) else Ok patterns.

Definition hammer (patterns : list pyval) : result (list pyval) :=
  candle <- row df 1 ;;
  c <- cell df candle "close" ;;
  o <- cell df candle "open" ;;
  let body_size := Qabs (c - o) in
  l <- cell df candle "low" ;;
  let lower_shadow := Qmin o c - l in
  h <- cell df candle "high" ;;
  let upper_shadow := h - Qmax o c in
  if Qgtb lower_shadow (body_size * 2)
     && Qltb upper_shadow (body_size * 0.3)
     && Qgtb c o
  then Ok (patterns ++ [HAMMER])
  else if Qgtb lower_shadow (body_size * 2)
          && Qltb upper_shadow (body_size * 0.3)
          && Qltb c o
  then Ok (patterns ++ [HANGING_MAN])
  else Ok patterns.

Definition doji (patterns : list pyval) : result (list pyval) :=
  candle <- row df 1 ;;
  c <- cell df candle "close" ;;
  o <- cell df candle "open" ;;
  let body_size := Qabs (c - o) in
  h <- cell df candle "high" ;;
  l <- cell df candle "low" ;;
  let candle_range := h - l in
  if Qgtb candle_range 0 && Qltb (body_size / candle_range) 0.1
  then Ok (patterns ++ [DOJI])
  else Ok patterns.

Definition small_second (first second : nat) : result bool :=
  sc <- cell df second "close" ;;
  so <- cell df second "open" ;;
  fh <- cell df first "high" ;;
  fl <- cell df first "low" ;;
  Ok (Qltb (Qabs (sc - so)) ((fh - fl) * 0.3)).

Definition star (patterns : list pyval) : result (list pyval) :=
  first <- row df 3 ;;
  second <- row df 2 ;;
  third <- row df 1 ;;
  morning <-
    andM (ltM (cell df first "close") (cell df first "open"))
   (andM (small_second first second)
   (andM (gtM (cell df third "close") (cell df third "open"))
         (gtM (cell df third "close") (cell df first "close")))) ;;
  if morning then Ok (patterns ++ [MORNING_STAR]) else
  evening <-
    andM (gtM (cell df first "close") (cell df first "open"))
   (andM (small_second first second)
   (andM (ltM (cell df third "close") (cell df third "open"))
         (ltM (cell df third "close") (cell df first "close")))) ;;
  if evening then Ok (patterns ++ [EVENING_STAR]) else Ok patterns.

(** The list [patterns] is filled in place; the handler only logs, and the
    function returns the list as it stands. *)
Definition _detect_candlestick_patterns : list pyval :=
  if Nat.ltb (len df) 3 then []
  else
    fst (exec_block
           [ when (fun _ => Nat.leb 2 (Nat.min 3 (len df))) [atomic engulfing];
             when (fun _ => Nat.leb 1 (len df)) [atomic hammer];
             when (fun _ => Nat.leb 1 (len df)) [atomic doji];
             when (fun _ => Nat.leb 3 (len df)) [atomic star] ]
           []).

End Candles.

(** How many matches in a pattern list carry a given name. *)
Definition count_named (name : string) (patterns : list pyval) : nat :=
  List.length
    (filter (fun p => match path p ["name"] with
                      | Some v => is_str v name
                      | None => false
                      end) patterns).

(** *** [_find_support_levels], [_find_resistance_levels] *)

(** [collections.Counter]: counts per distinct value, in the order in which
    the values are first met. *)
Fixpoint count_one (c : list (Q * nat)) (x : Q) : list (Q * nat) :=
  match c with
  | [] => [(x, 1%nat)]
  | (k, n) :: r =>
      if Qeq_bool k x then (k, S n) :: r else (k, n) :: count_one r x
  end.

Definition Counter (l : list Q) : list (Q * nat) :=
  fold_left count_one l [].

(** [most_common(n)]: by decreasing count, values of equal count in the
    order of the counter; the first [n]. *)
Fixpoint insert_by_count (x : Q * nat) (l : list (Q * nat))
  : list (Q * nat) :=
  match l with
  | [] => [x]
  | y :: r =>
      if Nat.ltb (snd x) (snd y) then y :: insert_by_count x r
      else x :: y :: r
  end.

Definition most_common (n : nat) (c : list (Q * nat)) : list (Q * nat) :=
  firstn n (fold_right insert_by_count [] c).

(** [sorted(l)] on numbers *)
Fixpoint insert_sorted (x : Q) (l : list Q) : list Q :=
  match l with
  | [] => [x]
  | y :: r => if Qltb y x || Qeq_bool y x then y :: insert_sorted x r
              else x :: y :: r
  end.

Definition sorted (l : list Q) : list Q := fold_right insert_sorted [] l.

(** The loop that drops a level lying within 0.5% above the level kept
    last; [last] is [filtered[-1]] when [filtered] is not empty. *)
Fixpoint keep_spaced (last : option Q) (l : list Q) : list Q :=
  match l with
  | [] => []
  | price :: r =>
      match last with
      | None => price :: keep_spaced (Some price) r
      | Some k =>
          if Qgtb price (k * 1.005) then price :: keep_spaced (Some price) r
          else keep_spaced last r
      end
  end.

Definition find_levels (column : string) (df : DataFrame) (lookback : nat)
  : list Q :=
  let body : result (list Q) :=
    let lookback := if Nat.ltb (len df) lookback then len df else lookback in
    c <- col df column ;;
    let values := tail_values c lookback in
    let rounded := map (fun x => py_round x 4) values in
    let counts := Counter rounded in
    let common :=
      map fst (filter (fun pc => Nat.leb 3 (snd pc)) (most_common 10 counts)) in
    let filtered := keep_spaced None (sorted common) in
    Ok (firstn 5 filtered)
  in
  match body with Ok l => l | Raise _ => [] end.

Definition _find_support_levels (df : DataFrame) (lookback : nat) : list Q :=
  find_levels "low" df lookback.

Definition _find_resistance_levels (df : DataFrame) (lookback : nat) : list Q :=
  find_levels "high" df lookback.

(** [price > filtered[-1] * 1.005] as the interpreter evaluates it. *)
Definition exceeds_binary64 (price last : Q) : bool :=
  PrimFloat.ltb (PrimFloat.mul (binary64 last) (binary64 1.005))
                (binary64 price).

Fixpoint keep_spaced_binary64 (last : option Q) (l : list Q) : list Q :=
  match l with
  | [] => []
  | price :: r =>
      match last with
      | None => price :: keep_spaced_binary64 (Some price) r
      | Some k =>
          if exceeds_binary64 price k
          then price :: keep_spaced_binary64 (Some price) r
          else keep_spaced_binary64 last r
      end
  end.

(** [find_levels] with the filter evaluated on floats. *)
Definition find_levels_binary64 (column : string) (df : DataFrame)
  (lookback : nat) : list Q :=
  let body : result (list Q) :=
    let lookback := if Nat.ltb (len df) lookback then len df else lookback in
    c <- col df column ;;
    let values := tail_values c lookback in
    let rounded := map (fun x => py_round x 4) values in
    let counts := Counter rounded in
    let common :=
      map fst (filter (fun pc => Nat.leb 3 (snd pc)) (most_common 10 counts)) in
    let filtered := keep_spaced_binary64 None (sorted common) in
    Ok (firstn 5 filtered)
  in
  match body with Ok l => l | Raise _ => [] end.

(** *** [_calculate_entry_exit_points] and its two helpers *)

(** [df['atr'].iloc[-1] if 'atr' in df.columns else 0] *)
Definition last_atr (df : DataFrame) : result Q :=
  if has_column df "atr" then cell df 1 "atr" else Ok 0.

(** [[x for x in levels if x < bound]], [[x for x in levels if x > bound]] *)
Definition levels_below (levels : pyval) (bound : Q) : result (list pyval) :=
  l <- py_iter levels ;;
  filterM (fun s => py_lt s (PNum bound)) l.
Definition levels_above (levels : pyval) (bound : Q) : result (list pyval) :=
  l <- py_iter levels ;;
  filterM (fun r => py_gt r (PNum bound)) l.

(** [sorted(l)] and [sorted(l, reverse=True)]: stable, by [<] alone. *)
Fixpoint py_insert (x : pyval) (l : list pyval) : result (list pyval) :=
  match l with
  | [] => Ok [x]
  | y :: r =>
      c <- py_lt y x ;;
      if c then (r' <- py_insert x r ;; Ok (y :: r')) else Ok (x :: y :: r)
  end.
Definition py_sorted (l : list pyval) : result (list pyval) :=
  fold_right (fun x acc => a <- acc ;; py_insert x a) (Ok []) l.

Fixpoint py_insert_desc (x : pyval) (l : list pyval) : result (list pyval) :=
  match l with
  | [] => Ok [x]
  | y :: r =>
      c <- py_lt x y ;;
      if c then (r' <- py_insert_desc x r ;; Ok (y :: r')) else Ok (x :: y :: r)
  end.
Definition py_sorted_desc (l : list pyval) : result (list pyval) :=
  fold_right (fun x acc => a <- acc ;; py_insert_desc x a) (Ok []) l.

Definition points (entry_price stop_loss take_profit_1 take_profit_2 : Q)
  : pyval :=
  PDict [("entry", PNum (py_round entry_price 5));
         ("stop_loss", PNum (py_round stop_loss 5));
         ("take_profit_1", PNum (py_round take_profit_1 5));
         ("take_profit_2", PNum (py_round take_profit_2 5))].

Definition _calculate_buy_points (current_price : Q)
  (support_levels resistance_levels pivot_points : pyval) (df : DataFrame)
  : pyval :=
  let body : result pyval :=
    entry_price <-
      (if truthy support_levels then
         below <- levels_below support_levels current_price ;;
         nearest_support <- py_max (PList below) ;;
         q <- num nearest_support ;;
         Ok (q * 1.001)
       else Ok (current_price * 0.998)) ;;
    atr <- last_atr df ;;
    stop_loss <-
      (if truthy support_levels then
         lowest <- py_min support_levels ;;
         q <- num lowest ;;
         Ok (q * 0.995)
       else Ok (entry_price * 0.99)) ;;
    let stop_loss :=
      if Qgtb atr 0 then max2 stop_loss (entry_price - atr * 2)
      else stop_loss in
    take_profit_1 <-
      (if truthy resistance_levels then
         above <- levels_above resistance_levels entry_price ;;
         nearest_resistance <- py_min (PList above) ;;
         q <- num nearest_resistance ;;
         Ok (q * 0.999)
       else
         let risk := entry_price - stop_loss in
         Ok (entry_price + risk * 1.5)) ;;
    n <- py_len resistance_levels ;;
    take_profit_2 <-
      (if Nat.ltb 1 n then
         above <- levels_above resistance_levels take_profit_1 ;;
         next_resistance <- py_sorted above ;;
         match next_resistance with
         | first :: _ => q <- num first ;; Ok (q * 0.999)
         | [] =>
             let risk := entry_price - stop_loss in
             Ok (entry_price + risk * 2.5)
         end
       else
         let risk := entry_price - stop_loss in
         Ok (entry_price + risk * 2.5)) ;;
    Ok (points entry_price stop_loss take_profit_1 take_profit_2)
  in
  match body with Ok r => r | Raise _ => PDict [] end.

Definition _calculate_sell_points (current_price : Q)
  (support_levels resistance_levels pivot_points : pyval) (df : DataFrame)
  : pyval :=
  let body : result pyval :=
    entry_price <-
      (if truthy resistance_levels then
         above <- levels_above resistance_levels current_price ;;
         nearest_resistance <- py_min (PList above) ;;
         q <- num nearest_resistance ;;
         Ok (q * 0.999)
       else Ok (current_price * 1.002)) ;;
    atr <- last_atr df ;;
    stop_loss <-
      (if truthy resistance_levels then
         highest <- py_max resistance_levels ;;
         q <- num highest ;;
         Ok (q * 1.005)
       else Ok (entry_price * 1.01)) ;;
    let stop_loss :=
      if Qgtb atr 0 then min2 stop_loss (entry_price + atr * 2)
      else stop_loss in
    take_profit_1 <-
      (if truthy support_levels then
         below <- levels_below support_levels entry_price ;;
         nearest_support <- py_max (PList below) ;;
         q <- num nearest_support ;;
         Ok (q * 1.001)
       else
         let risk := stop_loss - entry_price in
         Ok (entry_price - risk * 1.5)) ;;
    n <- py_len support_levels ;;
    take_profit_2 <-
      (if Nat.ltb 1 n then
         below <- levels_below support_levels take_profit_1 ;;
         next_support <- py_sorted_desc below ;;
         match next_support with
         | first :: _ => q <- num first ;; Ok (q * 1.001)
         | [] =>
             let risk := stop_loss - entry_price in
             Ok (entry_price - risk * 2.5)
         end
       else
         let risk := stop_loss - entry_price in
         Ok (entry_price - risk * 2.5)) ;;
    Ok (points entry_price stop_loss take_profit_1 take_profit_2)
  in
  match body with Ok r => r | Raise _ => PDict [] end.

(** The bundle of a signal that is not directional. *)
Definition no_entry_exit : pyval :=
  PDict [("entry", PNone);
         ("stop_loss", PNone);
         ("take_profit_1", PNone);
         ("take_profit_2", PNone);
         ("risk_reward_ratio", PNone);
         ("position_size_percent", PNone)].

(** [x and y] on truth values of items that may be missing *)
Definition item_truthy (d : pyval) (k : string) : result bool :=
  v <- py_item d k ;; Ok (truthy v).

Definition _calculate_entry_exit_points (df : DataFrame)
  (signals key_levels : pyval) : pyval :=
  let body : result pyval :=
    current_price <- cell df 1 "close" ;;
    signal <- py_get signals "primary" (PStr "HOLD") ;;
    if negb (in_strs signal ["STRONG_BUY"; "BUY"; "STRONG_SELL"; "SELL"])
    then Ok no_entry_exit else
    is_buy <- py_contains signal "BUY" ;;
    support_levels <- py_get key_levels "support" (PList []) ;;
    resistance_levels <- py_get key_levels "resistance" (PList []) ;;
    pivot_points <- py_get key_levels "pivot_points" (PDict []) ;;
    let entry_exit :=
      if is_buy
      then _calculate_buy_points current_price support_levels
             resistance_levels pivot_points df
      else _calculate_sell_points current_price support_levels
             resistance_levels pivot_points df in
    complete <-
      andM (item_truthy entry_exit "entry")
     (andM (item_truthy entry_exit "stop_loss")
           (item_truthy entry_exit "take_profit_1")) ;;
    entry_exit <-
      (if complete then
         e <- py_item entry_exit "entry" ;;
         s <- py_item entry_exit "stop_loss" ;;
         d <- py_sub e s ;;
         risk <- py_abs d ;;
         t <- py_item entry_exit "take_profit_1" ;;
         e' <- py_item entry_exit "entry" ;;
         d' <- py_sub t e' ;;
         reward <- py_abs d' ;;
         positive <- py_gt risk (PNum 0) ;;
         if positive then
           ratio <- py_div reward risk ;;
           rounded <- py_round_val ratio 2 ;;
           py_setitem entry_exit "risk_reward_ratio" rounded
         else Ok entry_exit
       else Ok entry_exit) ;;
    rr <- py_item entry_exit "risk_reward_ratio" ;;
    if truthy rr then
      rr <- py_item entry_exit "risk_reward_ratio" ;;
      c1 <- py_ge rr (PNum 2) ;;
      if c1 then py_setitem entry_exit "position_size_percent" (PNum 2.0) else
      rr <- py_item entry_exit "risk_reward_ratio" ;;
      c2 <- py_ge rr (PNum 1.5) ;;
      if c2 then py_setitem entry_exit "position_size_percent" (PNum 1.5)
      else py_setitem entry_exit "position_size_percent" (PNum 1.0)
    else Ok entry_exit
  in
  match body with Ok r => r | Raise _ => PDict [] end.

(** *** [_get_empty_analysis] *)

Definition _get_empty_analysis (now symbol timeframe : string) : pyval :=
  PDict [
    ("symbol", PStr symbol);
    ("timeframe", PStr timeframe);
    ("timestamp", PStr now);
    ("current_price", PNum 0);
    ("technical", PDict [("overall_trend", PStr "NEUTRAL")]);
    ("price", PDict []);
    ("patterns", PDict [("patterns", PList []);
                        ("count", PNum 0);
                        ("strength", PNum 0)]);
    ("time", PDict []);
    ("key_levels", PDict []);
    ("signals", PDict [("primary", PStr "HOLD");
                       ("strength", PNum 0);
                       ("reasons", PList [PStr "خطا در تحلیل"]);
                       ("risk_level", PStr "HIGH");
                       ("confidence", PNum 0)]);
    ("score", PNum 0);
    ("confidence", PNum 0);
    ("entry_exit", PDict []);
    ("risk", PDict [("score", PNum 10); ("level", PStr "VERY_HIGH")]);
    ("summary", PStr "خطا در تحلیل تکنیکال");
    ("recommendation", PDict [("action", PStr "WAIT");
                              ("confidence", PNum 0);
                              ("message", PStr "خطا در تحلیل");
                              ("risk_level", PStr "HIGH");
                              ("timeframe", PStr "UNKNOWN")])].

(** *** [analyze_symbol] *)

Section Pipeline.

Variable lib : string -> DataFrame -> result series.

(** The other stages of the pipeline are methods of the same class; the
    properties below do not depend on what they compute, so they enter as
    parameters. Each of them reads only its arguments. *)
Variable _technical_analysis : DataFrame -> result pyval.
Variable _price_analysis : DataFrame -> result pyval.
Variable _pattern_analysis : DataFrame -> result pyval.
Variable _time_analysis : DataFrame -> result pyval.
Variable _identify_key_levels : DataFrame -> result pyval.
Variable _generate_signals : pyval -> pyval -> pyval -> pyval -> result pyval.
Variable _calculate_score_and_confidence :
  pyval -> pyval -> pyval -> result (pyval * pyval).
Variable _risk_analysis : DataFrame -> pyval -> result pyval.
Variable _generate_summary : pyval -> pyval -> pyval -> result pyval.
Variable _get_recommendation : pyval -> pyval -> pyval -> result pyval.

Definition analyze_symbol (now : string) (df : DataFrame)
  (symbol timeframe : string) : result pyval :=
  catch
    (if empty df || Nat.ltb (len df) 100
     then Ok (_get_empty_analysis now symbol timeframe) else
     df_with_indicators <- _calculate_all_indicators lib df ;;
     technical_analysis <- _technical_analysis df_with_indicators ;;
     price_analysis <- _price_analysis df_with_indicators ;;
     pattern_analysis <- _pattern_analysis df_with_indicators ;;
     time_analysis <- _time_analysis df_with_indicators ;;
     key_levels <- _identify_key_levels df_with_indicators ;;
     signals <- _generate_signals technical_analysis price_analysis
                  pattern_analysis key_levels ;;
     sc <- _calculate_score_and_confidence technical_analysis
             pattern_analysis signals ;;
     let (score, confidence) := sc in
     let entry_exit_points :=
       _calculate_entry_exit_points df_with_indicators signals key_levels in
     risk_analysis <- _risk_analysis df_with_indicators signals ;;
     current_price <- cell df_with_indicators 1 "close" ;;
     summary <- _generate_summary signals score confidence ;;
     recommendation <- _get_recommendation signals score confidence ;;
     Ok (PDict [
       ("symbol", PStr symbol);
       ("timeframe", PStr timeframe);
       ("timestamp", PStr now);
       ("current_price", PNum current_price);
       ("technical", technical_analysis);
       ("price", price_analysis);
       ("patterns", pattern_analysis);
       ("time", time_analysis);
       ("key_levels", key_levels);
       ("signals", signals);
       ("score", score);
       ("confidence", confidence);
       ("entry_exit", entry_exit_points);
       ("risk", risk_analysis);
       ("summary", summary);
       ("recommendation", recommendation)]))
    (Ok (_get_empty_analysis now symbol timeframe)).

End Pipeline.

(** *** The stages of the analysis

    The methods that [analyze_symbol] calls for its stages, and their
    helpers, in the order of the class. *)

(** *** [_calculate_pivot_points] *)

Definition _calculate_pivot_points (df : DataFrame) : pyval :=
  let body : result pyval :=
    if Nat.ltb (len df) 1 then Ok (PDict []) else
    last_candle <- row df 1 ;;
    high <- cell df last_candle "high" ;;
    low <- cell df last_candle "low" ;;
    close <- cell df last_candle "close" ;;
    let pivot := (high + low + close) / 3 in
    let r1 := 2 * pivot - low in
    let s1 := 2 * pivot - high in
    let r2 := pivot + (high - low) in
    let s2 := pivot - (high - low) in
    let r3 := high + 2 * (pivot - low) in
    let s3 := low - 2 * (high - pivot) in
    Ok (PDict [("pivot", PNum pivot);
               ("r1", PNum r1);
               ("r2", PNum r2);
               ("r3", PNum r3);
               ("s1", PNum s1);
               ("s2", PNum s2);
               ("s3", PNum s3)])
  in
  match body with Ok r => r | Raise _ => PDict [] end.

(** *** [_calculate_fibonacci_levels] *)

(** [s.max()], [s.min()], [s.mean()]. Of an empty series pandas answers
    NaN, which has no counterpart among the rationals: [None]. *)
Definition series_max (s : series) : option Q :=
  match s with
  | [] => None
  | x :: r => Some (fold_left Qmax r x)
  end.

Definition series_min (s : series) : option Q :=
  match s with
  | [] => None
  | x :: r => Some (fold_left Qmin r x)
  end.

Definition series_mean (s : series) : option Q :=
  match s with
  | [] => None
  | _ => Some (fold_left Qplus s 0 / inject_Z (Z.of_nat (List.length s)))
  end.

(** The answer is [None] where the window is empty, so that the levels
    would be NaN. *)
Definition _calculate_fibonacci_levels (df : DataFrame) (lookback : nat)
  : option pyval :=
  let body : result (option pyval) :=
    let lookback := if Nat.ltb (len df) lookback then len df else lookback in
    highs <- col df "high" ;;
    let recent_high := series_max (tail_values highs lookback) in
    lows <- col df "low" ;;
    let recent_low := series_min (tail_values lows lookback) in
    match recent_high, recent_low with
    | Some recent_high, Some recent_low =>
        let price_range := recent_high - recent_low in
        if Qeq_bool price_range 0 then Ok (Some (PDict [])) else
        Ok (Some (PDict [
          ("0", PNum recent_low);
          ("0.236", PNum (recent_low + price_range * 0.236));
          ("0.382", PNum (recent_low + price_range * 0.382));
          ("0.5", PNum (recent_low + price_range * 0.5));
          ("0.618", PNum (recent_low + price_range * 0.618));
          ("0.786", PNum (recent_low + price_range * 0.786));
          ("1", PNum recent_high);
          ("1.272", PNum (recent_low + price_range * 1.272));
          ("1.618", PNum (recent_low + price_range * 1.618))]))
    | _, _ => Ok None
    end
  in
  match body with Ok r => r | Raise _ => Some (PDict []) end.

(** *** [_find_nearest_level] *)

(** [min(l, key=key)] and [max(l, key=key)] on a list that starts with
    [best]: the first element whose key is least, or greatest. *)
Fixpoint min_by (key : Q -> Q) (best : Q) (l : list Q) : Q :=
  match l with
  | [] => best
  | x :: r => min_by key (if Qltb (key x) (key best) then x else best) r
  end.

Fixpoint max_by (key : Q -> Q) (best : Q) (l : list Q) : Q :=
  match l with
  | [] => best
  | x :: r => max_by key (if Qgtb (key x) (key best) then x else best) r
  end.

Definition nearest_record (current_price nearest : Q) : pyval :=
  let distance := Qabs (nearest - current_price) in
  let distance_percent :=
    if Qgtb current_price 0 then distance / current_price * 100 else 0 in
  PDict [("level", PNum nearest);
         ("distance", PNum distance);
         ("distance_percent", PNum distance_percent);
         ("is_close", PBool (Qltb distance_percent 0.5))].

Definition _find_nearest_level (current_price : Q) (levels : list Q)
  (above below : bool) : pyval :=
  let key := fun x => Qabs (x - current_price) in
  match levels with
  | [] => PDict []
  | first :: rest =>
      if above then
        match filter (fun l => Qgtb l current_price) levels with
        | [] => PDict []
        | e :: eligible => nearest_record current_price (min_by key e eligible)
        end
      else if below then
        match filter (fun l => Qltb l current_price) levels with
        | [] => PDict []
        | e :: eligible => nearest_record current_price (max_by key e eligible)
        end
      else nearest_record current_price (min_by key first rest)
  end.

(** *** [_count_touches], [_calculate_level_strength] *)

(** [s.iloc[i]] for [i >= 0] *)
Definition iloc (s : series) (i : nat) : result Q :=
  match nth_error s i with
  | Some x => Ok x
  | None => Raise IndexError
  end.

Fixpoint touch_loop (df : DataFrame) (level : Q) (level_type : string)
  (tolerance_amount : Q) (rows : list nat) (touches : nat) : result nat :=
  match rows with
  | [] => Ok touches
  | i :: r =>
      hit <-
        (if String.eqb level_type "support" then
           lows <- col df "low" ;;
           x <- iloc lows i ;;
           Ok (Qleb (Qabs (x - level)) tolerance_amount)
         else
           highs <- col df "high" ;;
           x <- iloc highs i ;;
           Ok (Qleb (Qabs (x - level)) tolerance_amount)) ;;
      touch_loop df level level_type tolerance_amount r
        (if hit then S touches else touches)
  end.

Definition _count_touches (df : DataFrame) (level : Q) (level_type : string)
  (tolerance : Q) : nat :=
  let tolerance_amount := level * tolerance in
  match touch_loop df level level_type tolerance_amount (seq 0 (len df)) 0 with
  | Ok touches => touches
  | Raise _ => 0%nat
  end.

Definition of_nat (n : nat) : Q := inject_Z (Z.of_nat n).

Section LevelStrength.

(** [str(level)] of a float belongs to the language. *)
Variable float_str : Q -> string.

Definition strength_entry (df : DataFrame) (level : Q) (level_type : string)
  : pyval :=
  let touches := _count_touches df level level_type 0.001 in
  PDict [("touches", PNum (of_nat touches));
         ("strength", PNum (min2 10 (of_nat touches * 2)))].

Definition _calculate_level_strength (df : DataFrame)
  (support_levels resistance_levels : list Q) : pyval :=
  let support :=
    fold_left (fun d level =>
                 dict_set d (float_str level) (strength_entry df level "support"))
              support_levels [] in
  let resistance :=
    fold_left (fun d level =>
                 dict_set d (float_str level)
                          (strength_entry df level "resistance"))
              resistance_levels [] in
  PDict [("support", PDict support); ("resistance", PDict resistance)].

End LevelStrength.

(** *** [_get_dynamic_levels] *)

(** [float(df[name].iloc[-1])] stored under [name] *)
Definition put_last (df : DataFrame) (name : string)
  (d : list (string * pyval)) : result (list (string * pyval)) :=
  x <- cell df 1 name ;;
  Ok (dict_set d name (PNum x)).

Fixpoint put_emas (df : DataFrame) (periods : list string)
  (d : list (string * pyval)) : result (list (string * pyval)) :=
  match periods with
  | [] => Ok d
  | period :: r =>
      let col := ("ema_" ++ period)%string in
      d <- (if has_column df col then put_last df col d else Ok d) ;;
      put_emas df r d
  end.

Definition _get_dynamic_levels (df : DataFrame) : pyval :=
  let body : result pyval :=
    dynamic_levels <- put_emas df ["20"; "50"; "100"; "200"] [] ;;
    dynamic_levels <-
      (if has_column df "bb_upper" then
         d <- put_last df "bb_upper" dynamic_levels ;;
         d <- put_last df "bb_middle" d ;;
         put_last df "bb_lower" d
       else Ok dynamic_levels) ;;
    Ok (PDict dynamic_levels)
  in
  match body with Ok r => r | Raise _ => PDict [] end.

(** *** [_analyze_market_profile] *)

(** [None] where the mean of the closes would be NaN. *)
Definition _analyze_market_profile (df : DataFrame) : option pyval :=
  let body : result (option pyval) :=
    if Nat.ltb (len df) 20 then Ok (Some (PDict [])) else
    lows <- col df "low" ;;
    highs <- col df "high" ;;
    closes <- col df "close" ;;
    match series_mean (tail_values closes 20) with
    | Some point_of_control =>
        Ok (Some (PDict [("high_volume_nodes", PList []);
                         ("low_volume_nodes", PList []);
                         ("point_of_control", PNum point_of_control)]))
    | None => Ok None
    end
  in
  match body with Ok r => r | Raise _ => Some (PDict []) end.

(** *** [_identify_key_levels] *)

Section KeyLevels.

Variable float_str : Q -> string.

(** The dictionary is filled entry by entry, but only the complete one is
    returned: the handler answers [{}]. [None] where an entry would hold
    NaN. *)
Definition _identify_key_levels (df : DataFrame) : option pyval :=
  let body : result (option pyval) :=
    let support_levels := _find_support_levels df 100 in
    let resistance_levels := _find_resistance_levels df 100 in
    let pivot_points := _calculate_pivot_points df in
    let fibonacci_levels := _calculate_fibonacci_levels df 50 in
    let dynamic_levels := _get_dynamic_levels df in
    let market_profile := _analyze_market_profile df in
    current_price <- cell df 1 "close" ;;
    let nearest_support :=
      _find_nearest_level current_price support_levels false true in
    let nearest_resistance :=
      _find_nearest_level current_price resistance_levels true false in
    let level_strength :=
      _calculate_level_strength float_str df support_levels
        resistance_levels in
    match fibonacci_levels, market_profile with
    | Some fibonacci_levels, Some market_profile =>
        Ok (Some (PDict [
          ("support", PList (map PNum support_levels));
          ("resistance", PList (map PNum resistance_levels));
          ("pivot_points", pivot_points);
          ("fibonacci", fibonacci_levels);
          ("dynamic", dynamic_levels);
          ("market_profile", market_profile);
          ("nearest_support", nearest_support);
          ("nearest_resistance", nearest_resistance);
          ("level_strength", level_strength)]))
    | _, _ => Ok None
    end
  in
  match body with Ok r => r | Raise _ => Some (PDict []) end.

End KeyLevels.

(** [int(q)]: towards zero *)
Definition py_int (q : Q) : Z := if Qltb q 0 then Qceiling q else Qfloor q.

Definition int_val (q : Q) : pyval := PNum (inject_Z (py_int q)).

(** *** [_find_peaks], [_find_valleys] *)

(** The builtins [max(s)] and [min(s)] on an array. *)
Definition builtin_max (s : series) : result Q :=
  match s with
  | [] => Raise ValueError
  | x :: r => Ok (fold_left max2 r x)
  end.

Definition builtin_min (s : series) : result Q :=
  match s with
  | [] => Raise ValueError
  | x :: r => Ok (fold_left min2 r x)
  end.

(** [s[a:b]] for [0 <= a] *)
Definition slice (s : series) (a b : nat) : series :=
  firstn (b - a) (skipn a s).

Fixpoint extremes (pick : series -> result Q) (data : series)
  (lookaround : nat) (range : list nat) (found : list nat)
  : result (list nat) :=
  match range with
  | [] => Ok found
  | i :: r =>
      x <- iloc data i ;;
      m <- pick (slice data (i - lookaround) (i + lookaround + 1)) ;;
      extremes pick data lookaround r
        (if Qeq_bool x m then found ++ [i] else found)
  end.

Definition _find_peaks (data : series) (lookaround : nat)
  : result (list nat) :=
  extremes builtin_max data lookaround
    (seq lookaround (List.length data - lookaround - lookaround)) [].

Definition _find_valleys (data : series) (lookaround : nat)
  : result (list nat) :=
  extremes builtin_min data lookaround
    (seq lookaround (List.length data - lookaround - lookaround)) [].

(** *** [_check_rsi_divergence] *)

(** [l[-k]] for [k >= 1] on a list of positions *)
Definition from_end (l : list nat) (k : nat) : result nat :=
  if Nat.leb 1 k && Nat.leb k (List.length l)
  then Ok (nth (List.length l - k) l 0%nat)
  else Raise IndexError.

(** [a[p[-1]] > a[p[-2]]] and [a[p[-1]] < a[p[-2]]] *)
Definition last_above (a : series) (p : list nat) : result bool :=
  i <- from_end p 1 ;; x <- iloc a i ;;
  j <- from_end p 2 ;; y <- iloc a j ;;
  Ok (Qgtb x y).

Definition last_below (a : series) (p : list nat) : result bool :=
  i <- from_end p 1 ;; x <- iloc a i ;;
  j <- from_end p 2 ;; y <- iloc a j ;;
  Ok (Qltb x y).

Definition _check_rsi_divergence (df : DataFrame) (period : nat) : string :=
  let body : result string :=
    if Nat.ltb (len df) (period * 2) then Ok "NO_DATA" else
    closes <- col df "close" ;;
    let prices := tail_values closes (period * 2) in
    if negb (has_column df "rsi") then Ok "NO_RSI_DATA" else
    rsi <- col df "rsi" ;;
    let rsi_values := tail_values rsi (period * 2) in
    price_peaks <- _find_peaks prices 3 ;;
    rsi_peaks <- _find_peaks rsi_values 3 ;;
    bearish <-
      (if Nat.leb 2 (List.length price_peaks)
          && Nat.leb 2 (List.length rsi_peaks)
       then andM (last_above prices price_peaks)
                 (last_below rsi_values rsi_peaks)
       else Ok false) ;;
    if bearish then Ok "BEARISH_DIVERGENCE" else
    price_valleys <- _find_valleys prices 3 ;;
    rsi_valleys <- _find_valleys rsi_values 3 ;;
    bullish <-
      (if Nat.leb 2 (List.length price_valleys)
          && Nat.leb 2 (List.length rsi_valleys)
       then andM (last_below prices price_valleys)
                 (last_above rsi_values rsi_valleys)
       else Ok false) ;;
    if bullish then Ok "BULLISH_DIVERGENCE" else Ok "NO_DIVERGENCE"
  in
  match body with Ok r => r | Raise _ => "ERROR" end.

(** *** [_analyze_trend] *)

(** The dictionary [ema_values] has the periods for keys; here it is the
    list of its items, and as a value of the result its keys are the
    periods written in decimal. *)
Fixpoint read_emas (df : DataFrame) (periods : list nat)
  : result (list (nat * Q)) :=
  match periods with
  | [] => Ok []
  | period :: r =>
      let col := ("ema_" ++ nat_str period)%string in
      if has_column df col then
        x <- cell df 1 col ;;
        rest <- read_emas df r ;;
        Ok ((period, x) :: rest)
      else read_emas df r
  end.

(** [ema_values.get(period, 0)] *)
Fixpoint ema_get (ema_values : list (nat * Q)) (period : nat) : Q :=
  match ema_values with
  | [] => 0
  | (p, v) :: r => if Nat.eqb p period then v else ema_get r period
  end.

(** [all(price > e[i] > e[i+1] for i in range(len(e) - 1))], and the same
    with [<]. *)
Fixpoint all_aligned (cmp : Q -> Q -> bool) (current_price : Q)
  (ema_prices : list Q) : bool :=
  match ema_prices with
  | a :: r =>
      match r with
      | b :: _ => cmp current_price a && cmp a b
                  && all_aligned cmp current_price r
      | [] => true
      end
  | [] => true
  end.

(** [df[name].iloc[-1] if name in df.columns else 0] *)
Definition last_or_zero (df : DataFrame) (name : string) : result Q :=
  if has_column df name then cell df 1 name else Ok 0.

Definition _analyze_trend (df : DataFrame) : pyval :=
  let body : result pyval :=
    current_price <- cell df 1 "close" ;;
    ema_values <- read_emas df [9; 20; 50; 100; 200]%nat ;;
    let '(trend_direction, trend_strength) :=
      if Nat.leb 3 (List.length ema_values) then
        let ema_prices := map snd ema_values in
        if all_aligned Qgtb current_price ema_prices
        then ("STRONG_BULLISH", 95)
        else if all_aligned Qltb current_price ema_prices
        then ("STRONG_BEARISH", 95)
        else if Qgtb current_price (ema_get ema_values 20)
                && Qgtb (ema_get ema_values 20) (ema_get ema_values 50)
        then ("BULLISH", 70)
        else if Qltb current_price (ema_get ema_values 20)
                && Qltb (ema_get ema_values 20) (ema_get ema_values 50)
        then ("BEARISH", 70)
        else ("NEUTRAL", 0)
      else ("NEUTRAL", 0) in
    macd_signal <-
      (if has_column df "macd" && has_column df "macd_signal" then
         macd_current <- cell df 1 "macd" ;;
         macd_signal_current <- cell df 1 "macd_signal" ;;
         macd_prev <-
           (if Nat.ltb 1 (len df) then cell df 2 "macd"
            else Ok macd_current) ;;
         macd_signal_prev <-
           (if Nat.ltb 1 (len df) then cell df 2 "macd_signal"
            else Ok macd_signal_current) ;;
         if Qgtb macd_current macd_signal_current
            && Qleb macd_prev macd_signal_prev
         then Ok "BULLISH_CROSS"
         else if Qltb macd_current macd_signal_current
                 && Qgeb macd_prev macd_signal_prev
         then Ok "BEARISH_CROSS"
         else if Qgtb macd_current macd_signal_current then Ok "BULLISH"
         else if Qltb macd_current macd_signal_current then Ok "BEARISH"
         else Ok "NEUTRAL"
       else Ok "NEUTRAL") ;;
    adx_strength <-
      (if has_column df "adx" then
         adx_value <- cell df 1 "adx" ;;
         if Qgtb adx_value 25 then Ok (min2 100 ((adx_value - 25) * 2))
         else Ok 0
       else Ok 0) ;;
    macd_value <- last_or_zero df "macd" ;;
    macd_signal_value <- last_or_zero df "macd_signal" ;;
    adx_value <- last_or_zero df "adx" ;;
    Ok (PDict [
      ("direction", PStr trend_direction);
      ("strength", int_val trend_strength);
      ("ema_alignment",
         PDict (map (fun kv => (nat_str (fst kv), PNum (snd kv))) ema_values));
      ("macd", PDict [("value", PNum macd_value);
                      ("signal", PNum macd_signal_value);
                      ("cross_signal", PStr macd_signal)]);
      ("adx", PDict [("value", PNum adx_value);
                     ("strength", int_val adx_strength)])])
  in
  match body with
  | Ok r => r
  | Raise _ => PDict [("direction", PStr "UNKNOWN"); ("strength", PNum 0)]
  end.

(** *** [_analyze_momentum] *)

(** The loop over [momentum_indicators.items()] that counts the signals. *)
Fixpoint count_signals (items : list (string * pyval)) (bull_count : Z)
  (total_count : nat) : result (Z * nat) :=
  match items with
  | [] => Ok (bull_count, total_count)
  | (ind, values) :: r =>
      has_signal <- py_contains values "signal" ;;
      if has_signal then
        signal <- py_item values "signal" ;;
        bull <- py_contains signal "BULL" ;;
        if bull then count_signals r (bull_count + 1)%Z (S total_count) else
        bear <- py_contains signal "BEAR" ;;
        if bear then count_signals r (bull_count - 1)%Z (S total_count)
        else count_signals r bull_count (S total_count)
      else count_signals r bull_count total_count
  end.

Definition _analyze_momentum (df : DataFrame) : pyval :=
  let body : result pyval :=
    let momentum_indicators : list (string * pyval) := [] in
    momentum_indicators <-
      (if has_column df "rsi" then
         rsi_value <- cell df 1 "rsi" ;;
         let rsi_signal :=
           if Qgtb rsi_value 70 then "OVERBOUGHT"
           else if Qltb rsi_value 30 then "OVERSOLD"
           else if Qgtb rsi_value 50 then "BULLISH"
           else if Qltb rsi_value 50 then "BEARISH"
           else "NEUTRAL" in
         Ok (dict_set momentum_indicators "rsi"
               (PDict [("value", PNum rsi_value);
                       ("signal", PStr rsi_signal);
                       ("divergence", PStr (_check_rsi_divergence df 14))]))
       else Ok momentum_indicators) ;;
    momentum_indicators <-
      (if has_column df "stoch_k" && has_column df "stoch_d" then
         stoch_k <- cell df 1 "stoch_k" ;;
         stoch_d <- cell df 1 "stoch_d" ;;
         stoch_signal <-
           (if Qgtb stoch_k 80 && Qgtb stoch_d 80 then Ok "OVERBOUGHT"
            else if Qltb stoch_k 20 && Qltb stoch_d 20 then Ok "OVERSOLD"
            else
              up <- (if Qgtb stoch_k stoch_d then
                       k2 <- cell df 2 "stoch_k" ;;
                       d2 <- cell df 2 "stoch_d" ;;
                       Ok (Qleb k2 d2)
                     else Ok false) ;;
              if up then Ok "BULLISH_CROSS" else
              down <- (if Qltb stoch_k stoch_d then
                         k2 <- cell df 2 "stoch_k" ;;
                         d2 <- cell df 2 "stoch_d" ;;
                         Ok (Qgeb k2 d2)
                       else Ok false) ;;
              if down then Ok "BEARISH_CROSS" else Ok "NEUTRAL") ;;
         Ok (dict_set momentum_indicators "stochastic"
               (PDict [("k", PNum stoch_k);
                       ("d", PNum stoch_d);
                       ("signal", PStr stoch_signal)]))
       else Ok momentum_indicators) ;;
    momentum_indicators <-
      (if has_column df "williams_r" then
         will_r <- cell df 1 "williams_r" ;;
         let will_signal :=
           if Qgtb will_r (-20) then "OVERBOUGHT"
           else if Qltb will_r (-80) then "OVERSOLD"
           else "NEUTRAL" in
         Ok (dict_set momentum_indicators "williams_r"
               (PDict [("value", PNum will_r);
                       ("signal", PStr will_signal)]))
       else Ok momentum_indicators) ;;
    momentum_indicators <-
      (if has_column df "cci" then
         cci_value <- cell df 1 "cci" ;;
         let cci_signal :=
           if Qgtb cci_value 100 then "OVERBOUGHT"
           else if Qltb cci_value (-100) then "OVERSOLD"
           else "NEUTRAL" in
         Ok (dict_set momentum_indicators "cci"
               (PDict [("value", PNum cci_value);
                       ("signal", PStr cci_signal)]))
       else Ok momentum_indicators) ;;
    counts <-
      (if truthy (PDict momentum_indicators)
       then count_signals momentum_indicators 0%Z 0%nat
       else Ok (0%Z, 0%nat)) ;;
    let '(bull_count, total_count) := counts in
    let '(overall_momentum, momentum_score) :=
      if Nat.ltb 0 total_count then
        let momentum_score :=
          50 + inject_Z bull_count / of_nat total_count * 50 in
        let momentum_score := max2 0 (min2 100 momentum_score) in
        (if Qgtb momentum_score 60 then "BULLISH"
         else if Qltb momentum_score 40 then "BEARISH"
         else "NEUTRAL",
         momentum_score)
      else ("NEUTRAL", 50) in
    Ok (PDict [("indicators", PDict momentum_indicators);
               ("overall", PStr overall_momentum);
               ("score", int_val momentum_score)])
  in
  match body with
  | Ok r => r
  | Raise _ => PDict [("overall", PStr "NEUTRAL"); ("score", PNum 50)]
  end.

(** *** [_analyze_volatility] *)

(** [s.rolling(w).mean().iloc[-1]] on a series that has a last entry: NaN
    ([None]) while fewer than [w] values are there. *)
Definition rolling_mean_last (s : series) (w : nat) : option Q :=
  if Nat.ltb (List.length s) w then None else series_mean (tail_values s w).

(** [sum(scores) / len(scores)] *)
Definition average (scores : list Q) : Q :=
  fold_left Qplus scores 0 / of_nat (List.length scores).

(** The grades behind the overall level: one for the ATR, one for the
    Bollinger band width. *)
Definition volatility_scores (volatility_indicators : pyval)
  : result (list Q) :=
  if truthy volatility_indicators then
    let scores : list Q := [] in
    has_atr <- py_contains volatility_indicators "atr" ;;
    scores <-
      (if has_atr then
         atr <- py_item volatility_indicators "atr" ;;
         p <- py_item atr "percent" ;;
         atr_percent <- num p ;;
         Ok (scores ++
             [if Qgtb atr_percent 1.5 then 8
              else if Qgtb atr_percent 1.0 then 6
              else if Qgtb atr_percent 0.5 then 4
              else 2])
       else Ok scores) ;;
    has_bb <- py_contains volatility_indicators "bollinger_bands" ;;
    if has_bb then
      bb <- py_item volatility_indicators "bollinger_bands" ;;
      w <- py_item bb "width" ;;
      bb_width <- num w ;;
      Ok (scores ++
          [if Qgtb bb_width 0.02 then 8
           else if Qgtb bb_width 0.01 then 6
           else if Qgtb bb_width 0.005 then 4
           else 2])
    else Ok scores
  else Ok [].

Definition _analyze_volatility (df : DataFrame) : pyval :=
  let body : result pyval :=
    let volatility_indicators : list (string * pyval) := [] in
    volatility_indicators <-
      (if has_column df "bb_width" then
         bb_width <- cell df 1 "bb_width" ;;
         current_price <- cell df 1 "close" ;;
         bb_position <-
           (if has_column df "bb_upper" && has_column df "bb_lower" then
              upper <- cell df 1 "bb_upper" ;;
              if Qgtb current_price upper then Ok "ABOVE_UPPER" else
              lower <- cell df 1 "bb_lower" ;;
              if Qltb current_price lower then Ok "BELOW_LOWER" else
              middle <- cell df 1 "bb_middle" ;;
              if Qgtb current_price middle then Ok "UPPER_HALF"
              else Ok "LOWER_HALF"
            else Ok "MIDDLE") ;;
         squeeze <-
           (if Nat.ltb 20 (len df) then
              widths <- col df "bb_width" ;;
              match rolling_mean_last widths 20 with
              | Some bb_width_ma => Ok (Qltb bb_width (bb_width_ma * 0.7))
              | None => Ok false
              end
            else Ok false) ;;
         percent <- last_or_zero df "bb_pct" ;;
         Ok (dict_set volatility_indicators "bollinger_bands"
               (PDict [("width", PNum bb_width);
                       ("position", PStr bb_position);
                       ("squeeze", PBool squeeze);
                       ("percent", PNum percent)]))
       else Ok volatility_indicators) ;;
    volatility_indicators <-
      (if has_column df "atr" then
         atr_value <- cell df 1 "atr" ;;
         close <- cell df 1 "close" ;;
         atr_percent <-
           (if Qgtb close 0 then
              close <- cell df 1 "close" ;; Ok (atr_value / close * 100)
            else Ok 0) ;;
         let volatility_level :=
           if Qgtb atr_percent 1.5 then "HIGH"
           else if Qltb atr_percent 0.3 then "LOW"
           else "NORMAL" in
         Ok (dict_set volatility_indicators "atr"
               (PDict [("value", PNum atr_value);
                       ("percent", PNum atr_percent);
                       ("level", PStr volatility_level)]))
       else Ok volatility_indicators) ;;
    volatility_indicators <-
      (if has_column df "kc_upper" && has_column df "kc_lower" then
         kc_upper <- cell df 1 "kc_upper" ;;
         kc_lower <- cell df 1 "kc_lower" ;;
         let kc_width := kc_upper - kc_lower in
         close <- cell df 1 "close" ;;
         kc_width_percent <-
           (if Qgtb close 0 then
              close <- cell df 1 "close" ;; Ok (kc_width / close * 100)
            else Ok 0) ;;
         Ok (dict_set volatility_indicators "keltner_channel"
               (PDict [("width", PNum kc_width);
                       ("width_percent", PNum kc_width_percent)]))
       else Ok volatility_indicators) ;;
    let indicators := PDict volatility_indicators in
    scores <- volatility_scores indicators ;;
    let '(overall_volatility, volatility_score) :=
      match scores with
      | [] => ("MEDIUM", 5.0)
      | _ =>
          let volatility_score := average scores in
          (if Qgeb volatility_score 7 then "HIGH"
           else if Qgeb volatility_score 4 then "MEDIUM"
           else "LOW",
           volatility_score)
      end in
    Ok (PDict [("indicators", indicators);
               ("overall", PStr overall_volatility);
               ("score", PNum volatility_score)])
  in
  match body with
  | Ok r => r
  | Raise _ => PDict [("overall", PStr "MEDIUM"); ("score", PNum 5.0)]
  end.

(** *** [_analyze_volume] *)

(** The votes behind the confirmation: one for the relative volume, one
    for the trend of the on-balance volume. *)
Definition volume_confirmations (volume_indicators : pyval)
  : result (list Q) :=
  if truthy volume_indicators then
    let confirmations : list Q := [] in
    has_volume <- py_contains volume_indicators "volume" ;;
    confirmations <-
      (if has_volume then
         volume <- py_item volume_indicators "volume" ;;
         vol_signal <- py_item volume "signal" ;;
         Ok (confirmations ++
             [if in_strs vol_signal ["HIGH"; "VERY_HIGH"; "EXTREME_HIGH"]
              then 1
              else if in_strs vol_signal ["LOW"; "VERY_LOW"; "EXTREME_LOW"]
              then -1
              else 0])
       else Ok confirmations) ;;
    has_obv <- py_contains volume_indicators "obv" ;;
    if has_obv then
      obv <- py_item volume_indicators "obv" ;;
      obv_trend <- py_item obv "trend" ;;
      bull <- py_contains obv_trend "BULLISH" ;;
      if bull then Ok (confirmations ++ [1]) else
      bear <- py_contains obv_trend "BEARISH" ;;
      if bear then Ok (confirmations ++ [-1])
      else Ok (confirmations ++ [0])
    else Ok confirmations
  else Ok [].

Definition _analyze_volume (df : DataFrame) : pyval :=
  let body : result pyval :=
    let volume_indicators : list (string * pyval) := [] in
    volume_indicators <-
      (if has_column df "tick_volume" then
         current_volume <- cell df 1 "tick_volume" ;;
         volume_sma <-
           (if has_column df "volume_sma" then cell df 1 "volume_sma"
            else Ok current_volume) ;;
         let volume_ratio :=
           if Qgtb volume_sma 0 then current_volume / volume_sma else 1 in
         let volume_signal :=
           if Qgtb volume_ratio 3 then "EXTREME_HIGH"
           else if Qgtb volume_ratio 2 then "VERY_HIGH"
           else if Qgtb volume_ratio 1.5 then "HIGH"
           else if Qltb volume_ratio 0.3 then "EXTREME_LOW"
           else if Qltb volume_ratio 0.5 then "VERY_LOW"
           else if Qltb volume_ratio 0.8 then "LOW"
           else "NORMAL" in
         Ok (dict_set volume_indicators "volume"
               (PDict [("current", PNum current_volume);
                       ("sma", PNum volume_sma);
                       ("ratio", PNum volume_ratio);
                       ("signal", PStr volume_signal)]))
       else Ok volume_indicators) ;;
    volume_indicators <-
      (if has_column df "obv" then
         obv_current <- cell df 1 "obv" ;;
         obv_prev <-
           (if Nat.ltb 20 (len df) then cell df 20 "obv"
            else Ok obv_current) ;;
         let obv_change :=
           if negb (Qeq_bool obv_prev 0)
           then (obv_current - obv_prev) / Qabs obv_prev * 100
           else 0 in
         let obv_trend :=
           if Qgtb obv_change 20 then "STRONG_BULLISH"
           else if Qgtb obv_change 10 then "BULLISH"
           else if Qltb obv_change (-20) then "STRONG_BEARISH"
           else if Qltb obv_change (-10) then "BEARISH"
           else "NEUTRAL" in
         Ok (dict_set volume_indicators "obv"
               (PDict [("value", PNum obv_current);
                       ("change_percent", PNum obv_change);
                       ("trend", PStr obv_trend)]))
       else Ok volume_indicators) ;;
    volume_indicators <-
      (if has_column df "mfi" then
         mfi_value <- cell df 1 "mfi" ;;
         let mfi_signal :=
           if Qgtb mfi_value 80 then "OVERBOUGHT"
           else if Qltb mfi_value 20 then "OVERSOLD"
           else if Qgtb mfi_value 50 then "BULLISH"
           else if Qltb mfi_value 50 then "BEARISH"
           else "NEUTRAL" in
         Ok (dict_set volume_indicators "mfi"
               (PDict [("value", PNum mfi_value);
                       ("signal", PStr mfi_signal)]))
       else Ok volume_indicators) ;;
    let indicators := PDict volume_indicators in
    confirmations <- volume_confirmations indicators ;;
    let volume_confirmation :=
      match confirmations with
      | [] => "NEUTRAL"
      | _ =>
          let avg_confirmation := average confirmations in
          if Qgtb avg_confirmation 0.3 then "BULLISH_CONFIRMATION"
          else if Qltb avg_confirmation (-0.3) then "BEARISH_CONFIRMATION"
          else "NEUTRAL"
      end in
    Ok (PDict [("indicators", indicators);
               ("confirmation", PStr volume_confirmation)])
  in
  match body with
  | Ok r => r
  | Raise _ => PDict [("confirmation", PStr "NEUTRAL")]
  end.

(** *** [_analyze_ichimoku] *)

Definition _analyze_ichimoku (df : DataFrame) : pyval :=
  let body : result pyval :=
    if negb (has_column df "ichi_conversion") then Ok (PDict []) else
    current_price <- cell df 1 "close" ;;
    conversion <- cell df 1 "ichi_conversion" ;;
    base <- cell df 1 "ichi_base" ;;
    leading_a <-
      (if Nat.ltb 26 (len df) then cell df 26 "ichi_leading_a" else Ok 0) ;;
    leading_b <-
      (if Nat.ltb 26 (len df) then cell df 26 "ichi_leading_b" else Ok 0) ;;
    lagging <-
      (if Nat.ltb 26 (len df)
       then (c <- col df "ichi_lagging" ;; iloc c 26)
       else Ok 0) ;;
    let signals : list string := [] in
    let signals :=
      if Qgtb conversion base then signals ++ ["BULLISH_TK_CROSS"]
      else if Qltb conversion base then signals ++ ["BEARISH_TK_CROSS"]
      else signals in
    let signals :=
      if Qgtb leading_a 0 && Qgtb leading_b 0 then
        if Qgtb current_price (max2 leading_a leading_b)
        then signals ++ ["ABOVE_CLOUD"]
        else if Qltb current_price (min2 leading_a leading_b)
        then signals ++ ["BELOW_CLOUD"]
        else signals ++ ["INSIDE_CLOUD"]
      else signals in
    let cloud_color :=
      if Qgtb leading_a leading_b then "GREEN"
      else if Qltb leading_a leading_b then "RED"
      else "NEUTRAL" in
    chikou_signal <-
      (if Qgtb lagging 0 then
         c <- col df "close" ;;
         past <- iloc c 26 ;;
         if Qgtb lagging past then Ok "BULLISH" else
         c <- col df "close" ;;
         past <- iloc c 26 ;;
         if Qltb lagging past then Ok "BEARISH" else Ok "NEUTRAL"
       else Ok "NEUTRAL") ;;
    Ok (PDict [("tenkan_sen", PNum conversion);
               ("kijun_sen", PNum base);
               ("senkou_span_a", PNum leading_a);
               ("senkou_span_b", PNum leading_b);
               ("chikou_span", PNum lagging);
               ("cloud_color", PStr cloud_color);
               ("signals", PList (map PStr signals));
               ("chikou_signal", PStr chikou_signal)])
  in
  match body with Ok r => r | Raise _ => PDict [] end.

(** *** [_determine_overall_trend] *)

(** [momentum_score * 0.3] and [volatility_score * 10] are products of a
    fetched value; a text or list times 10 is a sequence, and [100] minus
    a sequence raises as the product with a fraction does. *)
Definition _determine_overall_trend
  (trend_analysis momentum_analysis volatility_analysis : pyval) : string :=
  let body : result string :=
    momentum_score <- py_get momentum_analysis "score" (PNum 50) ;;
    volatility_score <- py_get volatility_analysis "score" (PNum 5.0) ;;
    trend_direction <- py_get trend_analysis "direction" (PStr "NEUTRAL") ;;
    let trend_score :=
      if is_str trend_direction "STRONG_BULLISH" then 90
      else if is_str trend_direction "BULLISH" then 70
      else if is_str trend_direction "STRONG_BEARISH" then 10
      else if is_str trend_direction "BEARISH" then 30
      else 50 in
    m <- num momentum_score ;;
    v <- num volatility_score ;;
    let overall_score := trend_score * 0.5 + m * 0.3 + (100 - v * 10) * 0.2 in
    if Qgeb overall_score 70 then Ok "STRONG_BULLISH"
    else if Qgeb overall_score 60 then Ok "BULLISH"
    else if Qleb overall_score 30 then Ok "STRONG_BEARISH"
    else if Qleb overall_score 40 then Ok "BEARISH"
    else Ok "NEUTRAL"
  in
  match body with Ok r => r | Raise _ => "NEUTRAL" end.

(** *** [_technical_analysis] *)

Definition _technical_analysis (df : DataFrame) : pyval :=
  let body : result pyval :=
    current_price <- cell df 1 "close" ;;
    let trend_analysis := _analyze_trend df in
    let momentum_analysis := _analyze_momentum df in
    let volatility_analysis := _analyze_volatility df in
    let volume_analysis := _analyze_volume df in
    let ichimoku_analysis :=
      if has_column df "ichi_conversion" then _analyze_ichimoku df
      else PDict [] in
    Ok (PDict [
      ("trend", trend_analysis);
      ("momentum", momentum_analysis);
      ("volatility", volatility_analysis);
      ("volume", volume_analysis);
      ("ichimoku", ichimoku_analysis);
      ("overall_trend",
         PStr (_determine_overall_trend trend_analysis momentum_analysis
                 volatility_analysis))])
  in
  match body with Ok r => r | Raise _ => PDict [] end.

(** *** [_price_analysis] *)

Definition _price_analysis (df : DataFrame) : pyval :=
  let body : result pyval :=
    current_price <- cell df 1 "close" ;;
    open_price <- cell df 1 "open" ;;
    high_price <- cell df 1 "high" ;;
    low_price <- cell df 1 "low" ;;
    let daily_change := current_price - open_price in
    let daily_change_percent :=
      if Qgtb open_price 0 then daily_change / open_price * 100 else 0 in
    let daily_range := high_price - low_price in
    let daily_range_percent :=
      if Qgtb current_price 0 then daily_range / current_price * 100 else 0 in
    let position_in_range :=
      if Qgtb daily_range 0
      then (current_price - low_price) / daily_range * 100
      else 50 in
    let candle_body := Qabs (current_price - open_price) in
    let candle_range := high_price - low_price in
    let body_ratio :=
      if Qgtb candle_range 0 then candle_body / candle_range * 100 else 0 in
    let candle_type :=
      if Qltb body_ratio 10 then "DOJI"
      else if Qgtb body_ratio 90 then "MARUBOZU"
      else "NORMAL" in
    let candle_direction :=
      if Qgtb current_price open_price then "BULLISH"
      else if Qltb current_price open_price then "BEARISH"
      else "NEUTRAL" in
    Ok (PDict [
      ("current", PNum current_price);
      ("open", PNum open_price);
      ("high", PNum high_price);
      ("low", PNum low_price);
      ("daily_change", PNum daily_change);
      ("daily_change_percent", PNum daily_change_percent);
      ("daily_range", PNum daily_range);
      ("daily_range_percent", PNum daily_range_percent);
      ("position_in_range", PNum position_in_range);
      ("candle", PDict [("type", PStr candle_type);
                        ("direction", PStr candle_direction);
                        ("body_ratio", PNum body_ratio)])])
  in
  match body with Ok r => r | Raise _ => PDict [] end.

(** *** The classic patterns *)

Definition DOUBLE_TOP : pyval :=
  pattern "DOUBLE_TOP" "REVERSAL" "BEARISH" "MEDIUM" 7 "MEDIUM"
          "الگوی دو قله - بازگشت نزولی".
Definition DOUBLE_BOTTOM : pyval :=
  pattern "DOUBLE_BOTTOM" "REVERSAL" "BULLISH" "MEDIUM" 7 "MEDIUM"
          "الگوی دو دره - بازگشت صعودی".

(** [_detect_head_shoulders]: the window is read and nothing is
    detected. *)
Definition _detect_head_shoulders (df : DataFrame) : list pyval := [].

(** The positions [1 .. len - 2] whose price lies strictly above, or
    strictly below, both neighbours, each with its price. *)
Fixpoint turning_points (cmp : Q -> Q -> bool) (prices : series)
  (range : list nat) : result (list (nat * Q)) :=
  match range with
  | [] => Ok []
  | i :: r =>
      x <- iloc prices i ;;
      before <- iloc prices (i - 1) ;;
      hit <- (if cmp x before
              then (after <- iloc prices (i + 1) ;; Ok (cmp x after))
              else Ok false) ;;
      rest <- turning_points cmp prices r ;;
      Ok (if hit then (i, x) :: rest else rest)
  end.

(** [l[-k]] for [k >= 1] on a list of turning points *)
Definition point_from_end (l : list (nat * Q)) (k : nat)
  : result (nat * Q) :=
  match nth_error (rev l) (k - 1) with
  | Some p => if Nat.leb 1 k then Ok p else Raise IndexError
  | None => Raise IndexError
  end.

(** [abs(a - b) / b < bound] on array elements: a division by zero is no
    exception there but an infinity or NaN, so that the test fails. *)
Definition relative_gap_below (a b bound : Q) : bool :=
  if Qeq_bool b 0 then false else Qltb (Qabs (a - b) / b) bound.

(** The test shared by the double top and the double bottom: the last two
    turning points of one kind lie 5 to 15 bars apart at prices within 2%,
    with a turning point of the other kind strictly between them. *)
Definition twin (points others : list (nat * Q)) : result bool :=
  if Nat.leb 2 (List.length points) then
    p1 <- point_from_end points 2 ;;
    p2 <- point_from_end points 1 ;;
    let '(p1_idx, p1_price) := p1 in
    let '(p2_idx, p2_price) := p2 in
    let gap := (Nat.max p1_idx p2_idx - Nat.min p1_idx p2_idx)%nat in
    if Nat.leb 5 gap && Nat.leb gap 15
       && relative_gap_below p2_price p1_price 0.02
    then Ok (existsb (fun v => Nat.ltb p1_idx (fst v) && Nat.ltb (fst v) p2_idx)
                     others)
    else Ok false
  else Ok false.

Definition _detect_double_top_bottom (df : DataFrame) : list pyval :=
  if Nat.ltb (len df) 20 then [] else
  let head : result (list (nat * Q) * list (nat * Q)) :=
    closes <- col df "close" ;;
    let prices := tail_values closes 20 in
    let range := seq 1 (List.length prices - 1 - 1) in
    peaks <- turning_points Qgtb prices range ;;
    valleys <- turning_points Qltb prices range ;;
    Ok (peaks, valleys)
  in
  match head with
  | Raise _ => []
  | Ok (peaks, valleys) =>
      fst (exec_block
             [ atomic (fun patterns =>
                 top <- twin peaks valleys ;;
                 Ok (if top then patterns ++ [DOUBLE_TOP] else patterns));
               atomic (fun patterns =>
                 bottom <- twin valleys peaks ;;
                 Ok (if bottom then patterns ++ [DOUBLE_BOTTOM]
                     else patterns)) ]
             [])
  end.

Section Triangles.

(** The slope that [scipy.stats.linregress] fits to the values against
    their positions [0, 1, 2, ...]. *)
Variable linregress_slope : series -> result Q.

(** [name.replace("_", " ").title()] on the three names in use. *)
Definition title (name : string) : string :=
  if String.eqb name "SYMMETRICAL_TRIANGLE" then "Symmetrical Triangle"
  else if String.eqb name "DESCENDING_TRIANGLE" then "Descending Triangle"
  else "Ascending Triangle".

Definition triangle (triangle_type : string) : pyval :=
  let direction :=
    if String.eqb triangle_type "ASCENDING_TRIANGLE" then "BULLISH"
    else if String.eqb triangle_type "DESCENDING_TRIANGLE" then "BEARISH"
    else "NEUTRAL" in
  pattern triangle_type "CONTINUATION" direction "MEDIUM" 6 "MEDIUM"
          ("الگوی مثلث " ++ title triangle_type ++ " - ادامه روند").

Definition _detect_triangle_patterns (df : DataFrame) : list pyval :=
  if Nat.ltb (len df) 15 then [] else
  let body : result (list pyval) :=
    h <- col df "high" ;;
    let highs := tail_values h 15 in
    l <- col df "low" ;;
    let lows := tail_values l 15 in
    slope_high <- linregress_slope highs ;;
    slope_low <- linregress_slope lows ;;
    let triangle_type : option string :=
      if Qltb slope_high 0 && Qgtb slope_low 0
      then Some "SYMMETRICAL_TRIANGLE"
      else if Qltb slope_high 0 && Qltb (Qabs slope_low) 0.001
      then Some "DESCENDING_TRIANGLE"
      else if Qltb (Qabs slope_high) 0.001 && Qgtb slope_low 0
      then Some "ASCENDING_TRIANGLE"
      else None in
    match triangle_type with
    | Some triangle_type =>
        top <- builtin_max highs ;;
        bottom <- builtin_min highs ;;
        let high_range := top - bottom in
        top <- builtin_max lows ;;
        bottom <- builtin_min lows ;;
        let low_range := top - bottom in
        if Qgtb high_range 0 && Qgtb low_range 0 then
          let volatility_ratio :=
            min2 high_range low_range / max2 high_range low_range in
          if Qltb volatility_ratio 0.7 then Ok [triangle triangle_type]
          else Ok []
        else Ok []
    | None => Ok []
    end
  in
  match body with Ok patterns => patterns | Raise _ => [] end.

(** [_detect_flag_pennant], [_detect_fibonacci_patterns]: a length test
    and nothing else. [_detect_harmonic_patterns]: the body of its [try]
    holds comments only (where Python wants a statement); it is read as
    an empty block. *)
Definition _detect_flag_pennant (df : DataFrame) : list pyval := [].
Definition _detect_harmonic_patterns (df : DataFrame) : list pyval := [].
Definition _detect_fibonacci_patterns (df : DataFrame) : list pyval := [].

(** The list is extended detector by detector; each detector handles its
    own exceptions. *)
Definition _detect_classic_patterns (df : DataFrame) : list pyval :=
  if Nat.ltb (len df) 20 then [] else
  _detect_head_shoulders df
  ++ _detect_double_top_bottom df
  ++ _detect_triangle_patterns df
  ++ _detect_flag_pennant df.

(** *** [_pattern_analysis] *)

(** [sum(p.get(key, 0) for p in patterns)] *)
Fixpoint sum_of (key : string) (patterns : list pyval) (total : Q)
  : result Q :=
  match patterns with
  | [] => Ok total
  | p :: r =>
      v <- py_get p key (PNum 0) ;;
      q <- num v ;;
      sum_of key r (total + q)
  end.

(** [any(p.get('type') == kind for p in patterns)] *)
Definition any_of_type (kind : string) (patterns : list pyval)
  : result bool :=
  anyM (fun p => t <- py_get p "type" PNone ;; Ok (is_str t kind)) patterns.

Definition _pattern_analysis (df : DataFrame) : pyval :=
  let body : result pyval :=
    let patterns :=
      _detect_candlestick_patterns df
      ++ _detect_classic_patterns df
      ++ _detect_harmonic_patterns df
      ++ _detect_fibonacci_patterns df in
    pattern_strength <-
      (match patterns with
       | [] => Ok 0
       | _ =>
           strength_sum <- sum_of "strength_score" patterns 0 ;;
           Ok (strength_sum / of_nat (List.length patterns))
       end) ;;
    has_reversal <- any_of_type "REVERSAL" patterns ;;
    has_continuation <- any_of_type "CONTINUATION" patterns ;;
    Ok (PDict [("patterns", PList patterns);
               ("count", PNum (of_nat (List.length patterns)));
               ("strength", PNum pattern_strength);
               ("has_reversal", PBool has_reversal);
               ("has_continuation", PBool has_continuation)])
  in
  match body with
  | Ok r => r
  | Raise _ =>
      PDict [("patterns", PList []); ("count", PNum 0); ("strength", PNum 0)]
  end.

End Triangles.

(** *** [_calculate_confidence] *)

Definition _calculate_confidence (score : Q) (reason_count : nat)
  (trend_strength pattern_count : pyval) : Q :=
  let body : result Q :=
    let confidence := 50 in
    let confidence :=
      if Qgeb score 70 || Qleb score 30 then confidence + 20
      else if Qgeb score 60 || Qleb score 40 then confidence + 10
      else confidence in
    let confidence :=
      if Nat.leb 3 reason_count then confidence + 10 else confidence in
    strong <- py_ge trend_strength (PNum 70) ;;
    let confidence := if strong then confidence + 10 else confidence in
    several <- py_ge pattern_count (PNum 2) ;;
    let confidence := if several then confidence + 5 else confidence in
    Ok (max2 0 (min2 100 confidence))
  in
  match body with Ok c => c | Raise _ => 50 end.

(** *** [_generate_signals] *)

(** [[p.get('direction') for p in patterns if p.get('type') == 'REVERSAL']] *)
Fixpoint reversal_directions (patterns : list pyval) : result (list pyval) :=
  match patterns with
  | [] => Ok []
  | p :: r =>
      t <- py_get p "type" PNone ;;
      if is_str t "REVERSAL" then
        d <- py_get p "direction" PNone ;;
        rest <- reversal_directions r ;;
        Ok (d :: rest)
      else reversal_directions r
  end.

Definition _generate_signals
  (technical_analysis price_analysis pattern_analysis key_levels : pyval)
  : pyval :=
  let body : result pyval :=
    current_price <- py_get price_analysis "current" (PNum 0) ;;
    overall_trend <- py_get technical_analysis "overall_trend" (PStr "NEUTRAL") ;;
    momentum <- py_get technical_analysis "momentum" (PDict []) ;;
    momentum_score <- py_get momentum "score" (PNum 50) ;;
    trend <- py_get technical_analysis "trend" (PDict []) ;;
    trend_strength <- py_get trend "strength" (PNum 0) ;;
    let reasons : list string := [] in
    let score := 50 in
    let '(score, reasons) :=
      if is_str overall_trend "STRONG_BULLISH"
      then (score + 20, reasons ++ ["روند صعودی قوی"])
      else if is_str overall_trend "BULLISH"
      then (score + 10, reasons ++ ["روند صعودی"])
      else if is_str overall_trend "STRONG_BEARISH"
      then (score - 20, reasons ++ ["روند نزولی قوی"])
      else if is_str overall_trend "BEARISH"
      then (score - 10, reasons ++ ["روند نزولی"])
      else (score, reasons) in
    sr <-
      (c1 <- py_gt momentum_score (PNum 70) ;;
       if c1 then Ok (score + 12, reasons ++ ["مومنتوم صعودی قوی"]) else
       c2 <- py_gt momentum_score (PNum 60) ;;
       if c2 then Ok (score + 6, reasons ++ ["مومنتوم صعودی"]) else
       c3 <- py_lt momentum_score (PNum 30) ;;
       if c3 then Ok (score - 12, reasons ++ ["مومنتوم نزولی قوی"]) else
       c4 <- py_lt momentum_score (PNum 40) ;;
       if c4 then Ok (score - 6, reasons ++ ["مومنتوم نزولی"])
       else Ok (score, reasons)) ;;
    let '(score, reasons) := sr in
    pattern_score <- py_get pattern_analysis "strength" (PNum 0) ;;
    has_reversal <- py_get pattern_analysis "has_reversal" (PBool false) ;;
    sr <-
      (if truthy has_reversal then
         patterns <- py_get pattern_analysis "patterns" (PList []) ;;
         ps <- py_iter patterns ;;
         pattern_directions <- reversal_directions ps ;;
         if existsb (fun d => is_str d "BULLISH") pattern_directions
         then Ok (score + 8, reasons ++ ["الگوی بازگشتی صعودی"])
         else if existsb (fun d => is_str d "BEARISH") pattern_directions
         then Ok (score - 8, reasons ++ ["الگوی بازگشتی نزولی"])
         else Ok (score, reasons)
       else Ok (score, reasons)) ;;
    let '(score, reasons) := sr in
    has_continuation <-
      py_get pattern_analysis "has_continuation" (PBool false) ;;
    continuing <-
      (if truthy has_continuation then py_gt trend_strength (PNum 50)
       else Ok false) ;;
    let '(score, reasons) :=
      if continuing then (score + 4, reasons ++ ["الگوی ادامه‌دهنده"])
      else (score, reasons) in
    nearest_support <- py_get key_levels "nearest_support" (PDict []) ;;
    nearest_resistance <- py_get key_levels "nearest_resistance" (PDict []) ;;
    near_support <- py_get nearest_support "is_close" (PBool false) ;;
    let '(score, reasons) :=
      if truthy near_support then (score + 6, reasons ++ ["نزدیک به حمایت"])
      else (score, reasons) in
    near_resistance <- py_get nearest_resistance "is_close" (PBool false) ;;
    let '(score, reasons) :=
      if truthy near_resistance
      then (score - 6, reasons ++ ["نزدیک به مقاومت"])
      else (score, reasons) in
    let score := max2 0 (min2 100 score) in
    let '(primary, entry_signal, strength, risk_level) :=
      if Qgeb score 75 then ("STRONG_BUY", "BUY", score, "LOW")
      else if Qgeb score 65 then ("BUY", "BUY", score, "MEDIUM")
      else if Qleb score 25 then ("STRONG_SELL", "SELL", 100 - score, "LOW")
      else if Qleb score 35 then ("SELL", "SELL", 100 - score, "MEDIUM")
      else ("HOLD", "NO_SIGNAL", 0, "MEDIUM") in
    long <- py_gt trend_strength (PNum 80) ;;
    timeframe <-
      (if long then Ok "LONG_TERM" else
       medium <- py_gt trend_strength (PNum 50) ;;
       if medium then Ok "MEDIUM_TERM" else Ok "SHORT_TERM") ;;
    pattern_count <- py_get pattern_analysis "count" (PNum 0) ;;
    let confidence :=
      _calculate_confidence score (List.length reasons) trend_strength
        pattern_count in
    Ok (PDict [("primary", PStr primary);
               ("secondary", PStr "HOLD");
               ("entry_signal", PStr entry_signal);
               ("exit_signal", PStr "NO_SIGNAL");
               ("strength", PNum strength);
               ("reasons", PList (map PStr reasons));
               ("risk_level", PStr risk_level);
               ("timeframe", PStr timeframe);
               ("confidence", PNum confidence)])
  in
  match body with
  | Ok r => r
  | Raise _ =>
      PDict [("primary", PStr "HOLD");
             ("strength", PNum 0);
             ("reasons", PList [PStr "خطا در تحلیل"]);
             ("risk_level", PStr "HIGH");
             ("confidence", PNum 0)]
  end.

(** *** [_calculate_score_and_confidence] *)

(** [x * 10 * 0.4] on a fetched value: a text or list times 10 is a
    sequence, and a sequence times a fraction raises as the text or list
    itself would. *)
Definition _calculate_score_and_confidence
  (technical_analysis pattern_analysis signals : pyval) : pyval * pyval :=
  let body : result (pyval * pyval) :=
    score <- py_get signals "strength" (PNum 50) ;;
    confidence <- py_get signals "confidence" (PNum 50) ;;
    trend <- py_get technical_analysis "trend" (PDict []) ;;
    trend_strength <- py_get trend "strength" (PNum 0) ;;
    pattern_strength <- py_get pattern_analysis "strength" (PNum 0) ;;
    s <- num score ;;
    t <- num trend_strength ;;
    let final_score := inject_Z (py_int (s * 0.7 + t * 0.3)) in
    c <- num confidence ;;
    p <- num pattern_strength ;;
    let final_confidence := inject_Z (py_int (c * 0.6 + p * 10 * 0.4)) in
    let final_score := max2 0 (min2 100 final_score) in
    let final_confidence := max2 0 (min2 100 final_confidence) in
    Ok (PNum final_score, PNum final_confidence)
  in
  match body with Ok r => r | Raise _ => (PNum 50, PNum 50) end.

(** *** [_risk_analysis] *)

(** The quotient of two entries of a frame is an array scalar: where the
    divisor is zero it is an infinity or NaN, not an exception. *)
Inductive npfloat : Type :=
| Finite (q : Q)
| PosInf
| NegInf
| NaN.

(** [a / b * 100] *)
Definition np_percent (a b : Q) : npfloat :=
  if Qeq_bool b 0 then
    if Qgtb a 0 then PosInf else if Qltb a 0 then NegInf else NaN
  else Finite (a / b * 100).

(** [x > c] *)
Definition np_gt (x : npfloat) (c : Q) : bool :=
  match x with
  | Finite q => Qgtb q c
  | PosInf => true
  | NegInf | NaN => false
  end.

(** [f'{x:.2f}'] *)
Definition np_format (x : npfloat) (d : nat) : string :=
  match x with
  | Finite q => format_fixed q d
  | PosInf => "inf"
  | NegInf => "-inf"
  | NaN => "nan"
  end.

Definition _calculate_max_position_size (risk_score : Q) : Q :=
  if Qgeb risk_score 8 then 0.5
  else if Qgeb risk_score 7 then 1.0
  else if Qgeb risk_score 5 then 1.5
  else if Qgeb risk_score 3 then 2.0
  else 2.5.

Definition _risk_analysis (df : DataFrame) (signals : pyval) : pyval :=
  let body : result pyval :=
    let risk_score := 5.0 in
    let risk_factors : list string := [] in
    sf <-
      (if has_column df "atr" then
         atr <- cell df 1 "atr" ;;
         close <- cell df 1 "close" ;;
         let atr_percent := np_percent atr close in
         if np_gt atr_percent 1.5
         then Ok (risk_score + 2,
                  risk_factors
                  ++ [("نوسان بالا: " ++ np_format atr_percent 2 ++ "%")%string])
         else Ok (risk_score, risk_factors)
       else Ok (risk_score, risk_factors)) ;;
    let '(risk_score, risk_factors) := sf in
    sf <-
      (if has_column df "adx" then
         adx_value <- cell df 1 "adx" ;;
         if Qltb adx_value 20
         then Ok (risk_score + 1, risk_factors ++ ["روند ضعیف"])
         else Ok (risk_score, risk_factors)
       else Ok (risk_score, risk_factors)) ;;
    let '(risk_score, risk_factors) := sf in
    sf <-
      (if has_column df "volume_ratio" then
         volume_ratio <- cell df 1 "volume_ratio" ;;
         if Qltb volume_ratio 0.5
         then Ok (risk_score + 1, risk_factors ++ ["حجم معاملات کم"])
         else Ok (risk_score, risk_factors)
       else Ok (risk_score, risk_factors)) ;;
    let '(risk_score, risk_factors) := sf in
    let risk_score := max2 1 (min2 10 risk_score) in
    let risk_level :=
      if Qgeb risk_score 8 then "VERY_HIGH"
      else if Qgeb risk_score 7 then "HIGH"
      else if Qgeb risk_score 5 then "MEDIUM"
      else if Qgeb risk_score 3 then "LOW"
      else "VERY_LOW" in
    let recommendation :=
      if String.eqb risk_level "VERY_HIGH" || String.eqb risk_level "HIGH"
      then "از معامله خودداری کنید یا حجم را کاهش دهید"
      else if String.eqb risk_level "MEDIUM"
      then "با احتیاط معامله کنید"
      else "شرایط مناسب برای معامله" in
    Ok (PDict [("score", PNum (py_round risk_score 1));
               ("level", PStr risk_level);
               ("factors", PList (map PStr risk_factors));
               ("recommendation", PStr recommendation);
               ("max_position_size_percent",
                  PNum (_calculate_max_position_size risk_score))])
  in
  match body with
  | Ok r => r
  | Raise _ =>
      PDict [("score", PNum 5.0);
             ("level", PStr "MEDIUM");
             ("factors", PList [PStr "خطا در تحلیل ریسک"]);
             ("recommendation", PStr "با احتیاط اقدام کنید");
             ("max_position_size_percent", PNum 1.0)]
  end.

End Analyzer.

(* ===================================================================== *)
(** ** risk_manager.py: class RiskManager                                 *)
(* ===================================================================== *)

Module RiskManager.

(** The object state set up by [__init__]. *)
Record state : Type := mkState {
  risk_history : list pyval;
  violations : list pyval;
  trade_journal : list pyval;
  default_limits : pyval
}.

Definition __init__ : state := {|
  risk_history := [];
  violations := [];
  trade_journal := [];
  default_limits := PDict [
    ("max_daily_risk", PNum 1.5);
    ("max_trade_risk", PNum 1.0);
    ("max_drawdown", PNum 5.0);
    ("max_positions", PNum 3);
    ("daily_loss_limit", PNum 2.0);
    ("max_leverage", PNum 30);
    ("min_risk_reward", PNum 1.5);
    ("max_consecutive_losses", PNum 3);
    ("correlation_limit", PNum 0.7);
    ("sector_exposure_limit", PNum 30)]
|}.

(** *** The accumulator of a sub-assessment

    Every sub-assessment starts from [score = 5.0], [factors = []],
    [warnings = []] and updates the three in place. *)

Record acc : Type := mkAcc {
  score : Q;
  factors : list string;
  warnings : list string
}.

Definition start : acc := {| score := 5.0; factors := []; warnings := [] |}.

(** [score += delta] *)
Definition add (a : acc) (delta : Q) : acc :=
  {| score := score a + delta; factors := factors a; warnings := warnings a |}.

(** [factors.append(f)] *)
Definition factor (a : acc) (f : string) : acc :=
  {| score := score a; factors := factors a ++ [f]; warnings := warnings a |}.

(** [warnings.append(w)], [warnings.extend(ws)] *)
Definition warn (a : acc) (w : string) : acc :=
  {| score := score a; factors := factors a; warnings := warnings a ++ [w] |}.
Definition warns (a : acc) (ws : list string) : acc :=
  {| score := score a; factors := factors a; warnings := warnings a ++ ws |}.

Definition strs (l : list string) : pyval := PList (map PStr l).

(** [max(1, min(10, score))] *)
Definition clamp (s : Q) : Q := max2 1 (min2 10 s).

(** The dictionary a sub-assessment returns at its normal exit: the
    clamped score rounded to one decimal, the two lists, and the entries
    particular to the assessment. *)
Definition assessment (a : acc) (extras : list (string * pyval)) : pyval :=
  PDict (("score", PNum (py_round (clamp (score a)) 1))
         :: ("factors", strs (factors a))
         :: ("warnings", strs (warnings a))
         :: extras).

(** The dictionary of the handler. *)
Definition error_assessment : pyval :=
  PDict [("score", PNum 5.0);
         ("factors", strs ["خطا در تحلیل"]);
         ("warnings", strs [])].

(** [try: body except Exception: return error_assessment] *)
Definition run (body : result pyval) : pyval :=
  match body with Ok r => r | Raise _ => error_assessment end.

Section Scoring.

(** [str(x)] of a value that is not a string, and [numpy.mean]: both
    belong to the language and its libraries. *)
Variable repr : pyval -> string.
Variable np_mean : list pyval -> result pyval.

(** [f'{x}'] *)
Definition py_str (x : pyval) : string :=
  match x with PStr s => s | _ => repr x end.

(** *** [_check_indicator_alignment] *)

Definition _check_indicator_alignment (technical : pyval) : Q :=
  let body : result Q :=
    trend <- py_get technical "trend" (PDict []) ;;
    trend_direction <- py_get trend "direction" (PStr "NEUTRAL") ;;
    indicators <-
      (if negb (is_str trend_direction "NEUTRAL") then
         bull <- py_contains trend_direction "BULLISH" ;;
         Ok [if bull then 1%Z else (-1)%Z]
       else Ok []) ;;
    trend <- py_get technical "trend" (PDict []) ;;
    macd <- py_get trend "macd" (PDict []) ;;
    macd_signal <- py_get macd "cross_signal" (PStr "NEUTRAL") ;;
    indicators <-
      (bull <- py_contains macd_signal "BULLISH" ;;
       if bull then Ok (indicators ++ [1%Z]) else
       bear <- py_contains macd_signal "BEARISH" ;;
       if bear then Ok (indicators ++ [(-1)%Z]) else Ok indicators) ;;
    momentum <- py_get technical "momentum" (PDict []) ;;
    momentum_indicators <- py_get momentum "indicators" (PDict []) ;;
    rsi <- py_get momentum_indicators "rsi" (PDict []) ;;
    rsi_signal <- py_get rsi "signal" (PStr "NEUTRAL") ;;
    let indicators :=
      if is_str rsi_signal "BULLISH" || is_str rsi_signal "OVERSOLD"
      then indicators ++ [1%Z]
      else if is_str rsi_signal "BEARISH" || is_str rsi_signal "OVERBOUGHT"
      then indicators ++ [(-1)%Z]
      else indicators in
    momentum_indicators <- py_get momentum "indicators" (PDict []) ;;
    stochastic <- py_get momentum_indicators "stochastic" (PDict []) ;;
    stoch_signal <- py_get stochastic "signal" (PStr "NEUTRAL") ;;
    indicators <-
      (bull <- py_contains stoch_signal "BULLISH" ;;
       if bull then Ok (indicators ++ [1%Z]) else
       bear <- py_contains stoch_signal "BEARISH" ;;
       if bear then Ok (indicators ++ [(-1)%Z]) else Ok indicators) ;;
    match indicators with
    | [] => Ok 50.0
    | _ =>
        let bull_count := List.length (filter (Z.ltb 0) indicators) in
        let bear_count := List.length (filter (fun i => Z.ltb i 0) indicators) in
        let total := List.length indicators in
        if Nat.eqb bull_count total then Ok 100.0
        else if Nat.eqb bear_count total then Ok 0.0
        else
          Ok (inject_Z (Z.of_nat (Nat.max bull_count bear_count))
              / inject_Z (Z.of_nat total) * 100)
    end
  in
  match body with Ok q => q | Raise _ => 50.0 end.

(** *** [_check_conflicting_signals] *)

Definition rsi_signal_of (momentum : pyval) : result pyval :=
  momentum_indicators <- py_get momentum "indicators" (PDict []) ;;
  rsi <- py_get momentum_indicators "rsi" (PDict []) ;;
  py_get rsi "signal" (PStr "NEUTRAL").

Definition trend_against_rsi (trend_direction momentum : pyval)
  (warnings : list string) : result (list string) :=
  bullish <- py_contains trend_direction "BULLISH" ;;
  if bullish then
    rsi_signal <- rsi_signal_of momentum ;;
    if is_str rsi_signal "OVERBOUGHT"
    then Ok (warnings ++ ["تضاد: روند صعودی ولی RSI در منطقه اشباع خرید"])
    else Ok warnings
  else
  bearish <- py_contains trend_direction "BEARISH" ;;
  if bearish then
    rsi_signal <- rsi_signal_of momentum ;;
    if is_str rsi_signal "OVERSOLD"
    then Ok (warnings ++ ["تضاد: روند نزولی ولی RSI در منطقه اشباع فروش"])
    else Ok warnings
  else Ok warnings.

Definition trend_against_divergence (trend_direction momentum : pyval)
  (warnings : list string) : result (list string) :=
  momentum_indicators <- py_get momentum "indicators" (PDict []) ;;
  rsi <- py_get momentum_indicators "rsi" (PDict []) ;;
  macd_divergence <- py_get rsi "divergence" (PStr "NO_DIVERGENCE") ;;
  if negb (is_str macd_divergence "NO_DIVERGENCE") then
    opposite <-
      orM (andM (py_contains trend_direction "BULLISH")
                (py_contains macd_divergence "BEARISH"))
          (andM (py_contains trend_direction "BEARISH")
                (py_contains macd_divergence "BULLISH")) ;;
    if opposite
    then Ok (warnings ++ [("تضاد: واگرایی " ++ py_str macd_divergence
                           ++ " در جهت مخالف روند")%string])
    else Ok warnings
  else Ok warnings.

(** The list [warnings] exists before the [try]; the handler only logs. *)
Definition _check_conflicting_signals (technical : pyval) : list string :=
  let head : result (pyval * pyval) :=
    trend <- py_get technical "trend" (PDict []) ;;
    trend_direction <- py_get trend "direction" (PStr "NEUTRAL") ;;
    momentum <- py_get technical "momentum" (PDict []) ;;
    Ok (trend_direction, momentum)
  in
  match head with
  | Ok (trend_direction, momentum) =>
      fst (exec_block
             [atomic (trend_against_rsi trend_direction momentum);
              atomic (trend_against_divergence trend_direction momentum)] [])
  | Raise _ => []
  end.

(** *** [_assess_technical_risk] *)

Definition _assess_technical_risk (analysis : pyval) : pyval :=
  run (
    technical <- py_get analysis "technical" (PDict []) ;;
    trend <- py_get technical "trend" (PDict []) ;;
    momentum <- py_get technical "momentum" (PDict []) ;;
    let a := start in
    trend_strength <- py_get trend "strength" (PNum 0) ;;
    trend_direction <- py_get trend "direction" (PStr "NEUTRAL") ;;
    a <- (strong <- py_ge trend_strength (PNum 80) ;;
          if strong then Ok (factor (add a (-1.5)) "روند قوی") else
          weak <- py_le trend_strength (PNum 20) ;;
          if weak
          then Ok (warn (factor (add a 2.0) "روند ضعیف") "روند بازار ضعیف است")
          else Ok a) ;;
    let alignment_score := _check_indicator_alignment technical in
    let a :=
      if Qgeb alignment_score 80
      then factor (add a (-1.0)) "همسویی اندیکاتورها"
      else if Qleb alignment_score 40
      then warn (factor (add a 1.5) "عدم همسویی اندیکاتورها")
                "اندیکاتورها همسو نیستند"
      else a in
    let conflicting_signals := _check_conflicting_signals technical in
    let a :=
      match conflicting_signals with
      | [] => a
      | _ =>
          let n := List.length conflicting_signals in
          warns (factor (add a (inject_Z (Z.of_nat n) * 0.5))
                        (nat_str n ++ " سیگنال متضاد"))
                conflicting_signals
      end in
    momentum_score <- py_get momentum "score" (PNum 50) ;;
    a <- (strong <- py_gt momentum_score (PNum 70) ;;
          if strong then Ok (factor (add a (-0.5)) "مومنتوم قوی") else
          weak <- py_lt momentum_score (PNum 30) ;;
          if weak
          then Ok (warn (factor (add a 1.0) "مومنتوم ضعیف")
                        "مومنتوم بازار ضعیف است")
          else Ok a) ;;
    Ok (assessment a [("trend_strength", trend_strength);
                      ("alignment_score", PNum alignment_score);
                      ("momentum_score", momentum_score)])).

(** *** [_assess_price_risk] *)

Definition _assess_price_risk (analysis : pyval) : pyval :=
  run (
    price_data <- py_get analysis "price" (PDict []) ;;
    current_price <- py_get price_data "current" (PNum 0) ;;
    let a := start in
    invalid <- py_le current_price (PNum 0) ;;
    if invalid then
      Ok (PDict [("score", PNum 10.0);
                 ("factors", strs ["قیمت نامعتبر"]);
                 ("warnings", strs ["قیمت صفر یا منفی"])])
    else
    daily_change_percent <- py_get price_data "daily_change_percent" (PNum 0) ;;
    a <- (magnitude <- py_abs daily_change_percent ;;
          sharp <- py_gt magnitude (PNum 3) ;;
          if sharp then
            s <- fmt daily_change_percent 2 ;;
            Ok (warn (factor (add a 2.0)
                             ("تغییر شدید روزانه: " ++ s ++ "%"))
                     "تغییرات قیمتی شدید در یک روز")
          else
          magnitude <- py_abs daily_change_percent ;;
          notable <- py_gt magnitude (PNum 1.5) ;;
          if notable then
            s <- fmt daily_change_percent 2 ;;
            Ok (factor (add a 1.0) ("تغییر قابل توجه روزانه: " ++ s ++ "%"))
          else Ok a) ;;
    daily_range_percent <- py_get price_data "daily_range_percent" (PNum 0) ;;
    a <- (wide <- py_gt daily_range_percent (PNum 2) ;;
          if wide then
            s <- fmt daily_range_percent 2 ;;
            Ok (factor (add a 1.5) ("محدوده وسیع روزانه: " ++ s ++ "%"))
          else
          medium <- py_gt daily_range_percent (PNum 1) ;;
          if medium then
            s <- fmt daily_range_percent 2 ;;
            Ok (factor (add a 0.5) ("محدوده متوسط روزانه: " ++ s ++ "%"))
          else Ok a) ;;
    position_in_range <- py_get price_data "position_in_range" (PNum 50) ;;
    a <- (top <- py_gt position_in_range (PNum 80) ;;
          if top then
            Ok (warn (factor (add a 1.0) "قیمت در سقف محدوده روزانه")
                     "قیمت نزدیک به سقف روزانه - احتمال مقاومت")
          else
          bottom <- py_lt position_in_range (PNum 20) ;;
          if bottom then
            Ok (warn (factor (add a 1.0) "قیمت در کف محدوده روزانه")
                     "قیمت نزدیک به کف روزانه - احتمال حمایت")
          else Ok a) ;;
    candle <- py_get price_data "candle" (PDict []) ;;
    candle_type <- py_get candle "type" (PStr "NORMAL") ;;
    let a :=
      if is_str candle_type "DOJI"
      then factor (add a 0.5) "کندل دوجی - بلاتکلیفی"
      else if is_str candle_type "MARUBOZU"
      then factor (add a 1.0) "کندل ماروبوزو - قدرت خرید/فروش"
      else a in
    Ok (assessment a [("daily_change", daily_change_percent);
                      ("daily_range", daily_range_percent);
                      ("position_in_range", position_in_range);
                      ("candle_type", candle_type)])).

(** *** [_validate_patterns] and [_assess_pattern_risk] *)

Definition required_fields : list string :=
  ["name"; "type"; "direction"; "strength"].

Definition validate_one (pattern : pyval) (valid_patterns : list pyval)
  : result (list pyval) :=
  complete <-
    (fix all_in (fields : list string) : result bool :=
       match fields with
       | [] => Ok true
       | f :: r =>
           present <- py_contains pattern f ;;
           if present then all_in r else Ok false
       end) required_fields ;;
  if complete then
    strength <- py_item pattern "strength" ;;
    if in_strs strength ["STRONG"; "MEDIUM"; "WEAK"]
    then Ok (valid_patterns ++ [pattern])
    else Ok valid_patterns
  else Ok valid_patterns.

(** [for pattern in patterns] inside a [try] whose handler only logs. *)
Definition _validate_patterns (patterns : pyval) : list pyval :=
  match py_iter patterns with
  | Ok l => fst (exec_block (map (fun p => atomic (validate_one p)) l) [])
  | Raise _ => []
  end.

(** [[p.get('direction') for p in patterns if p.get('direction') != 'NEUTRAL']] *)
Fixpoint directions_of (l : list pyval) : result (list pyval) :=
  match l with
  | [] => Ok []
  | p :: r =>
      d <- py_get p "direction" PNone ;;
      if negb (is_str d "NEUTRAL") then
        d <- py_get p "direction" PNone ;;
        r' <- directions_of r ;;
        Ok (d :: r')
      else directions_of r
  end.

(** [sum(1 for d in directions if word in d)] *)
Fixpoint count_with (word : string) (l : list pyval) : result nat :=
  match l with
  | [] => Ok O
  | d :: r =>
      c <- py_contains d word ;;
      n <- count_with word r ;;
      Ok (if c then S n else n)
  end.

Definition _assess_pattern_risk (analysis : pyval) : pyval :=
  run (
    patterns_data <- py_get analysis "patterns" (PDict []) ;;
    patterns <- py_get patterns_data "patterns" (PList []) ;;
    let a := start in
    if negb (truthy patterns) then
      let a := factor a "بدون الگوی مشخص" in
      Ok (PDict [("score", PNum (score a));
                 ("factors", strs (factors a));
                 ("warnings", strs (warnings a));
                 ("pattern_count", PNum 0);
                 ("has_reversal", PBool false);
                 ("has_continuation", PBool false)])
    else
    pattern_count <- py_len patterns ;;
    has_reversal <- py_get patterns_data "has_reversal" (PBool false) ;;
    has_continuation <- py_get patterns_data "has_continuation" (PBool false) ;;
    pattern_strength <- py_get patterns_data "strength" (PNum 0) ;;
    let a :=
      if Nat.leb 3 pattern_count
      then warn (factor (add a 1.0)
                        ("تعداد الگوها زیاد: " ++ nat_str pattern_count))
                "الگوهای متعدد ممکن است سیگنال‌های متضاد ایجاد کنند"
      else a in
    a <- (strong <- py_ge pattern_strength (PNum 7) ;;
          if strong then Ok (factor (add a (-1.5)) "الگوهای قوی") else
          weak <- py_le pattern_strength (PNum 3) ;;
          if weak
          then Ok (warn (factor (add a 1.5) "الگوهای ضعیف")
                        "الگوهای شناسایی شده ضعیف هستند")
          else Ok a) ;;
    let a :=
      if truthy has_reversal && truthy has_continuation
      then warn (factor (add a 2.0) "الگوهای بازگشتی و ادامه‌دهنده همزمان")
                "تداخل الگوهای بازگشتی و ادامه‌دهنده"
      else a in
    elements <- py_iter patterns ;;
    directions <- directions_of elements ;;
    a <- (match directions with
          | [] => Ok a
          | _ =>
              bull_patterns <- count_with "BULLISH" directions ;;
              bear_patterns <- count_with "BEARISH" directions ;;
              if Nat.ltb 0 bull_patterns && Nat.ltb 0 bear_patterns
              then Ok (warn (factor (add a 1.5) "الگوهای با جهت‌گیری متضاد")
                            "الگوهای صعودی و نزولی همزمان وجود دارند")
              else Ok a
          end) ;;
    let valid_patterns := _validate_patterns patterns in
    let a :=
      if Nat.ltb (List.length valid_patterns) pattern_count then
        let invalid_count := (pattern_count - List.length valid_patterns)%nat in
        factor (add a (inject_Z (Z.of_nat invalid_count) * 0.5))
               (nat_str invalid_count ++ " الگوی نامعتبر")
      else a in
    Ok (assessment a
          [("pattern_count", PNum (inject_Z (Z.of_nat pattern_count)));
           ("has_reversal", has_reversal);
           ("has_continuation", has_continuation);
           ("pattern_strength", pattern_strength);
           ("valid_patterns",
            PNum (inject_Z (Z.of_nat (List.length valid_patterns))))])).

(** *** [_assess_level_risk] *)

(** [d.values()] *)
Definition py_values (d : pyval) : result (list pyval) :=
  match d with
  | PDict l => Ok (map snd l)
  | _ => Raise AttributeError
  end.

(** [[s.get('strength', 0) for s in strengths]] *)
Fixpoint strengths_of (l : list pyval) : result (list pyval) :=
  match l with
  | [] => Ok []
  | s :: r =>
      x <- py_get s "strength" (PNum 0) ;;
      r' <- strengths_of r ;;
      Ok (x :: r')
  end.

(** [np.mean([...]) if strengths else 0] *)
Definition average_strength (strengths : list pyval) : result pyval :=
  match strengths with
  | [] => Ok (PNum 0)
  | _ => l <- strengths_of strengths ;; np_mean l
  end.

Definition _assess_level_risk (analysis : pyval) : pyval :=
  run (
    key_levels <- py_get analysis "key_levels" (PDict []) ;;
    price_data <- py_get analysis "price" (PDict []) ;;
    current_price <- py_get price_data "current" (PNum 0) ;;
    let a := start in
    invalid <- py_le current_price (PNum 0) ;;
    if invalid then
      Ok (PDict [("score", PNum 10.0);
                 ("factors", strs ["قیمت نامعتبر"]);
                 ("warnings", strs [])])
    else
    nearest_support <- py_get key_levels "nearest_support" (PDict []) ;;
    nearest_resistance <- py_get key_levels "nearest_resistance" (PDict []) ;;
    support_distance <- py_get nearest_support "distance_percent" (PNum 100) ;;
    resistance_distance <-
      py_get nearest_resistance "distance_percent" (PNum 100) ;;
    a <- (very_close <- py_lt support_distance (PNum 0.5) ;;
          if very_close then Ok (factor (add a (-1.0)) "نزدیک به حمایت قوی")
          else
          close <- py_lt support_distance (PNum 1.0) ;;
          if close then Ok (factor (add a (-0.5)) "نزدیک به حمایت")
          else Ok a) ;;
    a <- (very_close <- py_lt resistance_distance (PNum 0.5) ;;
          if very_close then
            Ok (warn (factor (add a 1.0) "نزدیک به مقاومت قوی")
                     "قیمت نزدیک به مقاومت - احتمال بازگشت")
          else
          close <- py_lt resistance_distance (PNum 1.0) ;;
          if close then Ok (factor (add a 0.5) "نزدیک به مقاومت")
          else Ok a) ;;
    level_strength <- py_get key_levels "level_strength" (PDict []) ;;
    support_strength <- py_get level_strength "support" (PDict []) ;;
    support_strengths <- py_values support_strength ;;
    resistance_strength <- py_get level_strength "resistance" (PDict []) ;;
    resistance_strengths <- py_values resistance_strength ;;
    avg_support_strength <- average_strength support_strengths ;;
    avg_resistance_strength <- average_strength resistance_strengths ;;
    a <- (strong <- py_ge avg_support_strength (PNum 7) ;;
          if strong then Ok (factor (add a (-0.5)) "حمایت‌های قوی")
          else Ok a) ;;
    a <- (strong <- py_ge avg_resistance_strength (PNum 7) ;;
          if strong then Ok (factor (add a 0.5) "مقاومت‌های قوی")
          else Ok a) ;;
    support_levels <- py_get key_levels "support" (PList []) ;;
    resistance_levels <- py_get key_levels "resistance" (PList []) ;;
    a <- (broken <-
            (if truthy support_levels then
               lowest <- py_min support_levels ;;
               py_lt current_price lowest
             else Ok false) ;;
          if broken then
            Ok (warn (factor (add a 2.0) "شکست حمایت")
                     "شکست سطح حمایت - احتمال ادامه نزول")
          else Ok a) ;;
    a <- (broken <-
            (if truthy resistance_levels then
               highest <- py_max resistance_levels ;;
               py_gt current_price highest
             else Ok false) ;;
          if broken then
            Ok (warn (factor (add a (-2.0)) "شکست مقاومت")
                     "شکست سطح مقاومت - احتمال ادامه صعود")
          else Ok a) ;;
    squeeze <-
      (ns <- py_len support_levels ;;
       bounded <-
         (if Nat.leb 2 ns then
            nr <- py_len resistance_levels ;;
            Ok (Nat.leb 2 nr)
          else Ok false) ;;
       if bounded then
         highest <- py_max resistance_levels ;;
         lowest <- py_min support_levels ;;
         price_range <- py_sub highest lowest ;;
         ratio <- py_div price_range current_price ;;
         price_range_percent <- py_mul ratio 100 ;;
         tight <- py_lt price_range_percent (PNum 2) ;;
         if tight then
           Ok (warn (factor (add a 1.0) "فشردگی قیمت")
                    "فشردگی قیمت - احتمال حرکت شدید",
               price_range_percent)
         else Ok (a, price_range_percent)
       else Ok (a, PNum 0)) ;;
    let (a, price_range_percent) := squeeze in
    rounded_support <- py_round_val avg_support_strength 1 ;;
    rounded_resistance <- py_round_val avg_resistance_strength 1 ;;
    Ok (assessment a [("support_distance", support_distance);
                      ("resistance_distance", resistance_distance);
                      ("avg_support_strength", rounded_support);
                      ("avg_resistance_strength", rounded_resistance);
                      ("price_range_percent", price_range_percent)])).

(** *** [_assess_risk_reward] *)

(** [score = 10.0] *)
Definition set_score (a : acc) (s : Q) : acc :=
  {| score := s; factors := factors a; warnings := warnings a |}.

(** [x > 0] *)
Definition positive (x : pyval) : result bool := py_gt x (PNum 0).

Definition _assess_risk_reward (analysis : pyval) : pyval :=
  run (
    entry_exit <- py_get analysis "entry_exit" (PDict []) ;;
    rr_ratio <- py_get entry_exit "risk_reward_ratio" (PNum 0) ;;
    let a := start in
    a <- (c <- py_le rr_ratio (PNum 0) ;;
          if c then
            Ok (warn (factor (set_score a 10.0) "نسبت R/R نامعتبر")
                     "نسبت ریسک به ریوارد محاسبه نشده")
          else
          c <- py_ge rr_ratio (PNum 3) ;;
          if c then
            s <- fmt rr_ratio 2 ;;
            Ok (factor (add a (-2.0)) ("نسبت R/R عالی: " ++ s))
          else
          c <- py_ge rr_ratio (PNum 2) ;;
          if c then
            s <- fmt rr_ratio 2 ;;
            Ok (factor (add a (-1.5)) ("نسبت R/R خوب: " ++ s))
          else
          c <- py_ge rr_ratio (PNum 1.5) ;;
          if c then
            s <- fmt rr_ratio 2 ;;
            Ok (factor (add a (-1.0)) ("نسبت R/R قابل قبول: " ++ s))
          else
          c <- py_ge rr_ratio (PNum 1) ;;
          if c then
            s <- fmt rr_ratio 2 ;;
            Ok (warn (factor (add a 0.5) ("نسبت R/R ضعیف: " ++ s))
                     "نسبت ریسک به ریوارد ضعیف")
          else
            s <- fmt rr_ratio 2 ;;
            Ok (warn (factor (add a 2.0) ("نسبت R/R بسیار ضعیف: " ++ s))
                     "نسبت ریسک به ریوارد بسیار ضعیف - معامله توصیه نمی‌شود")) ;;
    technical <- py_get analysis "technical" (PDict []) ;;
    volatility <- py_get technical "volatility" (PDict []) ;;
    volatility_indicators <- py_get volatility "indicators" (PDict []) ;;
    atr_info <- py_get volatility_indicators "atr" (PDict []) ;;
    atr <- py_get atr_info "value" (PNum 0) ;;
    stop_loss <- py_get entry_exit "stop_loss" (PNum 0) ;;
    entry <- py_get entry_exit "entry" (PNum 0) ;;
    stop <-
      (usable <- andM (positive atr) (andM (positive entry) (positive stop_loss)) ;;
       if usable then
         d <- py_sub entry stop_loss ;;
         stop_distance <- py_abs d ;;
         atr_multiple <- py_div stop_distance atr ;;
         c <- py_lt atr_multiple (PNum 1) ;;
         if c then
           s <- fmt atr_multiple 1 ;;
           Ok (warn (factor (add a 1.5) ("استاپ بسیار کوچک: " ++ s ++ "xATR"))
                    "استاپ‌لاس بسیار نزدیک - احتمال hit شدن بالا",
               atr_multiple)
         else
         c <- py_gt atr_multiple (PNum 3) ;;
         if c then
           s <- fmt atr_multiple 1 ;;
           Ok (warn (factor (add a 1.0) ("استاپ بسیار بزرگ: " ++ s ++ "xATR"))
                    "استاپ‌لاس بسیار دور - ریسک زیاد",
               atr_multiple)
         else
         c <- andM (py_le (PNum 1.5) atr_multiple)
                   (py_le atr_multiple (PNum 2.5)) ;;
         if c then
           s <- fmt atr_multiple 1 ;;
           Ok (factor (add a (-0.5)) ("استاپ ایده‌آل: " ++ s ++ "xATR"),
               atr_multiple)
         else Ok (a, atr_multiple)
       else Ok (a, PNum 0)) ;;
    let (a, atr_multiple) := stop in
    tp1 <- py_get entry_exit "take_profit_1" (PNum 0) ;;
    tp2 <- py_get entry_exit "take_profit_2" (PNum 0) ;;
    targets <-
      (usable <- andM (positive tp1) (andM (positive tp2) (positive entry)) ;;
       if usable then
         d <- py_sub tp2 tp1 ;;
         tp_distance <- py_abs d ;;
         ratio <- py_div tp_distance entry ;;
         tp_distance_percent <- py_mul ratio 100 ;;
         far <- py_gt tp_distance_percent (PNum 5) ;;
         if far then
           s <- fmt tp_distance_percent 1 ;;
           Ok (factor (add a 0.5)
                      ("فاصله زیاد بین تارگت‌ها: " ++ s ++ "%"),
               tp_distance_percent)
         else Ok (a, tp_distance_percent)
       else Ok (a, PNum 0)) ;;
    let (a, tp_distance_percent) := targets in
    Ok (assessment a [("rr_ratio", rr_ratio);
                      ("atr_multiple", atr_multiple);
                      ("tp_distance_percent", tp_distance_percent)])).

(** *** [_assess_volume_risk] *)

Definition _assess_volume_risk (analysis : pyval) : pyval :=
  run (
    technical <- py_get analysis "technical" (PDict []) ;;
    volume_data <- py_get technical "volume" (PDict []) ;;
    volume_indicators <- py_get volume_data "indicators" (PDict []) ;;
    let a := start in
    volume_info <- py_get volume_indicators "volume" (PDict []) ;;
    volume_ratio <- py_get volume_info "ratio" (PNum 1) ;;
    a <- (c <- py_gt volume_ratio (PNum 3) ;;
          if c then
            s <- fmt volume_ratio 1 ;;
            Ok (factor (add a (-1.0)) ("حجم بسیار بالا: " ++ s ++ "x"))
          else
          c <- py_gt volume_ratio (PNum 2) ;;
          if c then
            s <- fmt volume_ratio 1 ;;
            Ok (factor (add a (-0.5)) ("حجم بالا: " ++ s ++ "x"))
          else
          c <- py_lt volume_ratio (PNum 0.3) ;;
          if c then
            s <- fmt volume_ratio 1 ;;
            Ok (warn (factor (add a 2.0) ("حجم بسیار پایین: " ++ s ++ "x"))
                     "حجم معاملات بسیار پایین - عدم تایید حرکت")
          else
          c <- py_lt volume_ratio (PNum 0.5) ;;
          if c then
            s <- fmt volume_ratio 1 ;;
            Ok (warn (factor (add a 1.0) ("حجم پایین: " ++ s ++ "x"))
                     "حجم معاملات پایین")
          else Ok a) ;;
    obv_info <- py_get volume_indicators "obv" (PDict []) ;;
    obv_trend <- py_get obv_info "trend" (PStr "NEUTRAL") ;;
    a <- (bullish <- py_contains obv_trend "BULLISH" ;;
          if bullish then Ok (factor (add a (-0.5)) "تایید حجم صعودی") else
          bearish <- py_contains obv_trend "BEARISH" ;;
          if bearish then Ok (factor (add a 0.5) "تایید حجم نزولی")
          else Ok a) ;;
    mfi_info <- py_get volume_indicators "mfi" (PDict []) ;;
    mfi_value <- py_get mfi_info "value" (PNum 50) ;;
    mfi_signal <- py_get mfi_info "signal" (PStr "NEUTRAL") ;;
    let a :=
      if is_str mfi_signal "OVERBOUGHT"
      then warn (factor (add a 1.0) "MFI در منطقه اشباع خرید")
                "اشباع خرید در شاخص جریان مالی"
      else if is_str mfi_signal "OVERSOLD"
      then factor (add a (-1.0)) "MFI در منطقه اشباع فروش"
      else a in
    volume_confirmation <- py_get volume_data "confirmation" (PStr "NEUTRAL") ;;
    let a :=
      if is_str volume_confirmation "BEARISH_CONFIRMATION"
      then factor (add a 1.0) "تایید حجم نزولی"
      else if is_str volume_confirmation "BULLISH_CONFIRMATION"
      then factor (add a (-1.0)) "تایید حجم صعودی"
      else a in
    Ok (assessment a [("volume_ratio", volume_ratio);
                      ("obv_trend", obv_trend);
                      ("mfi_value", mfi_value);
                      ("mfi_signal", mfi_signal);
                      ("volume_confirmation", volume_confirmation)])).

(** *** [_assess_volatility_risk] *)

Definition _calculate_historical_volatility (analysis : pyval) (period : nat)
  : Q := 5.0.

Definition _assess_volatility_risk (analysis : pyval) : pyval :=
  run (
    technical <- py_get analysis "technical" (PDict []) ;;
    volatility_data <- py_get technical "volatility" (PDict []) ;;
    volatility_indicators <- py_get volatility_data "indicators" (PDict []) ;;
    let a := start in
    overall_volatility <- py_get volatility_data "overall" (PStr "MEDIUM") ;;
    volatility_score <- py_get volatility_data "score" (PNum 5.0) ;;
    let a :=
      if is_str overall_volatility "HIGH"
      then warn (factor (add a 2.0) "نوسان بالا")
                "نوسان بازار بالا - ریسک افزایش یافته"
      else if is_str overall_volatility "LOW"
      then factor (add a (-1.0)) "نوسان پایین"
      else a in
    atr_info <- py_get volatility_indicators "atr" (PDict []) ;;
    atr_percent <- py_get atr_info "percent" (PNum 0) ;;
    a <- (c <- py_gt atr_percent (PNum 2) ;;
          if c then
            s <- fmt atr_percent 2 ;;
            Ok (warn (factor (add a 2.0) ("ATR بسیار بالا: " ++ s ++ "%"))
                     "نوسان روزانه بسیار بالا")
          else
          c <- py_gt atr_percent (PNum 1.5) ;;
          if c then
            s <- fmt atr_percent 2 ;;
            Ok (factor (add a 1.0) ("ATR بالا: " ++ s ++ "%"))
          else
          c <- py_lt atr_percent (PNum 0.3) ;;
          if c then
            s <- fmt atr_percent 2 ;;
            Ok (factor (add a (-0.5)) ("ATR پایین: " ++ s ++ "%"))
          else Ok a) ;;
    bb_info <- py_get volatility_indicators "bollinger_bands" (PDict []) ;;
    bb_width <- py_get bb_info "width" (PNum 0) ;;
    bb_position <- py_get bb_info "position" (PStr "MIDDLE") ;;
    bb_squeeze <- py_get bb_info "squeeze" (PBool false) ;;
    let a :=
      if truthy bb_squeeze
      then warn (factor (add a 1.5) "فشردگی باندهای بولینگر")
                "فشردگی باندهای بولینگر - احتمال حرکت شدید"
      else a in
    let a :=
      if is_str bb_position "ABOVE_UPPER"
      then warn (factor (add a 1.0) "قیمت خارج از باند بالا")
                "قیمت خارج از باند بولینگر بالا - احتمال بازگشت"
      else if is_str bb_position "BELOW_LOWER"
      then factor (add a (-1.0)) "قیمت خارج از باند پایین"
      else a in
    kc_info <- py_get volatility_indicators "keltner_channel" (PDict []) ;;
    kc_width_percent <- py_get kc_info "width_percent" (PNum 0) ;;
    a <- (c <- py_gt kc_width_percent (PNum 3) ;;
          if c then
            s <- fmt kc_width_percent 1 ;;
            Ok (factor (add a 1.0) ("کانال کلتنر وسیع: " ++ s ++ "%"))
          else Ok a) ;;
    let historical_volatility := _calculate_historical_volatility analysis 20 in
    history <-
      (if Qgtb historical_volatility 0 then
         scaled <- py_mul volatility_score 10 ;;
         current_vs_historical <- py_div scaled (PNum historical_volatility) ;;
         c <- py_gt current_vs_historical (PNum 1.5) ;;
         if c then
           Ok (warn (factor (add a 1.0) "نوسان فعلی بیشتر از میانگین تاریخی")
                    "نوسان فعلی بیشتر از حد معمول است",
               current_vs_historical)
         else
         c <- py_lt current_vs_historical (PNum 0.7) ;;
         if c then
           Ok (factor (add a (-0.5)) "نوسان فعلی کمتر از میانگین تاریخی",
               current_vs_historical)
         else Ok (a, current_vs_historical)
       else Ok (a, PNum 1.0)) ;;
    let (a, historical_volatility_ratio) := history in
    Ok (assessment a [("overall_volatility", overall_volatility);
                      ("volatility_score", volatility_score);
                      ("atr_percent", atr_percent);
                      ("bb_width", bb_width);
                      ("bb_position", bb_position);
                      ("bb_squeeze", bb_squeeze);
                      ("kc_width_percent", kc_width_percent);
                      ("historical_volatility_ratio",
                       historical_volatility_ratio)])).

End Scoring.

(** *** [_combine_risk_scores] *)

Definition weights : list Q := [0.20; 0.15; 0.10; 0.15; 0.20; 0.10; 0.10].

(** [sum(s * w for s, w in zip(scores, weights))] *)
Fixpoint weighted_sum (acc : Q) (scores : list pyval) (ws : list Q) : result Q :=
  match scores, ws with
  | s :: scores', w :: ws' =>
      p <- py_mul s w ;;
      q <- num p ;;
      weighted_sum (acc + q) scores' ws'
  | _, _ => Ok acc
  end.

(** [acc.extend(d.get(key, []))] for each of the sub-assessments in turn. *)
Fixpoint collect (key : string) (acc : list pyval) (parts : list pyval)
  : result (list pyval) :=
  match parts with
  | [] => Ok acc
  | d :: r =>
      x <- py_get d key (PList []) ;;
      l <- py_iter x ;;
      collect key (acc ++ l) r
  end.

Definition _combine_risk_scores
  (technical_risk price_risk pattern_risk level_risk rr_risk volume_risk
     volatility_risk : pyval) : pyval :=
  let parts := [technical_risk; price_risk; pattern_risk; level_risk;
                rr_risk; volume_risk; volatility_risk] in
  let body : result pyval :=
    s1 <- py_get technical_risk "score" (PNum 5.0) ;;
    s2 <- py_get price_risk "score" (PNum 5.0) ;;
    s3 <- py_get pattern_risk "score" (PNum 5.0) ;;
    s4 <- py_get level_risk "score" (PNum 5.0) ;;
    s5 <- py_get rr_risk "score" (PNum 5.0) ;;
    s6 <- py_get volume_risk "score" (PNum 5.0) ;;
    s7 <- py_get volatility_risk "score" (PNum 5.0) ;;
    let scores := [s1; s2; s3; s4; s5; s6; s7] in
    overall_score <- weighted_sum 0 scores weights ;;
    all_warnings <- collect "warnings" [] parts ;;
    all_factors <- collect "factors" [] parts ;;
    all_warnings <- fromkeys [] all_warnings ;;
    all_factors <- fromkeys [] all_factors ;;
    Ok (PDict [
      ("score", PNum (py_round overall_score 1));
      ("technical_score", s1);
      ("price_score", s2);
      ("pattern_score", s3);
      ("level_score", s4);
      ("rr_score", s5);
      ("volume_score", s6);
      ("volatility_score", s7);
      ("warnings", PList all_warnings);
      ("factors", PList all_factors);
      ("weighted_average", PBool true)])
  in
  match body with
  | Ok r => r
  | Raise _ =>
      PDict [("score", PNum 5.0);
             ("warnings", PList [PStr "خطا در ترکیب امتیازها"]);
             ("factors", PList [])]
  end.

(** *** [_generate_trade_signal] *)

Definition critical_keywords : list string :=
  ["تضاد"; "شکست"; "اشباع"; "شدید"; "بسیار"].

Definition _generate_trade_signal (overall_risk analysis risk_config : pyval)
  : pyval * pyval :=
  let body : result (pyval * pyval) :=
    score <- py_get overall_risk "score" (PNum 5.0) ;;
    signals <- py_get analysis "signals" (PDict []) ;;
    primary_signal <- py_get signals "primary" (PStr "HOLD") ;;
    signal_strength <- py_get signals "strength" (PNum 50) ;;
    confidence <- py_get signals "confidence" (PNum 50) ;;
    max_score_for_trade <- py_get risk_config "max_risk_score" (PNum 6.0) ;;
    min_confidence <- py_get risk_config "min_confidence" (PNum 60) ;;
    too_risky <- py_gt score max_score_for_trade ;;
    if too_risky then Ok (PStr "NO_TRADE", PNum 0) else
    unsure <- py_lt confidence min_confidence ;;
    if unsure then Ok (PStr "NO_TRADE", PNum 0) else
    warnings <- py_get overall_risk "warnings" (PList []) ;;
    ws <- py_iter warnings ;;
    critical_warnings <-
      filterM (fun w => anyM (py_contains w) critical_keywords) ws ;;
    if Nat.leb 2 (List.length critical_warnings)
    then Ok (PStr "NO_TRADE", PNum 0) else
    buy <- (if in_strs primary_signal ["STRONG_BUY"; "BUY"]
            then py_le score max_score_for_trade else Ok false) ;;
    if buy then
      if is_str primary_signal "STRONG_BUY" then
        boosted <- py_add confidence 10 ;;
        c <- py_min2 (PNum 95) boosted ;;
        Ok (PStr "BUY", c)
      else Ok (PStr "BUY", confidence)
    else
    sell <- (if in_strs primary_signal ["STRONG_SELL"; "SELL"]
             then py_le score max_score_for_trade else Ok false) ;;
    if sell then
      if is_str primary_signal "STRONG_SELL" then
        boosted <- py_add confidence 10 ;;
        c <- py_min2 (PNum 95) boosted ;;
        Ok (PStr "SELL", c)
      else Ok (PStr "SELL", confidence)
    else Ok (PStr "HOLD", confidence)
  in
  match body with
  | Ok r => r
  | Raise _ => (PStr "HOLD", PNum 0)
  end.

(** *** [_calculate_position_size] *)

Definition _calculate_position_size (overall_risk analysis risk_config : pyval)
  : result pyval :=
  catch
    (score <- py_get overall_risk "score" (PNum 5.0) ;;
     max_trade_risk <- py_get risk_config "max_trade_risk" (PNum 1.0) ;;
     position_size <-
       (c1 <- py_le score (PNum 3.0) ;;
        if c1 then py_mul max_trade_risk 1.5 else
        c2 <- py_le score (PNum 4.0) ;;
        if c2 then py_mul max_trade_risk 1.2 else
        c3 <- py_le score (PNum 5.0) ;;
        if c3 then Ok max_trade_risk else
        c4 <- py_le score (PNum 6.0) ;;
        if c4 then py_mul max_trade_risk 0.7 else
        c5 <- py_le score (PNum 7.0) ;;
        if c5 then py_mul max_trade_risk 0.5 else
        py_mul max_trade_risk 0.3) ;;
     capped <- py_min2 (PNum 5.0) position_size ;;
     position_size <- py_max2 (PNum 0.1) capped ;;
     py_round_val position_size 2)
    (py_get risk_config "max_trade_risk" (PNum 1.0)).

(** *** [_get_risk_level], [_get_recommendation], [_get_trade_restrictions] *)

Definition _get_risk_level (score : pyval) : result string :=
  c1 <- py_le score (PNum 3.0) ;;
  if c1 then Ok "VERY_LOW" else
  c2 <- py_le score (PNum 4.0) ;;
  if c2 then Ok "LOW" else
  c3 <- py_le score (PNum 5.0) ;;
  if c3 then Ok "MEDIUM" else
  c4 <- py_le score (PNum 6.0) ;;
  if c4 then Ok "HIGH" else
  c5 <- py_le score (PNum 7.0) ;;
  if c5 then Ok "VERY_HIGH" else Ok "EXTREME".

Definition recommendations : list (string * pyval) := [
  ("VERY_LOW", PStr "شرایط ایده‌آل برای معامله");
  ("LOW", PStr "شرایط خوب برای معامله");
  ("MEDIUM", PStr "با احتیاط معامله کنید");
  ("HIGH", PStr "فقط برای معامله‌گران با تجربه");
  ("VERY_HIGH", PStr "معامله با ریسک بسیار بالا");
  ("EXTREME", PStr "به شدت از معامله خودداری کنید")].

Definition _get_recommendation (score signal : pyval) : result pyval :=
  if is_str signal "NO_TRADE" then Ok (PStr "از معامله خودداری کنید") else
  risk_level <- _get_risk_level score ;;
  py_get (PDict recommendations) risk_level (PStr "با احتیاط اقدام کنید").

(** [restrictions.update({...})] *)
Definition update (d upd : list (string * pyval)) : list (string * pyval) :=
  fold_left (fun acc kv => dict_set acc (fst kv) (snd kv)) upd d.

Definition _get_trade_restrictions (score : pyval) : result pyval :=
  let restrictions := [
    ("max_position_size_percent", PNum 2.0);
    ("max_leverage", PNum 30);
    ("require_stop_loss", PBool true);
    ("require_take_profit", PBool true);
    ("max_duration_days", PNum 7);
    ("allow_hedging", PBool false);
    ("require_trailing_stop", PBool false)] in
  c1 <- py_ge score (PNum 7.0) ;;
  if c1 then
    Ok (PDict (update restrictions [
      ("max_position_size_percent", PNum 0.5);
      ("max_leverage", PNum 10);
      ("require_trailing_stop", PBool true);
      ("max_duration_days", PNum 3)]))
  else
  c2 <- py_ge score (PNum 6.0) ;;
  if c2 then
    Ok (PDict (update restrictions [
      ("max_position_size_percent", PNum 1.0);
      ("max_leverage", PNum 20);
      ("max_duration_days", PNum 5)]))
  else
  c3 <- py_le score (PNum 3.0) ;;
  if c3 then
    Ok (PDict (update restrictions [
      ("max_position_size_percent", PNum 3.0);
      ("max_leverage", PNum 50);
      ("allow_hedging", PBool true)]))
  else Ok (PDict restrictions).

(** *** [_get_empty_assessment] *)

Definition _get_empty_assessment (now : string) : pyval :=
  let neutral :=
    PDict [("score", PNum 5.0); ("factors", PList []); ("warnings", PList [])] in
  PDict [
    ("symbol", PStr "UNKNOWN");
    ("timestamp", PStr now);
    ("technical_risk", neutral);
    ("price_risk", neutral);
    ("pattern_risk", neutral);
    ("level_risk", neutral);
    ("rr_risk", neutral);
    ("volume_risk", neutral);
    ("volatility_risk", neutral);
    ("overall_risk",
       PDict [("score", PNum 5.0);
              ("warnings", PList [PStr "خطا در ارزیابی ریسک"]);
              ("factors", PList [])]);
    ("trade_signal", PStr "HOLD");
    ("confidence", PNum 0);
    ("position_size_percent", PNum 0.5);
    ("risk_level", PStr "HIGH");
    ("recommendation", PStr "خطا در تحلیل - از معامله خودداری کنید");
    ("warnings", PList [PStr "خطا در ارزیابی ریسک"]);
    ("restrictions", PDict [
       ("max_position_size_percent", PNum 0.5);
       ("max_leverage", PNum 10);
       ("require_stop_loss", PBool true);
       ("require_take_profit", PBool true);
       ("max_duration_days", PNum 1);
       ("allow_hedging", PBool false);
       ("require_trailing_stop", PBool true)])].

(** *** [assess_trade_risk] *)

Section Assessment.

Variable repr : pyval -> string.
Variable np_mean : list pyval -> result pyval.

(** The steps 1 to 10 and the result record. *)
Definition assessment_of (now : string) (analysis risk_config : pyval)
  : result pyval :=
  symbol <- py_get analysis "symbol" (PStr "UNKNOWN") ;;
  let technical_risk := _assess_technical_risk repr analysis in
  let price_risk := _assess_price_risk analysis in
  let pattern_risk := _assess_pattern_risk analysis in
  let level_risk := _assess_level_risk np_mean analysis in
  let rr_risk := _assess_risk_reward analysis in
  let volume_risk := _assess_volume_risk analysis in
  let volatility_risk := _assess_volatility_risk analysis in
  let overall_risk :=
    _combine_risk_scores technical_risk price_risk pattern_risk level_risk
      rr_risk volume_risk volatility_risk in
  let (trade_signal, confidence) :=
    _generate_trade_signal overall_risk analysis risk_config in
  position_size <- _calculate_position_size overall_risk analysis risk_config ;;
  score <- py_item overall_risk "score" ;;
  risk_level <- _get_risk_level score ;;
  score <- py_item overall_risk "score" ;;
  recommendation <- _get_recommendation score trade_signal ;;
  warnings <- py_get overall_risk "warnings" (PList []) ;;
  score <- py_item overall_risk "score" ;;
  restrictions <- _get_trade_restrictions score ;;
  Ok (PDict [
    ("symbol", symbol);
    ("timestamp", PStr now);
    ("technical_risk", technical_risk);
    ("price_risk", price_risk);
    ("pattern_risk", pattern_risk);
    ("level_risk", level_risk);
    ("rr_risk", rr_risk);
    ("volume_risk", volume_risk);
    ("volatility_risk", volatility_risk);
    ("overall_risk", overall_risk);
    ("trade_signal", trade_signal);
    ("confidence", confidence);
    ("position_size_percent", position_size);
    ("risk_level", PStr risk_level);
    ("recommendation", recommendation);
    ("warnings", warnings);
    ("restrictions", restrictions)]).

(** [self.risk_history.append(result)] *)
Definition remember (self : state) (result : pyval) : state := {|
  risk_history := risk_history self ++ [result];
  violations := violations self;
  trade_journal := trade_journal self;
  default_limits := default_limits self
|}.

(** The method returns the assessment and leaves the object in a new
    state. After the result is appended to the history, the log line
    formats [overall_risk['score']] with [.1f]; an exception there would
    reach the handler with the history already extended. *)
Definition assess_trade_risk (now : string) (self : state)
  (analysis risk_config : pyval) : pyval * state :=
  match assessment_of now analysis risk_config with
  | Ok result =>
      let self := remember self result in
      match (overall_risk <- py_item result "overall_risk" ;;
             score <- py_item overall_risk "score" ;;
             fmt score 1) with
      | Ok _ => (result, self)
      | Raise _ => (_get_empty_assessment now, self)
      end
  | Raise _ => (_get_empty_assessment now, self)
  end.

End Assessment.

(** *** Portfolio and account monitors *)

(** *** [check_portfolio_risk] and its helpers *)









(** *** [monitor_account_risk] *)

Definition monitor_account_risk (account_info daily_stats : pyval) : pyval :=
  let body : result pyval :=
    balance <- py_get account_info "balance" (PNum 0) ;;
    equity <- py_get account_info "equity" (PNum 0) ;;
    margin <- py_get account_info "margin" (PNum 0) ;;
    free_margin <- py_get account_info "free_margin" (PNum 0) ;;
    funded <- py_gt balance (PNum 0) ;;
    drawdown <-
      (if funded then
         lost <- py_sub balance equity ;;
         share <- py_div lost balance ;;
         q <- num share ;;
         Ok (q * 100)
       else Ok 0) ;;
    used <- py_gt margin (PNum 0) ;;
    margin_level <-
      (if used then
         share <- py_div equity margin ;;
         q <- num share ;;
         Ok (q * 100)
       else Ok 0) ;;
    daily_pnl <- py_get daily_stats "daily_profit" (PNum 0) ;;
    losing <- andM (py_lt daily_pnl (PNum 0)) (py_gt balance (PNum 0)) ;;
    daily_risk <-
      (if losing then
         loss <- py_abs daily_pnl ;;
         share <- py_div loss balance ;;
         q <- num share ;;
         Ok (q * 100)
       else Ok 0) ;;
    let warnings : list string := [] in
    let warnings :=
      if Qgtb drawdown 5
      then warnings ++ [("دراودان بالا: " ++ format_fixed drawdown 2 ++ "%")%string]
      else warnings in
    let warnings :=
      if Qltb margin_level 100
      then warnings
           ++ [("سطح مارجین پایین: " ++ format_fixed margin_level 2 ++ "%")%string]
      else warnings in
    let warnings :=
      if Qgtb daily_risk 2
      then warnings
           ++ [("ریسک روزانه بالا: " ++ format_fixed daily_risk 2 ++ "%")%string]
      else warnings in
    tenth <- py_mul balance 0.1 ;;
    short <- py_lt free_margin tenth ;;
    warnings <-
      (if short then
         shown <- fmt free_margin 2 ;;
         Ok (warnings ++ [("مارجین آزاد کم: $" ++ shown)%string])
       else Ok warnings) ;;
    funded <- py_gt balance (PNum 0) ;;
    free_margin_ratio <-
      (if funded then
         share <- py_div free_margin balance ;;
         q <- num share ;;
         Ok (py_round (q * 100) 2)
       else Ok 0) ;;
    Ok (PDict [("drawdown", PNum (py_round drawdown 2));
               ("margin_level", PNum (py_round margin_level 2));
               ("daily_risk", PNum (py_round daily_risk 2));
               ("free_margin_ratio", PNum free_margin_ratio);
               ("warnings", PList (map PStr warnings));
               ("is_risk_acceptable",
                  PBool (Nat.ltb (List.length warnings) 2))])
  in
  match body with Ok r => r | Raise _ => PDict [] end.

End RiskManager.

(* ===================================================================== *)
(** ** Vocabulary of the properties, and sample inputs                    *)
(* ===================================================================== *)

Import Analyzer.
Import RiskManager.



(** Every level is at least 1.005 times every earlier one. *)
Definition apart : list Q -> Prop :=
  ForallOrdPairs (fun a b => a * 1.005 <= b).


(** [evolves added maybe df df']: [df'] is [df] with the columns [added]
    present, nothing removed, the row index untouched, and no column
    outside [added] and [maybe] changed. *)
Definition evolves (added maybe : list string) (df df' : DataFrame) : Prop :=
  index df' = index df /\
  (forall m, has_column df m = true -> has_column df' m = true) /\
  (forall m, In m added -> has_column df' m = true) /\
  (forall m, ~ In m (added ++ maybe) ->
             find_col (columns df') m = find_col (columns df) m).

Definition has_ohlc (df : DataFrame) : Prop :=
  has_column df "open" = true /\ has_column df "high" = true /\
  has_column df "low" = true /\ has_column df "close" = true.

Definition core_columns : list string :=
  trend_columns ++ momentum_columns ++ volatility_columns.

(** The reading of "no indicator's failure aborts the others": a column
    whose own computation cannot fail is always produced. *)
Definition indicators_independent : Prop :=
  forall (lib : string -> DataFrame -> result series) (df : DataFrame)
         (name : string),
    In name (core_columns ++ candle_columns) ->
    has_ohlc df ->
    (forall d, is_ok (lib name d) = true) ->
    exists out, _calculate_all_indicators lib df = Ok out /\
                has_column out name = true.

(** A statement that, whether it completes or raises, leaves the row index
    and every column outside [names] as they were. *)
Definition assigns_within (names : list string) (st : stmt DataFrame)
  : Prop :=
  forall df,
    index (fst (st df)) = index df /\
    forall m, ~ In m names ->
      find_col (columns (fst (st df))) m = find_col (columns df) m.

(** A library in which the CCI alone fails: [ta.momentum], where the code
    looks for it, has no [CCIIndicator] (the class lives in [ta.trend]). *)
Definition failing_cci : string -> DataFrame -> result series :=
  fun name _ => if String.eqb name "cci" then Raise AttributeError else Ok [].

(** A library in which the on-balance volume alone fails. *)
Definition failing_obv : string -> DataFrame -> result series :=
  fun name _ => if String.eqb name "obv" then Raise ValueError else Ok [].

Definition one_bar : Bar :=
  mkBar "2024-01-01T00:00" 1.10 1.12 1.09 1.11 100 2 0.

(** A bar with no body and a range of 30 points. *)
Definition flat_bar : Bar :=
  mkBar "2024-01-01T01:00" 1.10 1.12 1.09 1.10 100 2 0.


(** Lows of ten billion that repeat two prices, the second less than half
    a percent above the first. *)
Definition large_lows : DataFrame :=
  frame_of_bars
    (map (fun l => mkBar "2024-01-01T00:00" 0.5 0.6 l 0.5 100 2 0)
         [10000000000.0201; 10000000000.0201; 10000000000.0201;
          10050000000.0202; 10050000000.0202; 10050000000.0202]).

(** A frame without the volume column. *)
Definition no_volume_frame : DataFrame := {|
  index := ["2024-01-01T00:00"];
  columns := [("open", [1.10]); ("high", [1.12]); ("low", [1.09]);
              ("close", [1.11])]
|}.

(** A last close of 1.0 with the only support level above it. *)
Definition price_one : DataFrame :=
  frame_of_bars [mkBar "2024-01-01T00:00" 1.0 1.0 1.0 1.0 100 2 0].

Definition buy_signal : pyval := PDict [("primary", PStr "BUY")].

Definition support_above_price : pyval :=
  PDict [("support", PList [PNum 1.1]); ("resistance", PList [])].

Definition no_levels : pyval :=
  PDict [("support", PList []); ("resistance", PList [])].

(** What every sub-assessment looks like: a number between 1 and 10 under
    [score], then the two lists of texts. *)
Definition well_formed (d : pyval) : Prop :=
  exists s f w rest,
    d = PDict (("score", PNum s) :: ("factors", strs f)
               :: ("warnings", strs w) :: rest) /\
    1 <= s /\ s <= 10.

(** [sum(s * w for s, w in zip(scores, weights))] written out. *)
Definition weighted (s1 s2 s3 s4 s5 s6 s7 : Q) : Q :=
  0 + s1 * 0.20 + s2 * 0.15 + s3 * 0.10 + s4 * 0.15 + s5 * 0.20
    + s6 * 0.10 + s7 * 0.10.

(** A result record without its generation time. *)
Definition drop_timestamp (x : pyval) : pyval :=
  match x with
  | PDict d => PDict (dict_remove d "timestamp")
  | _ => x
  end.

(** Library stand-ins for the samples: [str] of a non-string as an empty
    text, [numpy.mean] on numbers. *)
Definition plain_repr : pyval -> string := fun _ => "".

Fixpoint sum_numbers (l : list pyval) : result Q :=
  match l with
  | [] => Ok 0
  | x :: r => q <- num x ;; s <- sum_numbers r ;; Ok (q + s)
  end.

Definition mean_of_numbers (l : list pyval) : result pyval :=
  match l with
  | [] => Raise ValueError
  | _ => s <- sum_numbers l ;;
         Ok (PNum (s / inject_Z (Z.of_nat (List.length l))))
  end.

Definition sample_config : pyval :=
  PDict [("max_trade_risk", PNum 1.0); ("max_daily_risk", PNum 1.5);
         ("max_positions", PNum 3); ("max_risk_score", PNum 6.0);
         ("min_confidence", PNum 60)].

(** Stages that answer nothing, to run [analyze_symbol] on a sample. *)
Definition idle1 : DataFrame -> result pyval := fun _ => Ok (PDict []).
Definition idle_lib : string -> DataFrame -> result series :=
  fun _ _ => Ok [].

(** Vocabulary of the properties of the stages and the monitors. *)

(** How often a value occurs in a list of rounded prices. *)
Definition occurrences (k : Q) (l : list Q) : nat :=
  List.length (filter (Qeq_bool k) l).

(** An entry of the counter under construction: its count is not above the
    occurrences seen so far, and its key keeps what holds of every price. *)
Definition counted (G : Q -> Prop) (seen : list Q) (kn : Q * nat) : Prop :=
  (snd kn <= occurrences (fst kn) seen)%nat /\ G (fst kn).

(** The test of one row in [_count_touches]. *)
Definition touches_level (level tolerance x : Q) : bool :=
  Qleb (Qabs (x - level)) (level * tolerance).

(** The test of one position in [_find_peaks], [_find_valleys]. *)
Definition is_peak (data : series) (k i : nat) : Prop :=
  forall j, (i - k <= j <= i + k)%nat -> nth j data 0 <= nth i data 0.

Definition is_valley (data : series) (k i : nat) : Prop :=
  forall j, (i - k <= j <= i + k)%nat -> nth i data 0 <= nth j data 0.

(** The loop collects, in order, the positions of the range that pass the
    test. *)
Definition passes (pick : series -> result Q) (data : series) (k i : nat)
  : bool :=
  match pick (slice data (i - k) (i + k + 1)) with
  | Ok m => Qeq_bool (nth i data 0) m
  | Raise _ => false
  end.

(** What one test does to the list: nothing, or one pattern of its own
    added at the end. *)
Definition adds (allowed : list pyval) (ps : list pyval)
  (r : result (list pyval)) : Prop :=
  match r with
  | Ok ps' => exists new, ps' = ps ++ new /\
                          (new = [] \/ exists c, In c allowed /\ new = [c])
  | Raise _ => True
  end.

(** The doji test on the last bar. *)
(** The last bar has a range. *)
Definition last_bar_has_range (df : DataFrame) : Prop :=
  exists h l, cell df 1 "high" = Ok h /\ cell df 1 "low" = Ok l /\ l < h.

Definition last_bar_is_doji (df : DataFrame) : Prop :=
  exists c o h l,
    cell df 1 "close" = Ok c /\ cell df 1 "open" = Ok o /\
    cell df 1 "high" = Ok h /\ cell df 1 "low" = Ok l /\
    0 < h - l /\ Qabs (c - o) / (h - l) < 0.1.

(** A statement that extends the list by what [P] allows. *)
Definition extends_by (P : list pyval -> Prop) (st : stmt (list pyval))
  : Prop :=
  forall ps, exists new, fst (st ps) = ps ++ new /\ P new.

Definition one_of (allowed : list pyval) (l : list pyval) : Prop :=
  l = [] \/ exists c, In c allowed /\ l = [c].

(** A pattern record as the detectors write it, with a score from 3 to
    9. *)
Definition scored_pattern (p : pyval) : Prop :=
  exists name type direction strength score timeframe description,
    p = pattern name type direction strength score timeframe description /\
    3 <= score /\ score <= 9.





(** The multiplier that [_calculate_position_size] applies to the
    configured risk per trade. *)
Definition size_factor (s : Q) : Q :=
  if Qleb s 3.0 then 1.5
  else if Qleb s 4.0 then 1.2
  else if Qleb s 5.0 then 1
  else if Qleb s 6.0 then 0.7
  else if Qleb s 7.0 then 0.5
  else 0.3.

Definition numbers (l : list Q) : pyval := PList (map PNum l).

(** The head of a list bounds the rest, from below or from above. *)
Definition head_bounds (R : Q -> Q -> Prop) (l : list Q) : Prop :=
  match l with
  | [] => True
  | h :: r => Forall (R h) r
  end.

(** One bar whose close lies above three falling averages. *)
Definition rising_frame : DataFrame := {|
  index := ["2024-01-01T00:00"];
  columns := [("open", [1.10]); ("high", [1.12]); ("low", [1.09]);
              ("close", [1.11]); ("ema_9", [1.10]); ("ema_20", [1.08]);
              ("ema_50", [1.05])]
|}.


(** An account with no margin in use, and one that uses a tenth of it. *)
Definition idle_account : pyval :=
  PDict [("balance", PNum 10000); ("equity", PNum 10000);
         ("margin", PNum 0); ("free_margin", PNum 10000)].

Definition active_account : pyval :=
  PDict [("balance", PNum 10000); ("equity", PNum 10000);
         ("margin", PNum 1000); ("free_margin", PNum 9000)].

Definition flat_day : pyval := PDict [("daily_profit", PNum 0)].

(* ===================================================================== *)
(** ** Properties                                                         *)
(* ===================================================================== *)

(** *** Rounding *)

Lemma Qcompare_Lt_iff (a b : Q) : Qcompare a b = Lt <-> a < b.
Proof. symmetry. apply Qlt_alt. Qed.

Lemma Qcompare_Gt_iff (a b : Q) : Qcompare a b = Gt <-> b < a.
Proof. symmetry. apply Qgt_alt. Qed.

Lemma Qcompare_Eq_iff (a b : Q) : Qcompare a b = Eq <-> a == b.
Proof. symmetry. apply Qeq_alt. Qed.

Lemma round_half_even_lower (k : Z) (q : Q) :
  inject_Z k <= q -> (k <= round_half_even q)%Z.
Proof.
  intros H.
  assert (Hf : (k <= Qfloor q)%Z).
  { rewrite <- (Qfloor_Z k). apply Qfloor_resp_le. exact H. }
  unfold round_half_even.
  destruct (Qcompare (q - inject_Z (Qfloor q)) 0.5); try lia.
  destruct (Z.even (Qfloor q)); lia.
Qed.

Lemma round_half_even_upper (k : Z) (q : Q) :
  q <= inject_Z k -> (round_half_even q <= k)%Z.
Proof.
  intros H.
  assert (Hf : (Qfloor q <= k)%Z).
  { rewrite <- (Qfloor_Z k). apply Qfloor_resp_le. exact H. }
  unfold round_half_even.
  destruct (Z.eq_dec (Qfloor q) k) as [E | NE].
  - assert (Hlt : q - inject_Z (Qfloor q) < 0.5).
    { rewrite E. lra. }
    apply Qcompare_Lt_iff in Hlt. rewrite Hlt. lia.
  - destruct (Qcompare (q - inject_Z (Qfloor q)) 0.5); try lia.
    destruct (Z.even (Qfloor q)); lia.
Qed.

Lemma pow10_pos (n : nat) : 0 < inject_Z (10 ^ Z.of_nat n).
Proof.
  change 0 with (inject_Z 0). rewrite <- Zlt_Qlt.
  apply Z.pow_pos_nonneg; lia.
Qed.

(** Rounding to [n] decimals never leaves an interval whose ends are
    themselves multiples of [10^-n]. *)
Lemma py_round_bounds (lo hi : Z) (q : Q) (n : nat) :
  inject_Z lo / inject_Z (10 ^ Z.of_nat n) <= q ->
  q <= inject_Z hi / inject_Z (10 ^ Z.of_nat n) ->
  inject_Z lo / inject_Z (10 ^ Z.of_nat n) <= py_round q n /\
  py_round q n <= inject_Z hi / inject_Z (10 ^ Z.of_nat n).
Proof.
  intros Hlo Hhi. unfold py_round.
  pose proof (pow10_pos n) as Hp.
  set (t := inject_Z (10 ^ Z.of_nat n)) in *.
  assert (Ht : ~ t == 0) by lra.
  assert (Hinv : 0 <= / t) by (apply Qlt_le_weak, Qinv_lt_0_compat; exact Hp).
  split.
  - unfold Qdiv. apply Qmult_le_compat_r; [|exact Hinv].
    rewrite <- Zle_Qle. apply round_half_even_lower.
    assert (E : inject_Z lo == inject_Z lo / t * t) by (field; exact Ht).
    rewrite E. apply Qmult_le_compat_r; [exact Hlo | lra].
  - unfold Qdiv. apply Qmult_le_compat_r; [|exact Hinv].
    rewrite <- Zle_Qle. apply round_half_even_upper.
    assert (E : inject_Z hi == inject_Z hi / t * t) by (field; exact Ht).
    rewrite E. apply Qmult_le_compat_r; [exact Hhi | lra].
Qed.

(** Rounding moves a number by at most half a unit of the last place. *)
Lemma round_half_even_near (q : Q) :
  Qabs (inject_Z (round_half_even q) - q) <= 1 # 2.
Proof.
  pose proof (Qfloor_le q) as H1. pose proof (Qlt_floor q) as H2.
  rewrite inject_Z_plus in H2. change (inject_Z 1) with 1 in H2.
  unfold round_half_even.
  destruct (Qcompare (q - inject_Z (Qfloor q)) 0.5) eqn:E.
  - apply (proj1 (Qcompare_Eq_iff _ _)) in E.
    destruct (Z.even (Qfloor q)); [|rewrite inject_Z_plus; change (inject_Z 1) with 1];
      apply Qabs_Qle_condition; split; lra.
  - apply (proj1 (Qcompare_Lt_iff _ _)) in E. apply Qabs_Qle_condition; split; lra.
  - apply (proj1 (Qcompare_Gt_iff _ _)) in E. rewrite inject_Z_plus. change (inject_Z 1) with 1.
    apply Qabs_Qle_condition; split; lra.
Qed.

Lemma py_round_near1 (x : Q) : Qabs (py_round x 1 - x) <= 0.05.
Proof.
  unfold py_round. change (inject_Z (10 ^ Z.of_nat 1)) with 10.
  pose proof (round_half_even_near (x * 10)) as H.
  apply Qabs_Qle_condition in H. destruct H as [H1 H2].
  set (r := inject_Z (round_half_even (x * 10))) in *.
  apply Qabs_Qle_condition. split.
  - apply Qle_minus_iff.
    assert (E : r / 10 - x + - - 0.05 == (r - x * 10 + (1#2)) / 10) by field.
    rewrite E. apply Qle_shift_div_l; lra.
  - apply Qle_minus_iff.
    assert (E : 0.05 + - (r / 10 - x) == ((1#2) - (r - x * 10)) / 10) by field.
    rewrite E. apply Qle_shift_div_l; lra.
Qed.

(** *** Position sizing *)

Lemma round2_within_limits (y : Q) :
  0.1 <= y -> y <= 5.0 -> 0.1 <= py_round y 2 /\ py_round y 2 <= 5.0.
Proof.
  intros H1 H2.
  destruct (py_round_bounds 10 500 y 2) as [A1 A2].
  - setoid_replace (inject_Z 10 / inject_Z (10 ^ Z.of_nat 2)) with 0.1
      by reflexivity.
    exact H1.
  - setoid_replace (inject_Z 500 / inject_Z (10 ^ Z.of_nat 2)) with 5.0
      by reflexivity.
    exact H2.
  - split.
    + setoid_replace 0.1 with (inject_Z 10 / inject_Z (10 ^ Z.of_nat 2))
        by reflexivity.
      exact A1.
    + setoid_replace 5.0 with (inject_Z 500 / inject_Z (10 ^ Z.of_nat 2))
        by reflexivity.
      exact A2.
Qed.

(** The last three statements of [_calculate_position_size], on any raw
    size. *)
Lemma clamp_position (x : Q) :
  exists p,
    (capped <- py_min2 (PNum 5.0) (PNum x) ;;
     position_size <- py_max2 (PNum 0.1) capped ;;
     py_round_val position_size 2) = Ok (PNum p) /\ 0.1 <= p /\ p <= 5.0.
Proof.
  unfold py_min2, py_max2, py_lt, py_gt, py_round_val.
  cbn [py_cmp bind].
  destruct (Qcompare x 5.0) eqn:E1; cbn [py_cmp bind num as_num].
  - change (Qcompare 5.0 0.1) with Gt. cbn [bind num as_num].
    eexists; split; [reflexivity | apply round2_within_limits; lra].
  - pose proof (proj1 (Qcompare_Lt_iff _ _) E1) as H1.
    destruct (Qcompare x 0.1) eqn:E2; cbn [bind num as_num];
      eexists; (split; [reflexivity | apply round2_within_limits]); try lra.
    pose proof (proj1 (Qcompare_Gt_iff _ _) E2) as H2. lra.
  - change (Qcompare 5.0 0.1) with Gt. cbn [bind num as_num].
    eexists; split; [reflexivity | apply round2_within_limits; lra].
Qed.

(** C10. Whatever the combined score and the configured per-trade risk
    are, the position-size percent returned by [_calculate_position_size]
    is a number in the closed interval [0.1, 5.0]. *)
Theorem position_size_within_limits
  (overall_risk analysis risk_config : pyval) (score max_trade_risk : Q) :
  py_get overall_risk "score" (PNum 5.0) = Ok (PNum score) ->
  py_get risk_config "max_trade_risk" (PNum 1.0) = Ok (PNum max_trade_risk) ->
  exists p,
    _calculate_position_size overall_risk analysis risk_config = Ok (PNum p)
    /\ 0.1 <= p /\ p <= 5.0.
Proof.
  intros Hs Hm. unfold _calculate_position_size. rewrite Hs, Hm.
  unfold py_le, py_mul. cbn [bind py_cmp num as_num].
  repeat match goal with
  | |- context [Qcompare score ?c] => destruct (Qcompare score c)
  end; cbn [bind];
  match goal with
  | |- context [py_min2 (PNum 5.0) (PNum ?x)] =>
      destruct (clamp_position x) as [p [E B]]; rewrite E
  end; exists p; (split; [reflexivity | exact B]).
Qed.

Lemma position_size_within_limits_witness :
  exists p,
    _calculate_position_size
      (PDict [("score", PNum 2.5)]) (PDict [])
      (PDict [("max_trade_risk", PNum 4.0)]) = Ok (PNum p)
    /\ 0.1 <= p /\ p <= 5.0.
Proof.
  apply (position_size_within_limits _ _ _ 2.5 4.0); reflexivity.
Defined.

(** *** The decision ceiling *)

(** C2. When the combined score is strictly above the configured ceiling
    [max_risk_score], [_generate_trade_signal] answers [NO_TRADE] with
    confidence 0, whatever the signals of the analysis say. *)
Theorem risk_above_ceiling_is_no_trade
  (overall_risk analysis risk_config : pyval)
  (signals : list (string * pyval)) (score ceiling : Q) :
  py_get overall_risk "score" (PNum 5.0) = Ok (PNum score) ->
  py_get analysis "signals" (PDict []) = Ok (PDict signals) ->
  py_get risk_config "max_risk_score" (PNum 6.0) = Ok (PNum ceiling) ->
  ceiling < score ->
  _generate_trade_signal overall_risk analysis risk_config
  = (PStr "NO_TRADE", PNum 0).
Proof.
  intros Hs Hsig Hc Hlt. unfold _generate_trade_signal.
  rewrite Hs, Hsig, Hc. cbn [bind py_get].
  destruct risk_config; try discriminate Hc. cbn [py_get bind].
  unfold py_gt. cbn [py_cmp bind].
  pose proof (proj2 (Qcompare_Gt_iff _ _) Hlt) as E. rewrite E. reflexivity.
Qed.

Lemma risk_above_ceiling_is_no_trade_witness :
  _generate_trade_signal
    (PDict [("score", PNum 7.3)])
    (PDict [("signals", PDict [("primary", PStr "STRONG_BUY");
                               ("confidence", PNum 90)])])
    (PDict [("max_risk_score", PNum 6.0); ("min_confidence", PNum 60)])
  = (PStr "NO_TRADE", PNum 0).
Proof.
  apply (risk_above_ceiling_is_no_trade _ _ _
           [("primary", PStr "STRONG_BUY"); ("confidence", PNum 90)] 7.3 6.0);
    reflexivity.
Defined.

(** *** Boolean tests on rationals *)

Lemma Qltb_true_iff (a b : Q) : Qltb a b = true <-> a < b.
Proof.
  unfold Qltb. rewrite Qlt_alt. destruct (Qcompare a b); split; congruence.
Qed.

Lemma Qltb_eq_false (a b : Q) : a == b -> Qltb a b = false.
Proof.
  intros H. unfold Qltb. apply Qeq_alt in H. rewrite H. reflexivity.
Qed.

Lemma Qgtb_eq_false (a b : Q) : a == b -> Qgtb a b = false.
Proof. intros H. apply Qltb_eq_false. symmetry. exact H. Qed.


(** *** Support and resistance levels *)

Lemma insert_sorted_Forall (P : Q -> Prop) (x : Q) (l : list Q) :
  P x -> Forall P l -> Forall P (insert_sorted x l).
Proof.
  intros Hx Hl. induction Hl as [| y r Hy Hr IH]; simpl.
  - constructor; [exact Hx | constructor].
  - destruct (Qltb y x || Qeq_bool y x); constructor; auto.
Qed.



Lemma keep_spaced_Forall (P : Q -> Prop) (l : list Q) :
  Forall P l -> forall last, Forall P (keep_spaced last l).
Proof.
  induction 1 as [| x r Hx Hr IH]; intros last; simpl.
  - constructor.
  - destruct last as [k |].
    + destruct (Qgtb x (k * 1.005)); [constructor|]; auto.
    + constructor; auto.
Qed.




Lemma firstn_Forall (P : Q -> Prop) (n : nat) (l : list Q) :
  Forall P l -> Forall P (firstn n l).
Proof.
  intros Hl. revert n.
  induction Hl as [| x r Hx Hr IH]; intros [| n]; simpl; constructor; auto.
Qed.






(** At ten billion the grid of four decimals is finer than the rounding of
    the product, and a level less than half a percent above the level kept
    last passes the test: the spacing needs a bound on the prices. *)
Remark closer_level_is_kept_at_large_prices :
  find_levels_binary64 "low" large_lows 100
  = [10000000000.0201; 10050000000.0202] /\
  ~ apart (find_levels_binary64 "low" large_lows 100).
Proof.
  assert (E : find_levels_binary64 "low" large_lows 100
              = [10000000000.0201; 10050000000.0202])
    by (vm_compute; reflexivity).
  split; [exact E|]. rewrite E. unfold apart. intros H.
  inversion H as [|a l Ha Hl]; subst.
  inversion Ha as [|b l' Hb _]; subst.
  revert Hb. unfold Qle. simpl. lia.
Qed.



Example support_levels_sample :
  let lows := [1.0; 1.0; 1.0; 1.004; 1.004; 1.004; 1.004;
               1.02; 1.02; 1.02; 0.9; 0.9; 1.00001] in
  let bars := map (fun l => mkBar "t" 1.1 1.2 l 1.1 5 0 0) lows in
  Forall2 Qeq (_find_support_levels (frame_of_bars bars) 100) [1.0; 1.02].
Proof. vm_compute. repeat constructor. Qed.

(** *** Candlestick patterns *)

Lemma nth_last_map {A : Type} (f : A -> Q) (pre : list A) (b : A) :
  nth (List.length (pre ++ [b]) - 1) (map f (pre ++ [b])) 0 = f b.
Proof.
  rewrite map_app, length_app, app_nth2; simpl; rewrite length_map; [|lia].
  replace (List.length pre + 1 - 1 - List.length pre)%nat with 0%nat by lia.
  reflexivity.
Qed.

Lemma len_frame_of_bars (bars : list Bar) :
  len (frame_of_bars bars) = List.length bars.
Proof. unfold len, frame_of_bars. simpl. apply length_map. Qed.

Lemma iloc_back_in_range (s : series) (k : nat) :
  (1 <= k <= List.length s)%nat ->
  iloc_back s k = Ok (nth (List.length s - k) s 0).
Proof.
  intros [H1 H2]. unfold iloc_back.
  destruct (Nat.leb_spec 1 k); [|lia].
  destruct (Nat.leb_spec k (List.length s)); [|lia].
  reflexivity.
Qed.

Section BarCells.

Variable bars : list Bar.
Variable k : nat.
Hypothesis Hk : (1 <= k <= List.length bars)%nat.

Lemma cell_open :
  cell (frame_of_bars bars) k "open"
  = Ok (nth (List.length bars - k) (map open bars) 0).
Proof.
  unfold cell. cbn. rewrite iloc_back_in_range by (rewrite length_map; exact Hk).
  rewrite length_map. reflexivity.
Qed.

Lemma cell_high :
  cell (frame_of_bars bars) k "high"
  = Ok (nth (List.length bars - k) (map high bars) 0).
Proof.
  unfold cell. cbn. rewrite iloc_back_in_range by (rewrite length_map; exact Hk).
  rewrite length_map. reflexivity.
Qed.

Lemma cell_low :
  cell (frame_of_bars bars) k "low"
  = Ok (nth (List.length bars - k) (map low bars) 0).
Proof.
  unfold cell. cbn. rewrite iloc_back_in_range by (rewrite length_map; exact Hk).
  rewrite length_map. reflexivity.
Qed.

Lemma cell_close :
  cell (frame_of_bars bars) k "close"
  = Ok (nth (List.length bars - k) (map close bars) 0).
Proof.
  unfold cell. cbn. rewrite iloc_back_in_range by (rewrite length_map; exact Hk).
  rewrite length_map. reflexivity.
Qed.

Lemma row_in_range : row (frame_of_bars bars) k = Ok k.
Proof.
  unfold row. rewrite len_frame_of_bars.
  destruct Hk as [H1 H2].
  destruct (Nat.leb_spec 1 k); [|lia].
  destruct (Nat.leb_spec k (List.length bars)); [|lia].
  reflexivity.
Qed.

End BarCells.

(** A window of at least three bars whose last bar has no body and a
    positive range. *)
Section LastBarFlat.

Variable pre : list Bar.
Variable b : Bar.
Hypothesis Hlen : (2 <= List.length pre)%nat.
Hypothesis Hbody : open b == close b.
Hypothesis Hrange : low b < high b.

Let bars := pre ++ [b].
Let df := frame_of_bars bars.

Lemma length_bars : List.length bars = (List.length pre + 1)%nat.
Proof. unfold bars. rewrite length_app. reflexivity. Qed.

Ltac cells :=
  repeat first
    [ rewrite row_in_range by (rewrite length_bars; lia)
    | rewrite cell_open by (rewrite length_bars; lia)
    | rewrite cell_high by (rewrite length_bars; lia)
    | rewrite cell_low by (rewrite length_bars; lia)
    | rewrite cell_close by (rewrite length_bars; lia) ];
  unfold bars; rewrite ?nth_last_map; fold bars.

Ltac flat_body :=
  rewrite (Qgtb_eq_false (close b) (open b)) by (symmetry; exact Hbody);
  rewrite (Qltb_eq_false (close b) (open b)) by (symmetry; exact Hbody).

Lemma engulfing_flat (ps : list pyval) : engulfing df ps = Ok ps.
Proof.
  unfold engulfing, df, andM, ltM, gtM. cells. cbn [bind]. cells. cbn [bind].
  flat_body.
  repeat match goal with
  | |- context [if ?c then _ else _] => destruct c; cbn [bind]
  end; reflexivity.
Qed.

Lemma hammer_flat (ps : list pyval) : hammer df ps = Ok ps.
Proof.
  unfold hammer, df. cells. cbn [bind]. cells. cbn [bind].
  flat_body. rewrite !andb_false_r. reflexivity.
Qed.

Lemma doji_flat (ps : list pyval) : doji df ps = Ok (ps ++ [DOJI]).
Proof.
  unfold doji, df. cells. cbn [bind]. cells. cbn [bind].
  assert (E1 : Qgtb (high b - low b) 0 = true).
  { apply Qltb_true_iff. lra. }
  assert (E2 : Qltb (Qabs (close b - open b) / (high b - low b)) 0.1 = true).
  { apply Qltb_true_iff.
    assert (Z : Qabs (close b - open b) == 0).
    { setoid_replace (close b - open b) with 0 by lra. reflexivity. }
    rewrite Z. unfold Qdiv. rewrite Qmult_0_l. reflexivity. }
  rewrite E1, E2. reflexivity.
Qed.

Lemma star_flat (ps : list pyval) : star df ps = Ok ps.
Proof.
  unfold star, df, andM, ltM, gtM, small_second. cells. cbn [bind]. cells.
  cbn [bind]. flat_body.
  repeat match goal with
  | |- context [if ?c then _ else _] => destruct c; cbn [bind]
  end; reflexivity.
Qed.

Lemma patterns_flat : _detect_candlestick_patterns df = [DOJI].
Proof.
  unfold _detect_candlestick_patterns.
  assert (L : len df = (List.length pre + 1)%nat).
  { unfold df. rewrite len_frame_of_bars. apply length_bars. }
  rewrite !L.
  destruct (Nat.ltb_spec (List.length pre + 1) 3); [lia|].
  replace (Nat.leb 2 (Nat.min 3 (List.length pre + 1))) with true
    by (symmetry; apply Nat.leb_le; lia).
  replace (Nat.leb 1 (List.length pre + 1)) with true
    by (symmetry; apply Nat.leb_le; lia).
  replace (Nat.leb 3 (List.length pre + 1)) with true
    by (symmetry; apply Nat.leb_le; lia).
  unfold when, atomic. cbn [exec_block].
  rewrite engulfing_flat. cbn [exec_block].
  rewrite hammer_flat. cbn [exec_block].
  rewrite doji_flat. cbn [exec_block app].
  rewrite star_flat. reflexivity.
Qed.

End LastBarFlat.

(** C9, as the detector behaves: the doji test reads the last bar only, so
    a window of at least three bars whose last bar has a zero body and a
    positive range yields exactly one DOJI match (INDECISION, NEUTRAL,
    strength score 3) and nothing else, whatever the earlier bars are. *)
Theorem flat_last_bar_gives_one_doji (pre : list Bar) (b : Bar) :
  (2 <= List.length pre)%nat ->
  open b == close b ->
  low b < high b ->
  let patterns := _detect_candlestick_patterns (frame_of_bars (pre ++ [b])) in
  patterns = [DOJI] /\
  count_named "DOJI" patterns = 1%nat /\
  path DOJI ["type"] = Some (PStr "INDECISION") /\
  path DOJI ["direction"] = Some (PStr "NEUTRAL") /\
  path DOJI ["strength_score"] = Some (PNum 3).
Proof.
  intros Hlen Hbody Hrange. cbv zeta.
  rewrite (patterns_flat pre b Hlen Hbody Hrange).
  repeat split; reflexivity.
Qed.

Lemma flat_last_bar_gives_one_doji_witness :
  let patterns :=
    _detect_candlestick_patterns
      (frame_of_bars ([flat_bar; flat_bar] ++ [flat_bar])) in
  patterns = [DOJI] /\
  count_named "DOJI" patterns = 1%nat /\
  path DOJI ["type"] = Some (PStr "INDECISION") /\
  path DOJI ["direction"] = Some (PStr "NEUTRAL") /\
  path DOJI ["strength_score"] = Some (PNum 3).
Proof.
  apply (flat_last_bar_gives_one_doji [flat_bar; flat_bar] flat_bar).
  - simpl. lia.
  - reflexivity.
  - reflexivity.
Defined.

(** C9, as stated, asks for one DOJI per flat bar; on three flat bars the
    detector reports one, not three. *)
Lemma three_flat_bars_one_doji :
  let window := [flat_bar; flat_bar; flat_bar] in
  Forall (fun b => open b == close b /\ ~ high b - low b == 0) window /\
  count_named "DOJI" (_detect_candlestick_patterns (frame_of_bars window))
  <> 3%nat.
Proof.
  split.
  - repeat constructor; try reflexivity; intros H; discriminate H.
  - vm_compute. discriminate.
Qed.

(** *** The indicator engine *)

Lemma find_col_put_col (cs : list (string * series)) (n m : string) (c : series) :
  find_col (put_col cs n c) m
  = if String.eqb n m then Some c else find_col cs m.
Proof.
  induction cs as [| [k v] r IH]; simpl.
  - reflexivity.
  - destruct (String.eqb_spec k n) as [-> | Hkn]; simpl.
    + destruct (String.eqb n m); reflexivity.
    + destruct (String.eqb_spec k m) as [-> | Hkm].
      * destruct (String.eqb_spec n m) as [-> | _]; [congruence | reflexivity].
      * exact IH.
Qed.

Lemma evolves_refl (df : DataFrame) : evolves [] [] df df.
Proof. repeat split; auto; intros m []. Qed.

Lemma evolves_set_col (df : DataFrame) (n : string) (c : series) :
  evolves [n] [] df (set_col df n c).
Proof.
  unfold evolves, has_column, set_col; simpl. repeat split.
  - intros m. rewrite find_col_put_col. destruct (String.eqb n m); auto.
  - intros m [<- | []]. rewrite find_col_put_col, String.eqb_refl. reflexivity.
  - intros m Hm. rewrite find_col_put_col.
    destruct (String.eqb_spec n m) as [-> | _]; [|reflexivity].
    exfalso. apply Hm. left. reflexivity.
Qed.

Lemma evolves_trans (a1 m1 a2 m2 : list string) (df df1 df2 : DataFrame) :
  evolves a1 m1 df df1 -> evolves a2 m2 df1 df2 ->
  evolves (a1 ++ a2) (m1 ++ m2) df df2.
Proof.
  intros (I1 & M1 & A1 & F1) (I2 & M2 & A2 & F2). repeat split.
  - congruence.
  - auto.
  - intros m Hm. apply in_app_or in Hm. destruct Hm; auto.
  - intros m Hm. rewrite F2, F1; [reflexivity | |];
      intros H; apply Hm; rewrite !in_app_iff in *; tauto.
Qed.

Lemma exec_block_cons {S : Type} (st : stmt S) (r : list (stmt S)) (s : S) :
  exec_block (st :: r) s
  = match st s with
    | (s', None) => exec_block r s'
    | (s', Some e) => (s', Some e)
    end.
Proof. reflexivity. Qed.

Section Blocks.
Variable lib : string -> DataFrame -> result series.

Lemma exec_assigns (names : list string) :
  (forall n d, In n names -> is_ok (lib n d) = true) ->
  forall rest df,
  exists df', exec_block (map (assign lib) names ++ rest) df
              = exec_block rest df' /\ evolves names [] df df'.
Proof.
  induction names as [| n r IH]; intros Hok rest df.
  - exists df. split; [reflexivity | apply evolves_refl].
  - simpl. unfold assign at 1, atomic.
    pose proof (Hok n df (or_introl eq_refl)) as Hn.
    destruct (lib n df) as [c | e]; [|discriminate Hn]. cbn [bind].
    destruct (IH (fun k d H => Hok k d (or_intror H)) rest (set_col df n c))
      as (df' & E & Hev).
    exists df'. split; [exact E|].
    apply (evolves_trans [n] [] r [] _ _ _ (evolves_set_col df n c) Hev).
Qed.

Lemma indicators_never_raise (df : DataFrame) :
  exists out, _calculate_all_indicators lib df = Ok out.
Proof.
  unfold _calculate_all_indicators.
  destruct (exec_block (indicator_block lib) df) as [df' [e |]]; simpl; eauto.
Qed.

End Blocks.

Lemma assigns_within_weaken (names names' : list string)
  (st : stmt DataFrame) :
  incl names names' -> assigns_within names st -> assigns_within names' st.
Proof.
  intros Hi H df. destruct (H df) as [I F]. split; [exact I|].
  intros m Hm. apply F. intros Hin. apply Hm, Hi, Hin.
Qed.

Lemma set_within (n : string) (rhs : DataFrame -> result series) :
  assigns_within [n]
    (atomic (fun df => c <- rhs df ;; Ok (set_col df n c))).
Proof.
  intros df. unfold atomic. destruct (rhs df) as [c|e]; cbn [bind fst].
  - split; [reflexivity|]. intros m Hm. cbn [set_col columns].
    rewrite find_col_put_col.
    destruct (String.eqb_spec n m) as [->|_]; [|reflexivity].
    exfalso. apply Hm. left. reflexivity.
  - split; reflexivity.
Qed.

Lemma exec_block_within (names : list string)
  (block : list (stmt DataFrame)) :
  Forall (assigns_within names) block ->
  assigns_within names (exec_block block).
Proof.
  induction 1 as [|st r Hst Hr IH]; intros df.
  - split; reflexivity.
  - rewrite exec_block_cons. destruct (Hst df) as [I F].
    destruct (st df) as [df1 [e|]]; cbn [fst] in *.
    + split; assumption.
    + destruct (IH df1) as [I1 F1]. split.
      * rewrite I1. exact I.
      * intros m Hm. rewrite (F1 m Hm). apply F. exact Hm.
Qed.

Lemma when_within (names : list string) (c : DataFrame -> bool)
  (block : list (stmt DataFrame)) :
  Forall (assigns_within names) block ->
  assigns_within names (when c block).
Proof.
  intros H df. unfold when. destruct (c df).
  - apply exec_block_within. exact H.
  - split; reflexivity.
Qed.

Lemma try_pass_within (names : list string) (st : stmt DataFrame) :
  assigns_within names st -> assigns_within names (try_pass st).
Proof. intros H df. unfold try_pass. cbn [fst]. apply H. Qed.

Lemma exec_block_app {S : Type} (a b : list (stmt S)) (s : S) :
  exec_block (a ++ b) s
  = match exec_block a s with
    | (s', None) => exec_block b s'
    | (s', Some e) => (s', Some e)
    end.
Proof.
  revert s. induction a as [|st r IH]; intros s; [reflexivity|].
  cbn [app]. rewrite !exec_block_cons.
  destruct (st s) as [s1 [e|]]; [reflexivity | apply IH].
Qed.

Section Battery.

Variable lib : string -> DataFrame -> result series.

Lemma assigns_list_within (names : list string) :
  Forall (assigns_within names) (map (assign lib) names).
Proof.
  apply Forall_forall. intros st Hst. apply in_map_iff in Hst.
  destruct Hst as [n [<- Hn]].
  apply (assigns_within_weaken [n]); [|apply set_within].
  intros x [<-|[]]. exact Hn.
Qed.

(** The statements after the volume block. *)
Let tail_block : list (stmt DataFrame) :=
  [ when (fun d => Nat.ltb 52 (len d)) (map (assign lib) ichimoku_columns);
    try_pass (assign lib "sar");
    assign_from "body" body_of;
    assign_from "upper_shadow" upper_shadow_of;
    assign_from "lower_shadow" lower_shadow_of;
    assign_from "body_ratio" body_ratio_of ].

Lemma tail_block_within :
  Forall (assigns_within (ichimoku_columns ++ ["sar"] ++ candle_columns))
         tail_block.
Proof.
  unfold tail_block.
  assert (one : forall n rhs,
            In n (ichimoku_columns ++ ["sar"] ++ candle_columns) ->
            assigns_within (ichimoku_columns ++ ["sar"] ++ candle_columns)
              (atomic (fun df => c <- rhs df ;; Ok (set_col df n c)))).
  { intros n rhs Hn. apply (assigns_within_weaken [n]); [|apply set_within].
    intros x [<-|[]]. exact Hn. }
  apply Forall_cons.
  { apply when_within.
    eapply Forall_impl; [|apply assigns_list_within].
    intros st. apply assigns_within_weaken. intros x Hx.
    apply in_or_app. left. exact Hx. }
  apply Forall_cons.
  { apply try_pass_within. apply one. vm_compute. tauto. }
  apply Forall_cons; [apply one; vm_compute; tauto|].
  apply Forall_cons; [apply one; vm_compute; tauto|].
  apply Forall_cons; [apply one; vm_compute; tauto|].
  apply Forall_cons; [apply one; vm_compute; tauto|].
  apply Forall_nil.
Qed.

Lemma indicator_block_split :
  indicator_block lib
  = map (assign lib) core_columns
    ++ when (fun d => has_column d "tick_volume")
            (map (assign lib) volume_columns)
       :: tail_block.
Proof.
  unfold indicator_block, core_columns, tail_block.
  rewrite !map_app, <- !app_assoc. reflexivity.
Qed.

Lemma indicator_block_within :
  Forall (assigns_within
            (core_columns ++ volume_columns ++ ichimoku_columns ++ ["sar"]
             ++ candle_columns))
         (indicator_block lib).
Proof.
  rewrite indicator_block_split. apply Forall_app. split.
  - eapply Forall_impl; [|apply assigns_list_within].
    intros st. apply assigns_within_weaken. intros x Hx.
    apply in_or_app. left. exact Hx.
  - constructor.
    + apply when_within.
      eapply Forall_impl; [|apply assigns_list_within].
      intros st. apply assigns_within_weaken. intros x Hx.
      apply in_or_app. right. apply in_or_app. left. exact Hx.
    + eapply Forall_impl; [|apply tail_block_within].
      intros st. apply assigns_within_weaken. intros x Hx.
      apply in_or_app. right. apply in_or_app. right. exact Hx.
Qed.

Lemma indicators_result (df : DataFrame) :
  _calculate_all_indicators lib df
  = Ok (fst (exec_block (indicator_block lib) df)).
Proof.
  unfold _calculate_all_indicators.
  destruct (exec_block (indicator_block lib) df) as [df' [e|]]; reflexivity.
Qed.

(** Without the volume column the volume block is skipped, wherever the
    battery ends. *)
Lemma volume_block_skipped (df : DataFrame) (m : string) :
  has_column df "tick_volume" = false ->
  In m volume_columns ->
  find_col (columns (fst (exec_block (indicator_block lib) df))) m
  = find_col (columns df) m.
Proof.
  intros Hv Hm. rewrite indicator_block_split, exec_block_app.
  destruct (exec_block_within core_columns _ (assigns_list_within core_columns)
              df) as [_ F].
  assert (Hc : ~ In m core_columns).
  { intros Hin. vm_compute in Hin, Hm.
    repeat (destruct Hm as [<-|Hm]; [intuition discriminate|]). exact Hm. }
  assert (Ht : ~ In "tick_volume" core_columns)
    by (vm_compute; intuition discriminate).
  destruct (exec_block (map (assign lib) core_columns) df) as [df1 [e|]];
    cbn [fst] in *.
  - apply F. exact Hc.
  - rewrite exec_block_cons. unfold when at 1.
    assert (Hv1 : has_column df1 "tick_volume" = false).
    { unfold has_column in *. rewrite (F _ Ht). exact Hv. }
    rewrite Hv1.
    destruct (exec_block_within _ _ tail_block_within df1) as [_ F1].
    rewrite F1; [apply F; exact Hc|].
    intros Hin. vm_compute in Hin, Hm.
    repeat (destruct Hm as [<-|Hm]; [intuition discriminate|]). exact Hm.
Qed.

(** A computation that fails ends the battery: only the columns before it
    can have been assigned. *)
Lemma failing_call_ends_battery (df : DataFrame) (pre post : list string)
  (n m : string) :
  core_columns = pre ++ n :: post ->
  (forall d, is_ok (lib n d) = false) ->
  ~ In m pre ->
  find_col (columns (fst (exec_block (indicator_block lib) df))) m
  = find_col (columns df) m.
Proof.
  intros Hsplit Hfail Hm.
  rewrite indicator_block_split, Hsplit, map_app, <- app_assoc, exec_block_app.
  destruct (exec_block_within pre _ (assigns_list_within pre) df) as [_ F].
  destruct (exec_block (map (assign lib) pre) df) as [df1 [e|]];
    cbn [fst] in *.
  - apply F. exact Hm.
  - cbn [map app]. rewrite exec_block_cons.
    unfold assign at 1, atomic.
    pose proof (Hfail df1) as K.
    destruct (lib n df1) as [c|e]; [discriminate K|].
    cbn [bind fst]. apply F. exact Hm.
Qed.

(** The computations before the one that fails, when they succeed, have
    their columns assigned. *)
Lemma calls_before_failure_kept (df : DataFrame) (pre post : list string)
  (n m : string) :
  core_columns = pre ++ n :: post ->
  (forall k d, In k pre -> is_ok (lib k d) = true) ->
  (forall d, is_ok (lib n d) = false) ->
  In m pre ->
  has_column (fst (exec_block (indicator_block lib) df)) m = true.
Proof.
  intros Hsplit Hok Hfail Hm.
  rewrite indicator_block_split, Hsplit, map_app, <- app_assoc.
  destruct (exec_assigns lib pre Hok
              (map (assign lib) (n :: post)
               ++ when (fun d => has_column d "tick_volume")
                       (map (assign lib) volume_columns)
                  :: tail_block) df) as (df1 & E & V).
  rewrite E. cbn [map app]. rewrite exec_block_cons.
  unfold assign at 1, atomic.
  pose proof (Hfail df1) as K.
  destruct (lib n df1) as [c|e]; [discriminate K|].
  cbn [bind fst]. destruct V as (_ & _ & A & _). apply A. exact Hm.
Qed.

End Battery.

(** With a CCI that raises, the frame comes back with the trend columns
    and the four momentum columns before the CCI, and nothing after. *)
Example cci_failure_run :
  exists out,
    _calculate_all_indicators failing_cci (frame_of_bars [one_bar]) = Ok out /\
    map fst (columns out)
    = ["open"; "high"; "low"; "close"; "tick_volume"; "spread"; "real_volume"]
      ++ trend_columns ++ ["rsi"; "stoch_k"; "stoch_d"; "williams_r"].
Proof. eexists. split; vm_compute; reflexivity. Qed.

(** A failure inside the volume block keeps the columns assigned before
    it, the first two of the block included. *)
Example obv_failure_run :
  exists out,
    _calculate_all_indicators failing_obv (frame_of_bars [one_bar]) = Ok out /\
    map fst (columns out)
    = ["open"; "high"; "low"; "close"; "tick_volume"; "spread"; "real_volume"]
      ++ core_columns ++ ["volume_sma"; "volume_ratio"].
Proof. eexists. split; vm_compute; reflexivity. Qed.

(** C5, as stated, fails: the whole battery sits in one [try] block, so
    when the CCI computation raises, the Bollinger bands, which come later
    and whose own computation succeeds, are never produced. *)
Lemma cci_failure_stops_later_indicators : ~ indicators_independent.
Proof.
  intros H.
  destruct (H failing_cci (frame_of_bars [one_bar]) "bb_upper")
    as (out & E & C).
  - vm_compute. tauto.
  - repeat split.
  - intros d. reflexivity.
  - vm_compute in E. injection E as <-. vm_compute in C. discriminate C.
Qed.

(** C5, as the engine behaves. [_calculate_all_indicators] never raises
    and leaves the row index as it was. A missing volume column raises
    nothing: the volume block is skipped, and the volume-based columns are
    left as they were. The indicators are not computed independently:
    when the computation of a trend, momentum or volatility column fails,
    nothing after it is run; the frame comes back changed in no column but
    those that come before it, and these are present when their own
    computations succeed. *)
Theorem indicators_total_volume_optional
  (lib : string -> DataFrame -> result series) (df : DataFrame) :
  exists out,
    _calculate_all_indicators lib df = Ok out /\
    index out = index df /\
    (has_column df "tick_volume" = false ->
     forall m, In m volume_columns ->
               find_col (columns out) m = find_col (columns df) m) /\
    (forall pre n post,
       core_columns = pre ++ n :: post ->
       (forall d, is_ok (lib n d) = false) ->
       (forall m, ~ In m pre ->
                  find_col (columns out) m = find_col (columns df) m) /\
       ((forall k d, In k pre -> is_ok (lib k d) = true) ->
        forall m, In m pre -> has_column out m = true)).
Proof.
  exists (fst (exec_block (indicator_block lib) df)).
  split; [apply indicators_result|]. split.
  - apply (exec_block_within _ _ (indicator_block_within lib) df).
  - split.
    + intros Hv m Hm. apply volume_block_skipped; assumption.
    + intros pre n post Hs Hf. split.
      * intros m Hm.
        apply (failing_call_ends_battery lib df pre post n m); assumption.
      * intros Hok m Hm.
        apply (calls_before_failure_kept lib df pre post n m); assumption.
Qed.

Lemma indicators_total_volume_optional_witness :
  exists out,
    _calculate_all_indicators failing_cci no_volume_frame = Ok out /\
    index out = index no_volume_frame /\
    (forall m, In m volume_columns ->
               find_col (columns out) m
               = find_col (columns no_volume_frame) m) /\
    (forall m, ~ In m (trend_columns
                       ++ ["rsi"; "stoch_k"; "stoch_d"; "williams_r"]) ->
               find_col (columns out) m
               = find_col (columns no_volume_frame) m) /\
    (forall m, In m (trend_columns
                     ++ ["rsi"; "stoch_k"; "stoch_d"; "williams_r"]) ->
               has_column out m = true).
Proof.
  destruct (indicators_total_volume_optional failing_cci no_volume_frame)
    as (out & E & I & V & F).
  exists out. split; [exact E|]. split; [exact I|]. split.
  - apply V. reflexivity.
  - destruct (F (trend_columns ++ ["rsi"; "stoch_k"; "stoch_d"; "williams_r"])
                "cci" volatility_columns) as [F1 F2].
    + reflexivity.
    + intros d. reflexivity.
    + split; [exact F1|]. apply F2. intros k d Hk. unfold failing_cci.
      destruct (String.eqb_spec k "cci") as [->|_]; [|reflexivity].
      exfalso. vm_compute in Hk. intuition discriminate.
Defined.

(** *** Windows below the minimum size *)

Section ShortWindow.

Variable lib : string -> DataFrame -> result series.
Variables technical price patterns time_of key_levels : DataFrame -> result pyval.
Variable signals_of : pyval -> pyval -> pyval -> pyval -> result pyval.
Variable score_of : pyval -> pyval -> pyval -> result (pyval * pyval).
Variable risk_of : DataFrame -> pyval -> result pyval.
Variables summary_of recommendation_of : pyval -> pyval -> pyval -> result pyval.

Lemma analyze_symbol_short (now : string) (df : DataFrame)
  (symbol timeframe : string) :
  empty df = true \/ (len df < 100)%nat ->
  analyze_symbol lib technical price patterns time_of key_levels signals_of
    score_of risk_of summary_of recommendation_of now df symbol timeframe
  = Ok (_get_empty_analysis now symbol timeframe).
Proof.
  intros H. unfold analyze_symbol.
  assert (G : empty df || Nat.ltb (len df) 100 = true).
  { apply orb_true_iff. destruct H as [H | H]; [left; exact H|].
    right. apply Nat.ltb_lt. exact H. }
  rewrite G. reflexivity.
Qed.

End ShortWindow.

(** C1. On a window that is empty or shorter than 100 bars,
    [analyze_symbol] returns, without raising, the record built by
    [_get_empty_analysis]: primary signal HOLD with confidence 0, overall
    score 0, risk level VERY_HIGH with risk score 10, current price 0, an
    empty pattern list and the recommended action WAIT. *)
Theorem short_window_gives_empty_analysis
  (lib : string -> DataFrame -> result series)
  (technical price patterns time_of key_levels : DataFrame -> result pyval)
  (signals_of : pyval -> pyval -> pyval -> pyval -> result pyval)
  (score_of : pyval -> pyval -> pyval -> result (pyval * pyval))
  (risk_of : DataFrame -> pyval -> result pyval)
  (summary_of recommendation_of : pyval -> pyval -> pyval -> result pyval)
  (now : string) (df : DataFrame) (symbol timeframe : string) :
  empty df = true \/ (len df < 100)%nat ->
  let sentinel := _get_empty_analysis now symbol timeframe in
  analyze_symbol lib technical price patterns time_of key_levels signals_of
    score_of risk_of summary_of recommendation_of now df symbol timeframe
  = Ok sentinel /\
  path sentinel ["signals"; "primary"] = Some (PStr "HOLD") /\
  path sentinel ["signals"; "confidence"] = Some (PNum 0) /\
  path sentinel ["confidence"] = Some (PNum 0) /\
  path sentinel ["score"] = Some (PNum 0) /\
  path sentinel ["risk"; "level"] = Some (PStr "VERY_HIGH") /\
  path sentinel ["risk"; "score"] = Some (PNum 10) /\
  path sentinel ["current_price"] = Some (PNum 0) /\
  path sentinel ["patterns"; "patterns"] = Some (PList []) /\
  path sentinel ["recommendation"; "action"] = Some (PStr "WAIT").
Proof.
  intros H. cbv zeta. split.
  - apply analyze_symbol_short. exact H.
  - repeat split; reflexivity.
Qed.

Lemma short_window_gives_empty_analysis_witness :
  analyze_symbol idle_lib idle1 idle1 idle1 idle1 idle1
    (fun _ _ _ _ => Ok (PDict [])) (fun _ _ _ => Ok (PNum 50, PNum 50))
    (fun _ _ => Ok (PDict [])) (fun _ _ _ => Ok (PStr ""))
    (fun _ _ _ => Ok (PDict []))
    "2024-01-01T02:00" (frame_of_bars [one_bar; flat_bar]) "EURUSD" "H1"
  = Ok (_get_empty_analysis "2024-01-01T02:00" "EURUSD" "H1").
Proof.
  apply (short_window_gives_empty_analysis idle_lib idle1 idle1 idle1 idle1
           idle1 (fun _ _ _ _ => Ok (PDict []))
           (fun _ _ _ => Ok (PNum 50, PNum 50))
           (fun _ _ => Ok (PDict [])) (fun _ _ _ => Ok (PStr ""))
           (fun _ _ _ => Ok (PDict []))
           "2024-01-01T02:00" (frame_of_bars [one_bar; flat_bar])
           "EURUSD" "H1").
  right. unfold len. simpl. lia.
Defined.

(** *** Entry price of a buy *)

(** C8 at a last close of 1.0 with the single support level 1.1: the
    comprehension [[s for s in support_levels if s < current_price]] is
    empty, [max] raises, and both [_calculate_buy_points] and
    [_calculate_entry_exit_points] fall into their handlers: the bundle is
    [{}] and carries no entry. With no support level at all the same signal
    gets the entry [current_price * 0.998]. *)
Theorem buy_entry_lost_when_supports_not_below :
  _calculate_buy_points 1.0 (PList [PNum 1.1]) (PList []) (PDict []) price_one
  = PDict [] /\
  _calculate_entry_exit_points price_one buy_signal support_above_price
  = PDict [] /\
  path (_calculate_entry_exit_points price_one buy_signal support_above_price)
       ["entry"] = None /\
  exists entry,
    path (_calculate_entry_exit_points price_one buy_signal no_levels)
         ["entry"] = Some (PNum entry) /\
    entry == 1.0 * 0.998.
Proof.
  split; [reflexivity|]. split; [reflexivity|]. split; [reflexivity|].
  eexists. split; [vm_compute; reflexivity | reflexivity].
Qed.

(** *** The seven sub-scores and their combination *)

Lemma Qltb_false_iff (a b : Q) : Qltb a b = false <-> b <= a.
Proof.
  unfold Qltb. split.
  - intros H. destruct (Qcompare a b) eqn:E; try discriminate.
    + assert (a == b) by (apply Qcompare_Eq_iff; exact E). lra.
    + assert (b < a) by (apply Qcompare_Gt_iff; exact E). lra.
  - intros H. destruct (Qcompare a b) eqn:E; try reflexivity.
    assert (a < b) by (apply Qcompare_Lt_iff; exact E). lra.
Qed.

Lemma max2_cases (a b : Q) :
  (max2 a b = b /\ a < b) \/ (max2 a b = a /\ b <= a).
Proof.
  unfold max2, Qgtb. destruct (Qltb a b) eqn:E.
  - left. split; [reflexivity | apply Qltb_true_iff; exact E].
  - right. split; [reflexivity | apply Qltb_false_iff; exact E].
Qed.

Lemma min2_cases (a b : Q) :
  (min2 a b = b /\ b < a) \/ (min2 a b = a /\ a <= b).
Proof.
  unfold min2. destruct (Qltb b a) eqn:E.
  - left. split; [reflexivity | apply Qltb_true_iff; exact E].
  - right. split; [reflexivity | apply Qltb_false_iff; exact E].
Qed.

Lemma clamp_range (s : Q) : 1 <= clamp s /\ clamp s <= 10.
Proof.
  unfold clamp.
  destruct (min2_cases 10 s) as [[E1 H1] | [E1 H1]]; rewrite E1;
    [destruct (max2_cases 1 s) as [[E2 H2] | [E2 H2]]
    |destruct (max2_cases 1 10) as [[E2 H2] | [E2 H2]]];
    rewrite E2; lra.
Qed.

Lemma round1_range (y : Q) :
  1 <= y -> y <= 10 -> 1 <= py_round y 1 /\ py_round y 1 <= 10.
Proof.
  intros H1 H2.
  destruct (py_round_bounds 10 100 y 1) as [A1 A2].
  - setoid_replace (inject_Z 10 / inject_Z (10 ^ Z.of_nat 1)) with 1
      by reflexivity.
    exact H1.
  - setoid_replace (inject_Z 100 / inject_Z (10 ^ Z.of_nat 1)) with 10
      by reflexivity.
    exact H2.
  - split.
    + setoid_replace 1 with (inject_Z 10 / inject_Z (10 ^ Z.of_nat 1))
        by reflexivity.
      exact A1.
    + setoid_replace 10 with (inject_Z 100 / inject_Z (10 ^ Z.of_nat 1))
        by reflexivity.
      exact A2.
Qed.

Lemma assessment_wf (a : acc) (extras : list (string * pyval)) :
  well_formed (assessment a extras).
Proof.
  unfold assessment. do 4 eexists. split; [reflexivity|].
  destruct (clamp_range (score a)) as [L U].
  apply round1_range; assumption.
Qed.

Lemma error_wf : well_formed error_assessment.
Proof.
  unfold error_assessment. exists 5.0, ["خطا در تحلیل"], [], [].
  split; [reflexivity | lra].
Qed.

Lemma literal_wf (s : Q) (f w : list string) (rest : list (string * pyval)) :
  1 <= s -> s <= 10 ->
  well_formed (PDict (("score", PNum s) :: ("factors", strs f)
                      :: ("warnings", strs w) :: rest)).
Proof. intros L U. exists s, f, w, rest. auto. Qed.

Ltac wf_step :=
  match goal with
  | |- well_formed (assessment _ _) => apply assessment_wf
  | |- well_formed error_assessment => apply error_wf
  | |- well_formed (PDict _) => apply literal_wf; cbn; lra
  | |- well_formed (run (Ok _)) => cbn [run]
  | |- well_formed (run (Raise _)) => cbn [run]
  | |- well_formed (run (bind ?c _)) => destruct c; cbn [bind]
  | |- well_formed (run (if ?c then _ else _)) => destruct c
  | |- well_formed (run (let (_, _) := ?p in _)) => destruct p
  | |- well_formed (run (match ?l with [] => _ | _ :: _ => _ end)) =>
      destruct l
  end.

Ltac wf_walk := repeat wf_step.

Section Scorers.
Variable repr : pyval -> string.
Variable np_mean : list pyval -> result pyval.
Variable analysis : pyval.

Lemma technical_wf : well_formed (_assess_technical_risk repr analysis).
Proof. unfold _assess_technical_risk. wf_walk. Qed.

Lemma price_wf : well_formed (_assess_price_risk analysis).
Proof. unfold _assess_price_risk. wf_walk. Qed.

Lemma pattern_wf : well_formed (_assess_pattern_risk analysis).
Proof. unfold _assess_pattern_risk. wf_walk. Qed.

Lemma level_wf : well_formed (_assess_level_risk np_mean analysis).
Proof. unfold _assess_level_risk. wf_walk. Qed.

Lemma rr_wf : well_formed (_assess_risk_reward analysis).
Proof. unfold _assess_risk_reward. wf_walk. Qed.

Lemma volume_wf : well_formed (_assess_volume_risk analysis).
Proof. unfold _assess_volume_risk. wf_walk. Qed.

Lemma volatility_wf : well_formed (_assess_volatility_risk analysis).
Proof. unfold _assess_volatility_risk. wf_walk. Qed.
End Scorers.

Lemma fromkeys_strs (l : list string) (seen : list pyval) :
  exists r, fromkeys seen (map PStr l) = Ok r.
Proof.
  revert seen. induction l as [| x l IH]; intros seen; simpl.
  - eauto.
  - match goal with
    | |- context [if ?c then _ else _] => destruct c
    end; apply IH.
Qed.

Lemma collect_strs (key : string) (parts : list pyval) :
  Forall (fun p => exists l, py_get p key (PList []) = Ok (strs l)) parts ->
  forall acc0, exists l, collect key (map PStr acc0) parts = Ok (map PStr l).
Proof.
  induction 1 as [| p r [l Hp] Hr IH]; intros acc0; simpl.
  - eauto.
  - rewrite Hp. unfold strs. cbn [bind py_iter].
    rewrite <- map_app. apply IH.
Qed.

Lemma wf_get_score (d : pyval) (s : Q) (f w : list string)
  (rest : list (string * pyval)) (dflt : pyval) :
  d = PDict (("score", PNum s) :: ("factors", strs f)
             :: ("warnings", strs w) :: rest) ->
  py_get d "score" dflt = Ok (PNum s) /\
  py_get d "factors" (PList []) = Ok (strs f) /\
  py_get d "warnings" (PList []) = Ok (strs w).
Proof. intros ->. repeat split. Qed.

Section Combine.

Variables p1 p2 p3 p4 p5 p6 p7 : pyval.
Variables s1 s2 s3 s4 s5 s6 s7 : Q.
Variables f1 f2 f3 f4 f5 f6 f7 : list string.
Variables w1 w2 w3 w4 w5 w6 w7 : list string.
Variables r1 r2 r3 r4 r5 r6 r7 : list (string * pyval).

Let shape (s : Q) (f w : list string) (r : list (string * pyval)) : pyval :=
  PDict (("score", PNum s) :: ("factors", strs f) :: ("warnings", strs w) :: r).

Hypothesis E1 : p1 = shape s1 f1 w1 r1.
Hypothesis E2 : p2 = shape s2 f2 w2 r2.
Hypothesis E3 : p3 = shape s3 f3 w3 r3.
Hypothesis E4 : p4 = shape s4 f4 w4 r4.
Hypothesis E5 : p5 = shape s5 f5 w5 r5.
Hypothesis E6 : p6 = shape s6 f6 w6 r6.
Hypothesis E7 : p7 = shape s7 f7 w7 r7.

Lemma combine_shape :
  exists ws fs,
    _combine_risk_scores p1 p2 p3 p4 p5 p6 p7
    = PDict [("score", PNum (py_round (weighted s1 s2 s3 s4 s5 s6 s7) 1));
             ("technical_score", PNum s1);
             ("price_score", PNum s2);
             ("pattern_score", PNum s3);
             ("level_score", PNum s4);
             ("rr_score", PNum s5);
             ("volume_score", PNum s6);
             ("volatility_score", PNum s7);
             ("warnings", PList ws);
             ("factors", PList fs);
             ("weighted_average", PBool true)].
Proof.
  assert (Hw : Forall (fun p => exists l, py_get p "warnings" (PList []) = Ok (strs l))
                 [p1; p2; p3; p4; p5; p6; p7]).
  { subst. unfold shape. repeat constructor; eexists; reflexivity. }
  assert (Hf : Forall (fun p => exists l, py_get p "factors" (PList []) = Ok (strs l))
                 [p1; p2; p3; p4; p5; p6; p7]).
  { subst. unfold shape. repeat constructor; eexists; reflexivity. }
  destruct (collect_strs _ _ Hw []) as [lw Cw].
  destruct (collect_strs _ _ Hf []) as [lf Cf].
  destruct (fromkeys_strs lw []) as [ws Kw].
  destruct (fromkeys_strs lf []) as [fs Kf].
  exists ws, fs.
  unfold _combine_risk_scores.
  change (map PStr []) with (@nil pyval) in Cw, Cf.
  rewrite Cw, Cf.
  rewrite E1, E2, E3, E4, E5, E6, E7. unfold shape.
  cbn [py_get lookup String.eqb Ascii.eqb Bool.eqb bind weighted_sum weights
       py_mul num as_num].
  fold (weighted s1 s2 s3 s4 s5 s6 s7).
  rewrite Kw, Kf. reflexivity.
Qed.

End Combine.

Lemma weighted_range (s1 s2 s3 s4 s5 s6 s7 : Q) :
  Forall (fun s => 1 <= s /\ s <= 10) [s1; s2; s3; s4; s5; s6; s7] ->
  1 <= weighted s1 s2 s3 s4 s5 s6 s7 /\ weighted s1 s2 s3 s4 s5 s6 s7 <= 10.
Proof.
  intros H.
  repeat match goal with
  | H : Forall _ (_ :: _) |- _ => inversion H; clear H; subst
  end.
  unfold weighted. lra.
Qed.

(** C6. For every analysis record, each of the seven sub-assessments
    carries a score between 1 and 10, and the combined record carries
    under [score] the weighted sum of the seven, with the weights 0.20,
    0.15, 0.10, 0.15, 0.20, 0.10, 0.10, rounded to one decimal: a number
    of tenths that lies within 0.05 of the weighted sum, and between 1 and
    10. Which of the two neighbours a sum halfway between two tenths goes
    to is left open: the code rounds the sum of floats, which for such a
    sum can lie on either side of the halfway point. *)
Theorem combined_score_weighted_and_bounded
  (repr : pyval -> string) (np_mean : list pyval -> result pyval)
  (analysis : pyval) :
  exists s1 s2 s3 s4 s5 s6 s7 score,
    path (_assess_technical_risk repr analysis) ["score"] = Some (PNum s1) /\
    path (_assess_price_risk analysis) ["score"] = Some (PNum s2) /\
    path (_assess_pattern_risk analysis) ["score"] = Some (PNum s3) /\
    path (_assess_level_risk np_mean analysis) ["score"] = Some (PNum s4) /\
    path (_assess_risk_reward analysis) ["score"] = Some (PNum s5) /\
    path (_assess_volume_risk analysis) ["score"] = Some (PNum s6) /\
    path (_assess_volatility_risk analysis) ["score"] = Some (PNum s7) /\
    Forall (fun s => 1 <= s /\ s <= 10) [s1; s2; s3; s4; s5; s6; s7] /\
    path (_combine_risk_scores
            (_assess_technical_risk repr analysis)
            (_assess_price_risk analysis)
            (_assess_pattern_risk analysis)
            (_assess_level_risk np_mean analysis)
            (_assess_risk_reward analysis)
            (_assess_volume_risk analysis)
            (_assess_volatility_risk analysis)) ["score"]
    = Some (PNum score) /\
    (exists tenths : Z, score = inject_Z tenths / 10) /\
    Qabs (score - weighted s1 s2 s3 s4 s5 s6 s7) <= 0.05 /\
    1 <= score /\ score <= 10.
Proof.
  destruct (technical_wf repr analysis) as (s1 & f1 & w1 & r1 & E1 & L1 & U1).
  destruct (price_wf analysis) as (s2 & f2 & w2 & r2 & E2 & L2 & U2).
  destruct (pattern_wf analysis) as (s3 & f3 & w3 & r3 & E3 & L3 & U3).
  destruct (level_wf np_mean analysis) as (s4 & f4 & w4 & r4 & E4 & L4 & U4).
  destruct (rr_wf analysis) as (s5 & f5 & w5 & r5 & E5 & L5 & U5).
  destruct (volume_wf analysis) as (s6 & f6 & w6 & r6 & E6 & L6 & U6).
  destruct (volatility_wf analysis) as (s7 & f7 & w7 & r7 & E7 & L7 & U7).
  destruct (combine_shape _ _ _ _ _ _ _ _ _ _ _ _ _ _ _ _ _ _ _ _ _ _ _ _ _ _
              _ _ _ _ _ _ _ _ _ E1 E2 E3 E4 E5 E6 E7) as (ws & fs & C).
  assert (B : Forall (fun s => 1 <= s /\ s <= 10) [s1; s2; s3; s4; s5; s6; s7])
    by (repeat constructor; assumption).
  exists s1, s2, s3, s4, s5, s6, s7,
         (py_round (weighted s1 s2 s3 s4 s5 s6 s7) 1).
  rewrite C, E1, E2, E3, E4, E5, E6, E7.
  repeat (split; [reflexivity|]).
  split; [exact B|]. split; [reflexivity|].
  split; [eexists; unfold py_round; reflexivity|].
  split; [apply py_round_near1|].
  destruct (weighted_range _ _ _ _ _ _ _ B) as [L U].
  apply round1_range; assumption.
Qed.

(** *** The history of assessments *)

Lemma position_size_ok (overall_risk analysis : pyval)
  (c : list (string * pyval)) :
  exists p, _calculate_position_size overall_risk analysis (PDict c) = Ok p.
Proof.
  unfold _calculate_position_size, catch.
  match goal with
  | |- exists p, match ?b with Ok a => _ | Raise _ => _ end = _ => destruct b
  end; cbn [py_get]; eauto.
Qed.

Lemma risk_level_ok (x : Q) : exists l, _get_risk_level (PNum x) = Ok l.
Proof.
  unfold _get_risk_level, py_le. cbn [py_cmp bind].
  repeat match goal with
  | |- context [Qcompare x ?c] => destruct (Qcompare x c); cbn [bind]
  end; eauto.
Qed.

Lemma recommendation_ok (x : Q) (signal : pyval) :
  exists r, _get_recommendation (PNum x) signal = Ok r.
Proof.
  unfold _get_recommendation.
  destruct (is_str signal "NO_TRADE"); [eauto|].
  destruct (risk_level_ok x) as [l E]. rewrite E. cbn [bind py_get]. eauto.
Qed.

Lemma restrictions_ok (x : Q) :
  exists r, _get_trade_restrictions (PNum x) = Ok r.
Proof.
  unfold _get_trade_restrictions, py_le, py_ge. cbn [py_cmp bind].
  repeat match goal with
  | |- context [Qcompare x ?c] => destruct (Qcompare x c); cbn [bind]
  end; eauto.
Qed.

Section History.

Variable repr : pyval -> string.
Variable np_mean : list pyval -> result pyval.

Lemma overall_shape (analysis : pyval) :
  exists x rest,
    _combine_risk_scores
      (_assess_technical_risk repr analysis) (_assess_price_risk analysis)
      (_assess_pattern_risk analysis) (_assess_level_risk np_mean analysis)
      (_assess_risk_reward analysis) (_assess_volume_risk analysis)
      (_assess_volatility_risk analysis)
    = PDict (("score", PNum x) :: rest).
Proof.
  destruct (technical_wf repr analysis) as (s1 & f1 & w1 & r1 & E1 & _).
  destruct (price_wf analysis) as (s2 & f2 & w2 & r2 & E2 & _).
  destruct (pattern_wf analysis) as (s3 & f3 & w3 & r3 & E3 & _).
  destruct (level_wf np_mean analysis) as (s4 & f4 & w4 & r4 & E4 & _).
  destruct (rr_wf analysis) as (s5 & f5 & w5 & r5 & E5 & _).
  destruct (volume_wf analysis) as (s6 & f6 & w6 & r6 & E6 & _).
  destruct (volatility_wf analysis) as (s7 & f7 & w7 & r7 & E7 & _).
  destruct (combine_shape _ _ _ _ _ _ _ _ _ _ _ _ _ _ _ _ _ _ _ _ _ _ _ _ _ _
              _ _ _ _ _ _ _ _ _ E1 E2 E3 E4 E5 E6 E7) as (ws & fs & C).
  rewrite C. eauto.
Qed.

(** With a dictionary for the analysis and one for the configuration, no
    step of the assessment raises. *)
Lemma assessment_of_dicts (now : string) (a c : list (string * pyval)) :
  exists body x rest,
    assessment_of repr np_mean now (PDict a) (PDict c) = Ok (PDict body) /\
    lookup body "overall_risk" = Some (PDict (("score", PNum x) :: rest)).
Proof.
  unfold assessment_of. cbn [py_get bind].
  destruct (overall_shape (PDict a)) as (x & rest & E). rewrite E.
  destruct (_generate_trade_signal _ _ _) as [trade_signal confidence].
  destruct (position_size_ok (PDict (("score", PNum x) :: rest)) (PDict a) c)
    as [p Ep].
  rewrite Ep. cbn [bind py_item lookup String.eqb Ascii.eqb Bool.eqb].
  destruct (risk_level_ok x) as [l El]. rewrite El. cbn [bind].
  destruct (recommendation_ok x trade_signal) as [r Er]. rewrite Er.
  cbn [bind py_get].
  destruct (restrictions_ok x) as [t Et]. rewrite Et. cbn [bind].
  do 3 eexists. split; reflexivity.
Qed.

End History.

Section History2.

Variable repr : pyval -> string.
Variable np_mean : list pyval -> result pyval.

(** Whenever the steps complete, the record holds the combined
    assessment with a numeric score, so the log line can be formatted. *)
Lemma assessment_of_result (now : string) (analysis risk_config result : pyval) :
  assessment_of repr np_mean now analysis risk_config = Ok result ->
  exists body x rest,
    result = PDict body /\
    lookup body "overall_risk" = Some (PDict (("score", PNum x) :: rest)).
Proof.
  unfold assessment_of.
  destruct (overall_shape repr np_mean analysis) as (x & rest & E). rewrite E.
  destruct (_generate_trade_signal _ _ _) as [trade_signal confidence].
  intros H.
  repeat match type of H with
  | bind ?c _ = Ok _ => destruct c; cbn [bind] in H; [|discriminate H]
  end.
  injection H as <-. do 3 eexists. split; reflexivity.
Qed.

Lemma fst_assess_trade_risk (now : string) (self : state)
  (analysis risk_config : pyval) :
  assess_trade_risk repr np_mean now self analysis risk_config
  = match assessment_of repr np_mean now analysis risk_config with
    | Ok result => (result, remember self result)
    | Raise _ => (_get_empty_assessment now, self)
    end.
Proof.
  unfold assess_trade_risk.
  destruct (assessment_of repr np_mean now analysis risk_config) as [r | e] eqn:E;
    [|reflexivity].
  destruct (assessment_of_result _ _ _ _ E) as (body & x & rest & -> & L).
  cbn [py_item bind]. rewrite L. reflexivity.
Qed.

Lemma assess_state (now : string) (self : state)
  (analysis risk_config : pyval) :
  let out := assess_trade_risk repr np_mean now self analysis risk_config in
  violations (snd out) = violations self /\
  trade_journal (snd out) = trade_journal self /\
  default_limits (snd out) = default_limits self /\
  (risk_history (snd out) = risk_history self \/
   risk_history (snd out) = risk_history self ++ [fst out]).
Proof.
  cbv zeta. rewrite fst_assess_trade_risk.
  destruct (assessment_of repr np_mean now analysis risk_config); simpl; auto.
Qed.

Lemma assess_dicts_state (now : string) (self : state)
  (a c : list (string * pyval)) :
  let out := assess_trade_risk repr np_mean now self (PDict a) (PDict c) in
  risk_history (snd out) = risk_history self ++ [fst out].
Proof.
  cbv zeta. rewrite fst_assess_trade_risk.
  destruct (assessment_of_dicts repr np_mean now a c) as (body & x & rest & E & _).
  rewrite E. reflexivity.
Qed.

End History2.

(** C4, as the risk manager behaves. An assessment never touches
    [violations], [trade_journal] or [default_limits]; it leaves
    [risk_history] as it was or appends the returned record to it, and
    with a dictionary for the analysis and one for the configuration it
    always appends the returned record. *)
Theorem assessment_only_extends_history
  (repr : pyval -> string) (np_mean : list pyval -> result pyval)
  (now : string) (self : state) :
  (forall analysis risk_config,
     let out := assess_trade_risk repr np_mean now self analysis risk_config in
     violations (snd out) = violations self /\
     trade_journal (snd out) = trade_journal self /\
     default_limits (snd out) = default_limits self /\
     (risk_history (snd out) = risk_history self \/
      risk_history (snd out) = risk_history self ++ [fst out])) /\
  (forall a c,
     let out := assess_trade_risk repr np_mean now self (PDict a) (PDict c) in
     risk_history (snd out) = risk_history self ++ [fst out]).
Proof.
  split.
  - intros analysis risk_config. apply assess_state.
  - intros a c. apply assess_dicts_state.
Qed.

(** C4, as stated, fails: after an analysis and an assessment of its
    result, a fresh risk manager is no longer in its initial state. *)
Lemma assessment_changes_risk_manager :
  match analyze_symbol idle_lib idle1 idle1 idle1 idle1 idle1
          (fun _ _ _ _ => Ok (PDict [])) (fun _ _ _ => Ok (PNum 50, PNum 50))
          (fun _ _ => Ok (PDict [])) (fun _ _ _ => Ok (PStr ""))
          (fun _ _ _ => Ok (PDict []))
          "2024-01-01T02:00" (frame_of_bars [one_bar; flat_bar]) "EURUSD" "H1"
  with
  | Ok analysis =>
      snd (assess_trade_risk plain_repr mean_of_numbers "2024-01-01T02:01"
             __init__ analysis sample_config) <> __init__
  | Raise _ => False
  end.
Proof.
  vm_compute. intros H. discriminate H.
Qed.


(** *** Repeated runs *)

Lemma lookup_dict_remove (d : list (string * pyval)) (t k : string) :
  k <> t -> lookup (dict_remove d t) k = lookup d k.
Proof.
  intros Hk. induction d as [| [k' v] r IH]; simpl; [reflexivity|].
  destruct (String.eqb_spec k' t) as [-> | Hkt]; simpl.
  - destruct (String.eqb_spec t k) as [E | _]; [congruence | exact IH].
  - rewrite IH. reflexivity.
Qed.

Lemma py_get_drop_timestamp (a a' : pyval) (k : string) (dflt : pyval) :
  drop_timestamp a = drop_timestamp a' ->
  k <> "timestamp" ->
  py_get a k dflt = py_get a' k dflt.
Proof.
  intros H Hk.
  destruct a, a'; simpl in H; try discriminate H; try reflexivity.
  injection H as H. unfold py_get.
  rewrite <- (lookup_dict_remove d "timestamp" k Hk),
          <- (lookup_dict_remove d0 "timestamp" k Hk), H.
  reflexivity.
Qed.

Section SameAnalysis.

Variable repr : pyval -> string.
Variable np_mean : list pyval -> result pyval.
Variables a a' : pyval.
Hypothesis Hsame : drop_timestamp a = drop_timestamp a'.

Ltac same_reads :=
  repeat match goal with
  | |- context [py_get a ?k ?d] =>
      rewrite (py_get_drop_timestamp a a' k d Hsame) by discriminate
  end; reflexivity.

Lemma technical_same :
  _assess_technical_risk repr a = _assess_technical_risk repr a'.
Proof. unfold _assess_technical_risk. same_reads. Qed.

Lemma price_same : _assess_price_risk a = _assess_price_risk a'.
Proof. unfold _assess_price_risk. same_reads. Qed.

Lemma pattern_same : _assess_pattern_risk a = _assess_pattern_risk a'.
Proof. unfold _assess_pattern_risk. same_reads. Qed.

Lemma level_same :
  _assess_level_risk np_mean a = _assess_level_risk np_mean a'.
Proof. unfold _assess_level_risk. same_reads. Qed.

Lemma rr_same : _assess_risk_reward a = _assess_risk_reward a'.
Proof. unfold _assess_risk_reward. same_reads. Qed.

Lemma volume_same : _assess_volume_risk a = _assess_volume_risk a'.
Proof. unfold _assess_volume_risk. same_reads. Qed.

Lemma volatility_same : _assess_volatility_risk a = _assess_volatility_risk a'.
Proof. unfold _assess_volatility_risk, _calculate_historical_volatility. same_reads. Qed.

Lemma trade_signal_same (overall_risk risk_config : pyval) :
  _generate_trade_signal overall_risk a risk_config
  = _generate_trade_signal overall_risk a' risk_config.
Proof. unfold _generate_trade_signal. same_reads. Qed.

Lemma assessment_of_same (now : string) (risk_config : pyval) :
  assessment_of repr np_mean now a risk_config
  = assessment_of repr np_mean now a' risk_config.
Proof.
  unfold assessment_of.
  rewrite technical_same, price_same, pattern_same, level_same, rr_same,
          volume_same, volatility_same.
  rewrite (py_get_drop_timestamp a a' "symbol" _ Hsame) by discriminate.
  rewrite trade_signal_same.
  reflexivity.
Qed.

End SameAnalysis.

Section Clock.

Variable repr : pyval -> string.
Variable np_mean : list pyval -> result pyval.

Lemma assessment_of_clock (now now' : string) (analysis risk_config : pyval) :
  match assessment_of repr np_mean now analysis risk_config,
        assessment_of repr np_mean now' analysis risk_config with
  | Ok r, Ok r' => drop_timestamp r = drop_timestamp r'
  | Raise _, Raise _ => True
  | _, _ => False
  end.
Proof.
  unfold assessment_of.
  destruct (_generate_trade_signal _ _ _) as [trade_signal confidence].
  repeat match goal with
  | |- match bind ?c _ with _ => _ end =>
      destruct c; cbn [bind]; [|exact I]
  end.
  reflexivity.
Qed.

Lemma assess_trade_risk_clock (now now' : string) (self self' : state)
  (a a' risk_config : pyval) :
  drop_timestamp a = drop_timestamp a' ->
  drop_timestamp (fst (assess_trade_risk repr np_mean now self a risk_config))
  = drop_timestamp
      (fst (assess_trade_risk repr np_mean now' self' a' risk_config)).
Proof.
  intros H. rewrite !fst_assess_trade_risk.
  rewrite (assessment_of_same repr np_mean a a' H now risk_config).
  pose proof (assessment_of_clock now now' a' risk_config) as C.
  destruct (assessment_of repr np_mean now a' risk_config),
           (assessment_of repr np_mean now' a' risk_config);
    simpl; try contradiction; [exact C | reflexivity].
Qed.

End Clock.

Section PipelineClock.

Variable lib : string -> DataFrame -> result series.
Variables technical price patterns time_of key_levels : DataFrame -> result pyval.
Variable signals_of : pyval -> pyval -> pyval -> pyval -> result pyval.
Variable score_of : pyval -> pyval -> pyval -> result (pyval * pyval).
Variable risk_of : DataFrame -> pyval -> result pyval.
Variables summary_of recommendation_of : pyval -> pyval -> pyval -> result pyval.

Lemma analyze_symbol_clock (now now' : string) (df : DataFrame)
  (symbol timeframe : string) :
  exists r r',
    analyze_symbol lib technical price patterns time_of key_levels signals_of
      score_of risk_of summary_of recommendation_of now df symbol timeframe
    = Ok r /\
    analyze_symbol lib technical price patterns time_of key_levels signals_of
      score_of risk_of summary_of recommendation_of now' df symbol timeframe
    = Ok r' /\
    drop_timestamp r = drop_timestamp r'.
Proof.
  unfold analyze_symbol.
  destruct (empty df || Nat.ltb (len df) 100).
  - do 2 eexists. cbn [catch]. repeat split.
  - repeat match goal with
    | |- context [catch (bind ?c _) _] =>
        destruct c; cbn [bind catch];
        [| do 2 eexists; repeat split ]
    | |- context [let (_, _) := ?p in _] => destruct p
    end.
    do 2 eexists. repeat split.
Qed.

End PipelineClock.

(** C3. Two runs of [analyze_symbol] on the same window, symbol and
    timeframe return records that agree in every field but [timestamp],
    and so do two runs of [assess_trade_risk] on those two records under
    the same configuration, whatever the clock readings and whatever the
    risk manager has in its history. *)
Theorem analysis_and_assessment_repeatable
  (lib : string -> DataFrame -> result series)
  (technical price patterns time_of key_levels : DataFrame -> result pyval)
  (signals_of : pyval -> pyval -> pyval -> pyval -> result pyval)
  (score_of : pyval -> pyval -> pyval -> result (pyval * pyval))
  (risk_of : DataFrame -> pyval -> result pyval)
  (summary_of recommendation_of : pyval -> pyval -> pyval -> result pyval)
  (repr : pyval -> string) (np_mean : list pyval -> result pyval)
  (df : DataFrame) (symbol timeframe : string) (risk_config : pyval)
  (now1 now2 now3 now4 : string) (self1 self2 : state) :
  exists a1 a2,
    analyze_symbol lib technical price patterns time_of key_levels signals_of
      score_of risk_of summary_of recommendation_of now1 df symbol timeframe
    = Ok a1 /\
    analyze_symbol lib technical price patterns time_of key_levels signals_of
      score_of risk_of summary_of recommendation_of now2 df symbol timeframe
    = Ok a2 /\
    drop_timestamp a1 = drop_timestamp a2 /\
    drop_timestamp
      (fst (assess_trade_risk repr np_mean now3 self1 a1 risk_config))
    = drop_timestamp
        (fst (assess_trade_risk repr np_mean now4 self2 a2 risk_config)).
Proof.
  destruct (analyze_symbol_clock lib technical price patterns time_of
              key_levels signals_of score_of risk_of summary_of
              recommendation_of now1 now2 df symbol timeframe)
    as (a1 & a2 & E1 & E2 & D).
  exists a1, a2. repeat (split; [assumption|]).
  apply assess_trade_risk_clock. exact D.
Qed.

(** The two records do differ where the clock is written. *)
Example timestamps_differ :
  path (_get_empty_analysis "2024-01-01T02:00" "EURUSD" "H1") ["timestamp"]
  <> path (_get_empty_analysis "2024-01-01T02:01" "EURUSD" "H1") ["timestamp"].
Proof. simpl. intros H. discriminate H. Qed.

(* ===================================================================== *)
(** ** Properties of the stages and the monitors                       *)
(* ===================================================================== *)

(** X1. On a frame whose last bar has a range of at least one point
    (0.00001), prices between 0 and a million and a close between its low
    and its high, [_calculate_pivot_points] answers the seven levels in
    strict order, [s3 < s2 < s1 < pivot < r1 < r2 < r3], and the pivot
    lies strictly between the low and the high of that bar. Neighbouring
    levels are at least a third of the range apart, which the rounding of
    floats cannot bridge; on a bar without a range it can, and the order
    is lost. *)
Theorem pivot_levels_ordered (df : DataFrame) (h l c : Q) :
  (1 <= len df)%nat ->
  cell df 1 "high" = Ok h -> cell df 1 "low" = Ok l ->
  cell df 1 "close" = Ok c ->
  0 < l -> h <= 1000000 -> 0.00001 <= h - l ->
  l <= c -> c <= h ->
  exists p r1 r2 r3 s1 s2 s3,
    _calculate_pivot_points df =
      PDict [("pivot", PNum p); ("r1", PNum r1); ("r2", PNum r2);
             ("r3", PNum r3); ("s1", PNum s1); ("s2", PNum s2);
             ("s3", PNum s3)] /\
    s3 < s2 /\ s2 < s1 /\ s1 < p /\ p < r1 /\ r1 < r2 /\ r2 < r3 /\
    l < p /\ p < h.
Proof.
  intros Hlen Hh Hl Hc Hpos Hmax Hrange Hlc Hch.
  unfold _calculate_pivot_points, row.
  destruct (Nat.ltb_spec (len df) 1) as [?|_]; [lia|].
  assert (E : (1 <=? len df)%nat = true) by (apply Nat.leb_le; lia).
  rewrite E. cbn [andb Nat.leb bind]. rewrite Hh, Hl, Hc. cbn [bind].
  do 7 eexists. split; [reflexivity|].
  assert (Hp : l < (h + l + c) / 3 /\ (h + l + c) / 3 < h).
  { split.
    - apply Qlt_shift_div_l; lra.
    - apply Qlt_shift_div_r; lra. }
  destruct Hp as [Hp1 Hp2].
  set (p := (h + l + c) / 3) in *.
  repeat split; lra.
Qed.

Lemma pivot_levels_ordered_witness :
  exists p r1 r2 r3 s1 s2 s3,
    _calculate_pivot_points (frame_of_bars [one_bar]) =
      PDict [("pivot", PNum p); ("r1", PNum r1); ("r2", PNum r2);
             ("r3", PNum r3); ("s1", PNum s1); ("s2", PNum s2);
             ("s3", PNum s3)] /\
    s3 < s2 /\ s2 < s1 /\ s1 < p /\ p < r1 /\ r1 < r2 /\ r2 < r3 /\
    1.09 < p /\ p < 1.12.
Proof.
  apply (pivot_levels_ordered (frame_of_bars [one_bar]) 1.12 1.09 1.11);
    try reflexivity; try (simpl; lia);
    try (unfold Qlt; simpl; lia); unfold Qle; simpl; lia.
Defined.

(** *** Extremes of a series *)





Lemma series_max_some (s : series) : s <> [] -> exists m, series_max s = Some m.
Proof. destruct s; [congruence|]. intros _. eexists. reflexivity. Qed.

Lemma series_min_some (s : series) : s <> [] -> exists m, series_min s = Some m.
Proof. destruct s; [congruence|]. intros _. eexists. reflexivity. Qed.



Lemma skipn_Forall {A : Type} (P : A -> Prop) (k : nat) (l : list A) :
  Forall P l -> Forall P (skipn k l).
Proof.
  intros H. rewrite <- (firstn_skipn k l) in H.
  apply Forall_app in H. apply H.
Qed.



(** *** Nearest level *)

Lemma min_by_spec (key : Q -> Q) (l : list Q) (best : Q) :
  In (min_by key best l) (best :: l) /\
  Forall (fun x => key (min_by key best l) <= key x) (best :: l).
Proof.
  revert best. induction l as [|x r IH]; intros best; cbn [min_by].
  - split; [left; reflexivity | constructor; [lra | constructor]].
  - destruct (Qltb (key x) (key best)) eqn:E.
    + apply Qltb_true_iff in E. destruct (IH x) as [Hin Hall]. split.
      * right. exact Hin.
      * inversion Hall as [|? ? H1 H2]; subst.
        constructor; [lra|]. constructor; assumption.
    + apply Qltb_false_iff in E. destruct (IH best) as [Hin Hall]. split.
      * destruct Hin as [<-|Hin]; [left; reflexivity | right; right; exact Hin].
      * inversion Hall as [|? ? H1 H2]; subst.
        constructor; [lra|]. constructor; [lra | assumption].
Qed.

Lemma max_by_spec (key : Q -> Q) (l : list Q) (best : Q) :
  In (max_by key best l) (best :: l) /\
  Forall (fun x => key x <= key (max_by key best l)) (best :: l).
Proof.
  revert best. induction l as [|x r IH]; intros best; cbn [max_by].
  - split; [left; reflexivity | constructor; [lra | constructor]].
  - unfold Qgtb. destruct (Qltb (key best) (key x)) eqn:E.
    + apply Qltb_true_iff in E. destruct (IH x) as [Hin Hall]. split.
      * right. exact Hin.
      * inversion Hall as [|? ? H1 H2]; subst.
        constructor; [lra|]. constructor; assumption.
    + apply Qltb_false_iff in E. destruct (IH best) as [Hin Hall]. split.
      * destruct Hin as [<-|Hin]; [left; reflexivity | right; right; exact Hin].
      * inversion Hall as [|? ? H1 H2]; subst.
        constructor; [lra|]. constructor; [lra | assumption].
Qed.

Lemma Qabs_diff_above (x p : Q) : p < x -> Qabs (x - p) == x - p.
Proof. intros H. apply Qabs_pos. lra. Qed.

Lemma Qabs_diff_below (x p : Q) : x < p -> Qabs (x - p) == p - x.
Proof. intros H. rewrite Qabs_neg; lra. Qed.

(** X3. With [above], [_find_nearest_level] answers the empty dictionary
    exactly when no level lies strictly above the price; otherwise the
    level it reports is the least of the levels above the price, and the
    distance is their difference. *)
Theorem nearest_level_above_is_least (price : Q) (levels : list Q)
  (below : bool) :
  (_find_nearest_level price levels true below = PDict [] /\
   Forall (fun l => l <= price) levels)
  \/
  exists lv d dp c,
    _find_nearest_level price levels true below =
      PDict [("level", PNum lv); ("distance", PNum d);
             ("distance_percent", PNum dp); ("is_close", PBool c)] /\
    In lv levels /\ price < lv /\
    Forall (fun l => price < l -> lv <= l) levels /\
    d == lv - price.
Proof.
  unfold _find_nearest_level.
  destruct levels as [|first rest]; [left; split; [reflexivity | constructor]|].
  set (levels := first :: rest).
  destruct (filter (fun l => Qgtb l price) levels) as [|e elig] eqn:F.
  - left. split; [reflexivity|].
    apply Forall_forall. intros l Hin.
    destruct (Qlt_le_dec price l) as [H|H]; [|exact H].
    assert (Hf : In l (filter (fun l => Qgtb l price) levels)).
    { apply filter_In. split; [exact Hin|]. apply Qltb_true_iff. exact H. }
    rewrite F in Hf. destruct Hf.
  - right.
    destruct (min_by_spec (fun x => Qabs (x - price)) elig e) as [Hin Hall].
    set (lv := min_by (fun x => Qabs (x - price)) e elig) in *.
    rewrite <- F in Hin, Hall.
    apply filter_In in Hin. destruct Hin as [Hin Hgt].
    apply Qltb_true_iff in Hgt.
    do 4 eexists. split; [reflexivity|].
    split; [exact Hin|]. split; [exact Hgt|]. split.
    + apply Forall_forall. intros l Hl Hpl.
      rewrite Forall_forall in Hall.
      assert (Hf : In l (filter (fun l => Qgtb l price) levels)).
      { apply filter_In. split; [exact Hl|]. apply Qltb_true_iff. exact Hpl. }
      specialize (Hall l Hf). cbv beta in Hall.
      rewrite (Qabs_diff_above lv price Hgt) in Hall.
      rewrite (Qabs_diff_above l price Hpl) in Hall. lra.
    + apply Qabs_diff_above. exact Hgt.
Qed.

(** X4. With [below] and without [above], the level that
    [_find_nearest_level] reports is the lowest of the levels strictly
    under the price, that is the one farthest from it, not the nearest;
    the answer is empty exactly when no level lies under the price. *)
Theorem nearest_level_below_is_lowest (price : Q) (levels : list Q) :
  (_find_nearest_level price levels false true = PDict [] /\
   Forall (fun l => price <= l) levels)
  \/
  exists lv d dp c,
    _find_nearest_level price levels false true =
      PDict [("level", PNum lv); ("distance", PNum d);
             ("distance_percent", PNum dp); ("is_close", PBool c)] /\
    In lv levels /\ lv < price /\
    Forall (fun l => l < price -> lv <= l) levels /\
    d == price - lv.
Proof.
  unfold _find_nearest_level.
  destruct levels as [|first rest]; [left; split; [reflexivity | constructor]|].
  set (levels := first :: rest).
  destruct (filter (fun l => Qltb l price) levels) as [|e elig] eqn:F.
  - left. split; [reflexivity|].
    apply Forall_forall. intros l Hin.
    destruct (Qlt_le_dec l price) as [H|H]; [|exact H].
    assert (Hf : In l (filter (fun l => Qltb l price) levels)).
    { apply filter_In. split; [exact Hin|]. apply Qltb_true_iff. exact H. }
    rewrite F in Hf. destruct Hf.
  - right.
    destruct (max_by_spec (fun x => Qabs (x - price)) elig e) as [Hin Hall].
    set (lv := max_by (fun x => Qabs (x - price)) e elig) in *.
    rewrite <- F in Hin, Hall.
    apply filter_In in Hin. destruct Hin as [Hin Hlt].
    apply Qltb_true_iff in Hlt.
    do 4 eexists. split; [reflexivity|].
    split; [exact Hin|]. split; [exact Hlt|]. split.
    + apply Forall_forall. intros l Hl Hpl.
      rewrite Forall_forall in Hall.
      assert (Hf : In l (filter (fun l => Qltb l price) levels)).
      { apply filter_In. split; [exact Hl|]. apply Qltb_true_iff. exact Hpl. }
      specialize (Hall l Hf). cbv beta in Hall.
      rewrite (Qabs_diff_below lv price Hlt) in Hall.
      rewrite (Qabs_diff_below l price Hpl) in Hall. lra.
    + apply Qabs_diff_below. exact Hlt.
Qed.

Lemma py_round_near4 (x : Q) : Qabs (py_round x 4 - x) <= 0.00005.
Proof.
  unfold py_round. change (inject_Z (10 ^ Z.of_nat 4)) with 10000.
  pose proof (round_half_even_near (x * 10000)) as H.
  apply Qabs_Qle_condition in H. destruct H as [H1 H2].
  set (r := inject_Z (round_half_even (x * 10000))) in *.
  apply Qabs_Qle_condition. split.
  - apply Qle_minus_iff.
    assert (E : r / 10000 - x + - - 0.00005 == (r - x * 10000 + (1#2)) / 10000) by field.
    rewrite E. apply Qle_shift_div_l; lra.
  - apply Qle_minus_iff.
    assert (E : 0.00005 + - (r / 10000 - x) == ((1#2) - (r - x * 10000)) / 10000) by field.
    rewrite E. apply Qle_shift_div_l; lra.
Qed.

(** *** Touches of the levels found *)

Lemma occurrences_app (k : Q) (l1 l2 : list Q) :
  occurrences k (l1 ++ l2) = (occurrences k l1 + occurrences k l2)%nat.
Proof. unfold occurrences. rewrite filter_app, length_app. reflexivity. Qed.

Section CounterInvariant.

Variable G : Q -> Prop.

Lemma count_one_counted (c : list (Q * nat)) (seen : list Q) (x : Q) :
  G x -> Forall (counted G seen) c ->
  Forall (counted G (seen ++ [x])) (count_one c x).
Proof.
  intros Gx Hc. induction Hc as [|[k n] r [Hk Gk] Hr IH]; cbn [count_one].
  - constructor; [|constructor]. split; [|exact Gx].
    cbn [fst snd]. rewrite occurrences_app. unfold occurrences at 2.
    cbn [filter]. rewrite Qeq_bool_refl. cbn. lia.
  - cbn [fst snd] in *. destruct (Qeq_bool k x) eqn:E.
    + constructor.
      * split; [|exact Gk]. cbn [fst snd]. rewrite occurrences_app.
        unfold occurrences at 2. cbn [filter]. rewrite E. cbn. lia.
      * eapply Forall_impl; [|exact Hr]. intros [k' n'] [H1 H2].
        split; [|exact H2]. cbn [fst snd] in *. rewrite occurrences_app. lia.
    + constructor; [|exact IH].
      split; [|exact Gk]. cbn [fst snd]. rewrite occurrences_app. lia.
Qed.

Lemma fold_count_one_counted (l : list Q) :
  Forall G l -> forall c seen,
  Forall (counted G seen) c ->
  Forall (counted G (seen ++ l)) (fold_left count_one l c).
Proof.
  induction 1 as [|x r Gx Hr IH]; intros c seen Hc; cbn [fold_left].
  - rewrite app_nil_r. exact Hc.
  - replace (seen ++ x :: r) with ((seen ++ [x]) ++ r)
      by (rewrite <- app_assoc; reflexivity).
    apply IH. apply count_one_counted; assumption.
Qed.

Lemma Counter_counted (l : list Q) :
  Forall G l -> Forall (counted G l) (Counter l).
Proof.
  intros H. unfold Counter.
  apply (fold_count_one_counted l H [] []). constructor.
Qed.

End CounterInvariant.

Lemma insert_by_count_Forall (P : Q * nat -> Prop) (x : Q * nat)
  (l : list (Q * nat)) :
  P x -> Forall P l -> Forall P (insert_by_count x l).
Proof.
  intros Hx Hl. induction Hl as [|y r Hy Hr IH]; cbn [insert_by_count].
  - constructor; [exact Hx | constructor].
  - destruct (Nat.ltb (snd x) (snd y)); constructor; auto.
Qed.

Lemma most_common_Forall (P : Q * nat -> Prop) (n : nat) (c : list (Q * nat)) :
  Forall P c -> Forall P (most_common n c).
Proof.
  intros H. unfold most_common.
  assert (K : Forall P (fold_right insert_by_count [] c)).
  { induction H; cbn [fold_right]; [constructor|].
    apply insert_by_count_Forall; assumption. }
  rewrite <- (firstn_skipn n) in K. apply Forall_app in K. apply K.
Qed.

Lemma sorted_Forall (P : Q -> Prop) (l : list Q) :
  Forall P l -> Forall P (sorted l).
Proof.
  induction 1; cbn [sorted fold_right]; [constructor|].
  apply insert_sorted_Forall; assumption.
Qed.

(** Every level found occurs at least three times among the rounded prices
    of the window, and keeps whatever holds of all of them. *)
Lemma find_levels_frequent (G : Q -> Prop) (column : string) (df : DataFrame)
  (lookback : nat) (c : series) :
  col df column = Ok c ->
  let n := if Nat.ltb (len df) lookback then len df else lookback in
  let rounded := map (fun x => py_round x 4) (tail_values c n) in
  Forall G rounded ->
  Forall (fun k => (3 <= occurrences k rounded)%nat /\ G k)
         (find_levels column df lookback).
Proof.
  intros Hc n rounded HG. unfold find_levels. rewrite Hc. cbn [bind].
  fold n. fold rounded.
  apply firstn_Forall, keep_spaced_Forall, sorted_Forall.
  pose proof (most_common_Forall _ 10 _ (Counter_counted G rounded HG)) as H.
  induction H as [|[k m] r [H1 H2] Hr IH]; cbn [filter map]; [constructor|].
  cbn [fst snd] in *. destruct (Nat.leb_spec 3 m); [|exact IH].
  constructor; [|exact IH]. cbn [fst]. split; [lia | exact H2].
Qed.

Lemma touch_loop_counts (df : DataFrame) (level tolerance : Q)
  (level_type column : string) (values : series) :
  column = (if String.eqb level_type "support" then "low" else "high") ->
  col df column = Ok values ->
  forall rest pre touches,
  values = pre ++ rest ->
  touch_loop df level level_type (level * tolerance)
    (seq (List.length pre) (List.length rest)) touches
  = Ok (touches
        + List.length (filter (touches_level level tolerance) rest))%nat.
Proof.
  intros Hcol Hc.
  induction rest as [|x rest IH]; intros pre touches E.
  - cbn. f_equal. lia.
  - cbn [List.length seq touch_loop].
    assert (Hx : iloc values (List.length pre) = Ok x).
    { unfold iloc. rewrite E, nth_error_app2 by lia.
      rewrite Nat.sub_diag. reflexivity. }
    assert (Hhit :
      (if String.eqb level_type "support"
       then lows <- col df "low" ;; x0 <- iloc lows (List.length pre) ;;
            Ok (Qleb (Qabs (x0 - level)) (level * tolerance))
       else highs <- col df "high" ;; x0 <- iloc highs (List.length pre) ;;
            Ok (Qleb (Qabs (x0 - level)) (level * tolerance)))
      = Ok (touches_level level tolerance x)).
    { destruct (String.eqb level_type "support"); subst column;
        rewrite Hc; cbn [bind]; rewrite Hx; reflexivity. }
    rewrite Hhit. cbn [bind].
    specialize (IH (pre ++ [x])
                   (if touches_level level tolerance x then S touches
                    else touches)).
    rewrite length_app in IH. cbn [List.length] in IH.
    replace (List.length pre + 1)%nat with (S (List.length pre)) in IH by lia.
    rewrite IH by (rewrite <- app_assoc; exact E).
    cbn [filter]. destruct (touches_level level tolerance x); cbn [List.length];
      f_equal; lia.
Qed.

Lemma count_touches_counts (df : DataFrame) (level tolerance : Q)
  (level_type column : string) (values : series) :
  column = (if String.eqb level_type "support" then "low" else "high") ->
  col df column = Ok values ->
  len df = List.length values ->
  _count_touches df level level_type tolerance
  = List.length (filter (touches_level level tolerance) values).
Proof.
  intros Hcol Hc Hlen. unfold _count_touches. rewrite Hlen.
  pose proof (touch_loop_counts df level tolerance level_type column values
                Hcol Hc values [] 0%nat eq_refl) as H.
  cbn [List.length] in H. rewrite H. reflexivity.
Qed.

Lemma filter_length_skipn {A : Type} (f : A -> bool) (k : nat) (l : list A) :
  (List.length (filter f (skipn k l)) <= List.length (filter f l))%nat.
Proof.
  rewrite <- (firstn_skipn k l) at 2. rewrite filter_app, length_app. lia.
Qed.

Lemma filter_length_tail (f : Q -> bool) (n : nat) (s : series) :
  (List.length (filter f (tail_values s n)) <= List.length (filter f s))%nat.
Proof.
  unfold tail_values. destruct n; [lia|]. apply filter_length_skipn.
Qed.

Lemma filter_length_map_le (p q : Q -> bool) (r : Q -> Q) (l : list Q) :
  (forall x, In x l -> p (r x) = true -> q x = true) ->
  (List.length (filter p (map r l)) <= List.length (filter q l))%nat.
Proof.
  induction l as [|x l IH]; intros H; cbn [map filter]; [lia|].
  assert (IH' := IH (fun y Hy => H y (or_intror Hy))).
  pose proof (H x (or_introl eq_refl)) as Hx.
  destruct (p (r x)); destruct (q x); cbn [List.length]; try lia;
    specialize (Hx eq_refl); discriminate.
Qed.

Lemma Qleb_true_le (a b : Q) : Qleb a b = true <-> a <= b.
Proof.
  unfold Qleb. destruct (Qcompare a b) eqn:E.
  - apply (proj1 (Qcompare_Eq_iff _ _)) in E. split; [lra | reflexivity].
  - apply (proj1 (Qcompare_Lt_iff _ _)) in E. split; [lra | reflexivity].
  - apply (proj1 (Qcompare_Gt_iff _ _)) in E. split; [discriminate | lra].
Qed.

Lemma round4_floor (x : Q) : 0.05 <= x -> 0.05 <= py_round x 4.
Proof.
  intros H.
  destruct (py_round_bounds 500 (Qceiling (x * 10000)) x 4) as [A _].
  - setoid_replace (inject_Z 500 / inject_Z (10 ^ Z.of_nat 4)) with 0.05
      by reflexivity.
    exact H.
  - change (inject_Z (10 ^ Z.of_nat 4)) with 10000.
    apply Qle_shift_div_l; [lra|]. apply Qle_ceiling.
  - setoid_replace 0.05 with (inject_Z 500 / inject_Z (10 ^ Z.of_nat 4))
      by reflexivity.
    exact A.
Qed.

Lemma levels_touched (column level_type : string) (df : DataFrame)
  (lookback : nat) (values : series) :
  column = (if String.eqb level_type "support" then "low" else "high") ->
  col df column = Ok values ->
  len df = List.length values ->
  Forall (fun x => 0.05 <= x) values ->
  Forall (fun level =>
            (3 <= _count_touches df level level_type 0.001)%nat)
         (find_levels column df lookback).
Proof.
  intros Hcol Hc Hlen Hpos.
  set (n := if Nat.ltb (len df) lookback then len df else lookback).
  set (window := tail_values values n).
  assert (Hw : Forall (fun x => 0.05 <= x) window).
  { unfold window, tail_values. destruct n; [exact Hpos|].
    apply skipn_Forall. exact Hpos. }
  pose proof (find_levels_frequent (fun k => 0.05 <= k) column df lookback
                values Hc) as H.
  cbv zeta in H. fold n in H. fold window in H.
  assert (HG : Forall (fun k => 0.05 <= k) (map (fun x => py_round x 4) window)).
  { apply Forall_map. eapply Forall_impl; [|exact Hw].
    intros x Hx. apply round4_floor. exact Hx. }
  specialize (H HG).
  eapply Forall_impl; [|exact H].
  intros level [Hocc Hk]. cbv beta in *.
  rewrite (count_touches_counts df level 0.001 level_type column values
             Hcol Hc Hlen).
  eapply Nat.le_trans; [exact Hocc|].
  eapply Nat.le_trans; [|apply (filter_length_tail _ n values)].
  fold window. unfold occurrences.
  apply filter_length_map_le.
  intros x _ Hx. apply Qeq_bool_iff in Hx.
  unfold touches_level. apply Qleb_true_le.
  pose proof (py_round_near4 x) as Hr.
  apply Qabs_Qle_condition in Hr.
  apply Qabs_Qle_condition. rewrite Hx. split; lra.
Qed.

(** X5. On prices of at least 0.05, every level of [_find_support_levels]
    is touched, as [_count_touches] counts with its default tolerance, by
    at least three lows of the frame, and every level of
    [_find_resistance_levels] by at least three highs. *)
Theorem found_levels_touched_three_times (df : DataFrame) (lookback : nat)
  (lows highs : series) :
  col df "low" = Ok lows -> col df "high" = Ok highs ->
  len df = List.length lows -> len df = List.length highs ->
  Forall (fun x => 0.05 <= x) lows -> Forall (fun x => 0.05 <= x) highs ->
  Forall (fun level =>
            (3 <= _count_touches df level "support" 0.001)%nat)
         (_find_support_levels df lookback) /\
  Forall (fun level =>
            (3 <= _count_touches df level "resistance" 0.001)%nat)
         (_find_resistance_levels df lookback).
Proof.
  intros Hl Hh Ll Lh Pl Ph. split.
  - apply (levels_touched "low" "support" df lookback lows);
      [reflexivity | assumption..].
  - apply (levels_touched "high" "resistance" df lookback highs);
      [reflexivity | assumption..].
Qed.

Lemma found_levels_touched_three_times_witness :
  let df := frame_of_bars [one_bar; one_bar; one_bar] in
  _find_support_levels df 100 = [1.0900] /\
  Forall (fun level =>
            (3 <= _count_touches df level "support" 0.001)%nat)
         (_find_support_levels df 100) /\
  Forall (fun level =>
            (3 <= _count_touches df level "resistance" 0.001)%nat)
         (_find_resistance_levels df 100).
Proof.
  split; [vm_compute; reflexivity|].
  apply (found_levels_touched_three_times
           (frame_of_bars [one_bar; one_bar; one_bar]) 100
           [1.09; 1.09; 1.09] [1.12; 1.12; 1.12]);
    try reflexivity;
    repeat constructor; unfold Qle; simpl; lia.
Defined.

(** *** The record of key levels *)

Lemma tail_values_nonempty (s : series) (n : nat) :
  s <> [] -> tail_values s (S n) <> [].
Proof.
  intros Hs E. unfold tail_values in E.
  apply (f_equal (@List.length Q)) in E. rewrite length_skipn in E.
  destruct s; [congruence|]. cbn [List.length] in E. lia.
Qed.

Lemma nonempty_of_length {A : Type} (l : list A) :
  (1 <= List.length l)%nat -> l <> [].
Proof. destruct l; cbn; [lia | discriminate]. Qed.

Lemma fibonacci_defined (df : DataFrame) (lookback : nat)
  (highs lows : series) :
  col df "high" = Ok highs -> col df "low" = Ok lows ->
  len df = List.length highs -> len df = List.length lows ->
  (1 <= len df)%nat -> (1 <= lookback)%nat ->
  exists levels, _calculate_fibonacci_levels df lookback = Some levels.
Proof.
  intros Hh Hl Lh Ll Hn Hk. unfold _calculate_fibonacci_levels.
  rewrite Hh, Hl. cbn [bind]. cbv zeta.
  set (n := if Nat.ltb (len df) lookback then len df else lookback).
  assert (Pn : exists m, n = S m).
  { unfold n. destruct (Nat.ltb (len df) lookback).
    - exists (len df - 1)%nat. lia.
    - exists (lookback - 1)%nat. lia. }
  destruct Pn as [m ->].
  destruct (series_max_some (tail_values highs (S m))) as [hi ->].
  { apply tail_values_nonempty, nonempty_of_length. lia. }
  destruct (series_min_some (tail_values lows (S m))) as [lo ->].
  { apply tail_values_nonempty, nonempty_of_length. lia. }
  destruct (Qeq_bool (hi - lo) 0); eexists; reflexivity.
Qed.

Lemma market_profile_defined (df : DataFrame) (closes : series) :
  col df "close" = Ok closes -> len df = List.length closes ->
  (1 <= len df)%nat ->
  exists profile, _analyze_market_profile df = Some profile.
Proof.
  intros Hc Lc Hn. unfold _analyze_market_profile.
  destruct (Nat.ltb (len df) 20); [eexists; reflexivity|].
  destruct (col df "low"); cbn [bind]; [|eexists; reflexivity].
  destruct (col df "high"); cbn [bind]; [|eexists; reflexivity].
  rewrite Hc. cbn [bind].
  pose proof (tail_values_nonempty closes 19
                ltac:(apply nonempty_of_length; lia)) as Hw.
  unfold series_mean.
  destruct (tail_values closes 20) eqn:E; [congruence|].
  eexists. reflexivity.
Qed.

(** The level a nearest-level record names is one of the levels given, on
    the side that was asked for. *)
Lemma nearest_level_side (price : Q) (levels : list Q) (above below : bool)
  (lv : Q) :
  path (_find_nearest_level price levels above below) ["level"]
  = Some (PNum lv) ->
  In lv levels /\
  (above = true -> price < lv) /\
  (above = false -> below = true -> lv < price).
Proof.
  unfold _find_nearest_level.
  destruct levels as [|first rest]; [discriminate|].
  set (levels := first :: rest).
  destruct above.
  - destruct (filter (fun l => Qgtb l price) levels) as [|e elig] eqn:F;
      [discriminate|].
    unfold nearest_record. cbn [path lookup String.eqb Ascii.eqb Bool.eqb].
    intros H. injection H as <-.
    destruct (min_by_spec (fun x => Qabs (x - price)) elig e) as [Hin _].
    rewrite <- F in Hin. apply filter_In in Hin. destruct Hin as [Hin Hgt].
    apply Qltb_true_iff in Hgt.
    split; [exact Hin|]. split; [intros _; exact Hgt | discriminate].
  - destruct below.
    + destruct (filter (fun l => Qltb l price) levels) as [|e elig] eqn:F;
        [discriminate|].
      unfold nearest_record. cbn [path lookup String.eqb Ascii.eqb Bool.eqb].
      intros H. injection H as <-.
      destruct (max_by_spec (fun x => Qabs (x - price)) elig e) as [Hin _].
      rewrite <- F in Hin. apply filter_In in Hin. destruct Hin as [Hin Hlt].
      apply Qltb_true_iff in Hlt.
      split; [exact Hin|]. split; [discriminate | intros _ _; exact Hlt].
    + unfold nearest_record. cbn [path lookup String.eqb Ascii.eqb Bool.eqb].
      intros H. injection H as <-.
      destruct (min_by_spec (fun x => Qabs (x - price)) rest first) as [Hin _].
      split; [exact Hin|]. split; discriminate.
Qed.

(** X6. On a frame with at least one bar and its high, low and close
    columns, [_identify_key_levels] answers a complete record of nine
    entries, never the empty one of its handler; the nearest support it
    names is one of the support levels and lies below the last close, the
    nearest resistance is one of the resistance levels and lies above
    it. *)
Theorem key_levels_complete (float_str : Q -> string) (df : DataFrame)
  (highs lows closes : series) :
  col df "high" = Ok highs -> col df "low" = Ok lows ->
  col df "close" = Ok closes ->
  len df = List.length highs -> len df = List.length lows ->
  len df = List.length closes ->
  (1 <= len df)%nat ->
  let supports := _find_support_levels df 100 in
  let resistances := _find_resistance_levels df 100 in
  exists price fibonacci profile nearest_support nearest_resistance,
    cell df 1 "close" = Ok price /\
    _identify_key_levels float_str df =
      Some (PDict [
        ("support", PList (map PNum supports));
        ("resistance", PList (map PNum resistances));
        ("pivot_points", _calculate_pivot_points df);
        ("fibonacci", fibonacci);
        ("dynamic", _get_dynamic_levels df);
        ("market_profile", profile);
        ("nearest_support", nearest_support);
        ("nearest_resistance", nearest_resistance);
        ("level_strength",
           _calculate_level_strength float_str df supports resistances)]) /\
    (forall lv, path nearest_support ["level"] = Some (PNum lv) ->
                In lv supports /\ lv < price) /\
    (forall lv, path nearest_resistance ["level"] = Some (PNum lv) ->
                In lv resistances /\ price < lv).
Proof.
  intros Hh Hl Hc Lh Ll Lc Hn supports resistances.
  destruct (fibonacci_defined df 50 highs lows Hh Hl Lh Ll Hn ltac:(lia))
    as [fib Ef].
  destruct (market_profile_defined df closes Hc Lc Hn) as [profile Ep].
  assert (Ecell : cell df 1 "close" = Ok (nth (List.length closes - 1) closes 0)).
  { unfold cell. rewrite Hc. cbn [bind]. apply iloc_back_in_range. lia. }
  exists (nth (List.length closes - 1) closes 0), fib, profile.
  do 2 eexists. split; [exact Ecell|].
  unfold _identify_key_levels. cbv zeta. rewrite Ecell. cbn [bind].
  rewrite Ef, Ep. split; [reflexivity|]. split.
  - intros lv H. apply nearest_level_side in H.
    destruct H as [Hin [_ Hb]]. split; [exact Hin | apply Hb; reflexivity].
  - intros lv H. apply nearest_level_side in H.
    destruct H as [Hin [Ha _]]. split; [exact Hin | apply Ha; reflexivity].
Qed.

Lemma key_levels_complete_witness :
  let df := frame_of_bars [one_bar; one_bar; one_bar] in
  let float_str := fun _ : Q => "" in
  let supports := _find_support_levels df 100 in
  let resistances := _find_resistance_levels df 100 in
  exists price fibonacci profile nearest_support nearest_resistance,
    cell df 1 "close" = Ok price /\
    _identify_key_levels float_str df =
      Some (PDict [
        ("support", PList (map PNum supports));
        ("resistance", PList (map PNum resistances));
        ("pivot_points", _calculate_pivot_points df);
        ("fibonacci", fibonacci);
        ("dynamic", _get_dynamic_levels df);
        ("market_profile", profile);
        ("nearest_support", nearest_support);
        ("nearest_resistance", nearest_resistance);
        ("level_strength",
           _calculate_level_strength float_str df supports resistances)]) /\
    (forall lv, path nearest_support ["level"] = Some (PNum lv) ->
                In lv supports /\ lv < price) /\
    (forall lv, path nearest_resistance ["level"] = Some (PNum lv) ->
                In lv resistances /\ price < lv).
Proof.
  apply (key_levels_complete (fun _ : Q => "")
           (frame_of_bars [one_bar; one_bar; one_bar])
           [1.12; 1.12; 1.12] [1.09; 1.09; 1.09] [1.11; 1.11; 1.11]);
    try reflexivity.
  vm_compute. lia.
Defined.

(** *** Peaks and valleys *)

Lemma fold_max2_spec (r : list Q) (x : Q) :
  In (fold_left max2 r x) (x :: r) /\
  Forall (fun y => y <= fold_left max2 r x) (x :: r).
Proof.
  revert x. induction r as [|y r IH]; intros x; cbn [fold_left].
  - split; [left; reflexivity | constructor; [lra | constructor]].
  - destruct (IH (max2 x y)) as [Hin Hall].
    inversion Hall as [|? ? H1 H2]; subst.
    destruct (max2_cases x y) as [[E Hxy]|[E Hxy]]; rewrite E in *.
    + split.
      * destruct Hin as [<-|Hin]; [right; left; reflexivity | right; right; exact Hin].
      * constructor; [lra|]. constructor; assumption.
    + split.
      * destruct Hin as [<-|Hin]; [left; reflexivity | right; right; exact Hin].
      * constructor; [exact H1|]. constructor; [lra | exact H2].
Qed.

Lemma fold_min2_spec (r : list Q) (x : Q) :
  In (fold_left min2 r x) (x :: r) /\
  Forall (fun y => fold_left min2 r x <= y) (x :: r).
Proof.
  revert x. induction r as [|y r IH]; intros x; cbn [fold_left].
  - split; [left; reflexivity | constructor; [lra | constructor]].
  - destruct (IH (min2 x y)) as [Hin Hall].
    inversion Hall as [|? ? H1 H2]; subst.
    destruct (min2_cases x y) as [[E Hxy]|[E Hxy]]; rewrite E in *.
    + split.
      * destruct Hin as [<-|Hin]; [right; left; reflexivity | right; right; exact Hin].
      * constructor; [lra|]. constructor; assumption.
    + split.
      * destruct Hin as [<-|Hin]; [left; reflexivity | right; right; exact Hin].
      * constructor; [exact H1|]. constructor; [lra | exact H2].
Qed.

Lemma slice_length (s : series) (a b : nat) :
  (b <= List.length s)%nat -> List.length (slice s a b) = (b - a)%nat.
Proof.
  intros H. unfold slice. rewrite length_firstn, length_skipn. lia.
Qed.

Lemma slice_Forall (P : Q -> Prop) (s : series) (a b : nat) :
  (b <= List.length s)%nat ->
  (Forall P (slice s a b) <->
   forall j, (a <= j < b)%nat -> P (nth j s 0)).
Proof.
  intros Hb. rewrite Forall_nth. rewrite slice_length by exact Hb. split.
  - intros H j Hj. specialize (H (j - a)%nat 0).
    unfold slice in H. rewrite nth_firstn, nth_skipn in H.
    destruct (Nat.ltb_spec (j - a) (b - a)); [|lia].
    replace (a + (j - a))%nat with j in H by lia. apply H. lia.
  - intros H i d Hi. unfold slice. rewrite nth_firstn, nth_skipn.
    destruct (Nat.ltb_spec i (b - a)); [|lia].
    rewrite (nth_indep s d 0) by lia. apply H. lia.
Qed.

Lemma slice_In (s : series) (a b i : nat) :
  (a <= i < b)%nat -> (b <= List.length s)%nat -> In (nth i s 0) (slice s a b).
Proof.
  intros Hi Hb.
  replace (nth i s 0) with (nth (i - a) (slice s a b) 0).
  - apply nth_In. rewrite slice_length by exact Hb. lia.
  - unfold slice. rewrite nth_firstn, nth_skipn.
    destruct (Nat.ltb_spec (i - a) (b - a)); [|lia]. f_equal. lia.
Qed.

Lemma iloc_nth (s : series) (i : nat) :
  (i < List.length s)%nat -> iloc s i = Ok (nth i s 0).
Proof.
  intros H. unfold iloc.
  rewrite (nth_error_nth' s 0 H). reflexivity.
Qed.

Lemma peak_test (data : series) (k i : nat) :
  (i + k < List.length data)%nat ->
  exists m, builtin_max (slice data (i - k) (i + k + 1)) = Ok m /\
            (Qeq_bool (nth i data 0) m = true <-> is_peak data k i).
Proof.
  intros Hi.
  assert (Hb : (i + k + 1 <= List.length data)%nat) by lia.
  pose proof (slice_In data (i - k) (i + k + 1) i ltac:(lia) Hb) as Hin.
  destruct (slice data (i - k) (i + k + 1)) as [|x r] eqn:E; [destruct Hin|].
  cbn [builtin_max]. eexists. split; [reflexivity|].
  destruct (fold_max2_spec r x) as [Hm Hall].
  set (m := fold_left max2 r x) in *.
  rewrite <- E in Hm, Hall, Hin.
  rewrite slice_Forall in Hall by exact Hb.
  rewrite Qeq_bool_iff. unfold is_peak. split.
  - intros Heq j Hj. rewrite Heq. apply Hall. lia.
  - intros Hp. apply Qle_antisym.
    + assert (K : Forall (fun y => y <= m) (slice data (i - k) (i + k + 1))).
      { apply slice_Forall; [exact Hb | exact Hall]. }
      rewrite Forall_forall in K. apply K. exact Hin.
    + assert (K : Forall (fun y => y <= nth i data 0)
                    (slice data (i - k) (i + k + 1))).
      { apply slice_Forall; [exact Hb|]. intros j Hj. apply Hp. lia. }
      rewrite Forall_forall in K. apply K. exact Hm.
Qed.

Lemma valley_test (data : series) (k i : nat) :
  (i + k < List.length data)%nat ->
  exists m, builtin_min (slice data (i - k) (i + k + 1)) = Ok m /\
            (Qeq_bool (nth i data 0) m = true <-> is_valley data k i).
Proof.
  intros Hi.
  assert (Hb : (i + k + 1 <= List.length data)%nat) by lia.
  pose proof (slice_In data (i - k) (i + k + 1) i ltac:(lia) Hb) as Hin.
  destruct (slice data (i - k) (i + k + 1)) as [|x r] eqn:E; [destruct Hin|].
  cbn [builtin_min]. eexists. split; [reflexivity|].
  destruct (fold_min2_spec r x) as [Hm Hall].
  set (m := fold_left min2 r x) in *.
  rewrite <- E in Hm, Hall, Hin.
  rewrite slice_Forall in Hall by exact Hb.
  rewrite Qeq_bool_iff. unfold is_valley. split.
  - intros Heq j Hj. rewrite Heq. apply Hall. lia.
  - intros Hp. apply Qle_antisym.
    + assert (K : Forall (fun y => nth i data 0 <= y)
                    (slice data (i - k) (i + k + 1))).
      { apply slice_Forall; [exact Hb|]. intros j Hj. apply Hp. lia. }
      rewrite Forall_forall in K. apply K. exact Hm.
    + assert (K : Forall (fun y => m <= y) (slice data (i - k) (i + k + 1))).
      { apply slice_Forall; [exact Hb | exact Hall]. }
      rewrite Forall_forall in K. apply K. exact Hin.
Qed.

Lemma extremes_collect (pick : series -> result Q) (data : series) (k : nat) :
  (forall i, (i + k < List.length data)%nat ->
     exists m, pick (slice data (i - k) (i + k + 1)) = Ok m) ->
  forall range found,
  Forall (fun i => (i + k < List.length data)%nat) range ->
  extremes pick data k range found
  = Ok (found ++ filter (passes pick data k) range).
Proof.
  intros Hpick. induction range as [|i r IH]; intros found Hr.
  - cbn. rewrite app_nil_r. reflexivity.
  - inversion Hr as [|? ? Hi Hr']; subst.
    destruct (Hpick i Hi) as [m Em].
    cbn [extremes filter]. rewrite iloc_nth by lia. cbn [bind].
    unfold passes at 1. rewrite Em. cbn [bind].
    rewrite IH by exact Hr'.
    destruct (Qeq_bool (nth i data 0) m); [|reflexivity].
    rewrite <- app_assoc. reflexivity.
Qed.

Lemma seq_filter_sorted (f : nat -> bool) (a n : nat) :
  StronglySorted lt (filter f (seq a n)).
Proof.
  revert a. induction n as [|n IH]; intros a; cbn [seq filter].
  - constructor.
  - destruct (f a); [|apply IH].
    constructor; [apply IH|].
    apply Forall_forall. intros x Hx. apply filter_In in Hx.
    destruct Hx as [Hx _]. apply in_seq in Hx. lia.
Qed.

(** X7. [_find_peaks] and [_find_valleys] never fail; they answer, in
    ascending order, exactly the positions that have [lookaround]
    neighbours on both sides and whose value is not exceeded (for a
    valley: not undercut) by any value within [lookaround] positions. *)
Theorem peaks_and_valleys_are_window_extremes (data : series) (k : nat) :
  exists peaks valleys,
    _find_peaks data k = Ok peaks /\
    _find_valleys data k = Ok valleys /\
    StronglySorted lt peaks /\ StronglySorted lt valleys /\
    forall i,
      (In i peaks <->
       (k <= i /\ i + k < List.length data)%nat /\
       forall j, (i - k <= j <= i + k)%nat -> nth j data 0 <= nth i data 0) /\
      (In i valleys <->
       (k <= i /\ i + k < List.length data)%nat /\
       forall j, (i - k <= j <= i + k)%nat -> nth i data 0 <= nth j data 0).
Proof.
  set (range := seq k (List.length data - k - k)).
  assert (Hr : Forall (fun i => (i + k < List.length data)%nat) range).
  { apply Forall_forall. intros i Hi. apply in_seq in Hi. lia. }
  assert (Hrange : forall i, In i range <->
                             (k <= i /\ i + k < List.length data)%nat).
  { intros i. unfold range. rewrite in_seq. lia. }
  exists (filter (passes builtin_max data k) range),
         (filter (passes builtin_min data k) range).
  split; [|split; [|split; [|split]]].
  - unfold _find_peaks. fold range.
    rewrite (extremes_collect builtin_max data k); [reflexivity | | exact Hr].
    intros i Hi. destruct (peak_test data k i Hi) as [m [E _]]. eauto.
  - unfold _find_valleys. fold range.
    rewrite (extremes_collect builtin_min data k); [reflexivity | | exact Hr].
    intros i Hi. destruct (valley_test data k i Hi) as [m [E _]]. eauto.
  - apply seq_filter_sorted.
  - apply seq_filter_sorted.
  - intros i. rewrite !filter_In, !Hrange. split.
    + split.
      * intros [Hi Hp]. split; [exact Hi|].
        destruct (peak_test data k i (proj2 Hi)) as [m [E Hm]].
        unfold passes in Hp. rewrite E in Hp. apply Hm. exact Hp.
      * intros [Hi Hp]. split; [exact Hi|].
        destruct (peak_test data k i (proj2 Hi)) as [m [E Hm]].
        unfold passes. rewrite E. apply Hm. exact Hp.
    + split.
      * intros [Hi Hp]. split; [exact Hi|].
        destruct (valley_test data k i (proj2 Hi)) as [m [E Hm]].
        unfold passes in Hp. rewrite E in Hp. apply Hm. exact Hp.
      * intros [Hi Hp]. split; [exact Hi|].
        destruct (valley_test data k i (proj2 Hi)) as [m [E Hm]].
        unfold passes. rewrite E. apply Hm. exact Hp.
Qed.

(** *** Trend *)

Lemma all_aligned_up (p : Q) (l : list Q) :
  all_aligned Qgtb p l = true ->
  StronglySorted (fun a b => b < a) l /\
  forall a b r, l = a :: b :: r -> a < p.
Proof.
  induction l as [|a r IH]; intros H.
  - split; [constructor | intros; discriminate].
  - cbn [all_aligned] in H. destruct r as [|b r'].
    + split; [constructor; constructor | intros; discriminate].
    + apply andb_prop in H. destruct H as [H H3].
      apply andb_prop in H. destruct H as [H1 H2].
      apply Qltb_true_iff in H1. apply Qltb_true_iff in H2.
      destruct (IH H3) as [Hs _]. split.
      * constructor; [exact Hs|].
        apply StronglySorted_inv in Hs. destruct Hs as [_ Hb].
        constructor; [exact H2|].
        eapply Forall_impl; [|exact Hb]. cbv beta. intros x Hx. lra.
      * intros a0 b0 r0 E. injection E as <- _ _. exact H1.
Qed.

Lemma all_aligned_down (p : Q) (l : list Q) :
  all_aligned Qltb p l = true ->
  StronglySorted (fun a b => a < b) l /\
  forall a b r, l = a :: b :: r -> p < a.
Proof.
  induction l as [|a r IH]; intros H.
  - split; [constructor | intros; discriminate].
  - cbn [all_aligned] in H. destruct r as [|b r'].
    + split; [constructor; constructor | intros; discriminate].
    + apply andb_prop in H. destruct H as [H H3].
      apply andb_prop in H. destruct H as [H1 H2].
      apply Qltb_true_iff in H1. apply Qltb_true_iff in H2.
      destruct (IH H3) as [Hs _]. split.
      * constructor; [exact Hs|].
        apply StronglySorted_inv in Hs. destruct Hs as [_ Hb].
        constructor; [exact H2|].
        eapply Forall_impl; [|exact Hb]. cbv beta. intros x Hx. lra.
      * intros a0 b0 r0 E. injection E as <- _ _. exact H1.
Qed.

Lemma read_emas_periods (df : DataFrame) (periods : list nat) :
  forall emas, read_emas df periods = Ok emas ->
  forall P : nat -> Prop, Forall P periods -> Forall P (map fst emas).
Proof.
  induction periods as [|p r IH]; intros emas H P HP; cbn [read_emas] in H.
  - injection H as <-. constructor.
  - inversion HP as [|? ? Hp Hr]; subst.
    destruct (has_column df ("ema_" ++ nat_str p)).
    + destruct (cell df 1 ("ema_" ++ nat_str p)) as [x|]; [|discriminate].
      cbn [bind] in H.
      destruct (read_emas df r) as [rest|] eqn:E; [|discriminate].
      cbn [bind] in H. injection H as <-. cbn [map fst].
      constructor; [exact Hp | apply (IH rest eq_refl P Hr)].
    + apply (IH emas H P Hr).
Qed.

Lemma read_emas_sorted (df : DataFrame) (periods : list nat) :
  StronglySorted lt periods ->
  forall emas, read_emas df periods = Ok emas ->
  StronglySorted lt (map fst emas).
Proof.
  induction 1 as [|p r Hs IH Hp]; intros emas H; cbn [read_emas] in H.
  - injection H as <-. constructor.
  - destruct (has_column df ("ema_" ++ nat_str p)).
    + destruct (cell df 1 ("ema_" ++ nat_str p)) as [x|]; [|discriminate].
      cbn [bind] in H.
      destruct (read_emas df r) as [rest|] eqn:E; [|discriminate].
      cbn [bind] in H. injection H as <-. cbn [map fst].
      constructor; [apply IH; reflexivity|].
      apply (read_emas_periods df r rest E). exact Hp.
    + apply IH. exact H.
Qed.

Lemma sorted_pairs {A B : Type} (R1 : A -> A -> Prop) (R2 : B -> B -> Prop)
  (l : list (A * B)) :
  StronglySorted R1 (map fst l) -> StronglySorted R2 (map snd l) ->
  StronglySorted (fun a b => R1 (fst a) (fst b) /\ R2 (snd a) (snd b)) l.
Proof.
  induction l as [|x l IH]; cbn [map]; intros H1 H2; [constructor|].
  apply StronglySorted_inv in H1. destruct H1 as [H1 F1].
  apply StronglySorted_inv in H2. destruct H2 as [H2 F2].
  constructor; [apply IH; assumption|].
  rewrite Forall_map in F1, F2.
  rewrite Forall_forall in *. intros y Hy. split; auto.
Qed.

Lemma sorted_head_bound (R : Q -> Q -> Prop) (p : Q) (l : list Q)
  (P : Q -> Prop) :
  (forall a b, R a b -> P a -> P b) ->
  StronglySorted R l ->
  (forall a r, l = a :: r -> P a) ->
  Forall P l.
Proof.
  intros Htr Hs Hh. destruct l as [|a r]; [constructor|].
  pose proof (Hh a r eq_refl) as Pa.
  constructor; [exact Pa|].
  apply StronglySorted_inv in Hs. destruct Hs as [_ F].
  eapply Forall_impl; [|exact F]. intros b Hb. eapply Htr; eassumption.
Qed.

(** One step along the body of a method: the computation at the head of
    the body either raises, which leaves the handler's answer, or goes
    on. *)
Ltac walk_head :=
  match goal with
  | |- context [match bind ?c _ with Ok _ => _ | Raise _ => _ end] =>
      let E := fresh "E" in destruct c eqn:E; cbn [bind]
  | |- context [match (if ?c then _ else _) with Ok _ => _ | Raise _ => _ end] =>
      let E := fresh "E" in destruct c eqn:E
  end.

(** X8. [_analyze_trend] reports STRONG_BULLISH only when at least three
    moving averages are present, the last close lies above every one of
    them, and the averages fall strictly as their period grows; and
    STRONG_BEARISH only in the mirrored situation. *)
Theorem strong_trend_is_full_alignment (df : DataFrame) (up : bool) :
  path (_analyze_trend df) ["direction"]
  = Some (PStr (if up then "STRONG_BULLISH" else "STRONG_BEARISH")) ->
  exists price emas,
    cell df 1 "close" = Ok price /\
    path (_analyze_trend df) ["ema_alignment"]
    = Some (PDict (map (fun kv => (nat_str (fst kv), PNum (snd kv))) emas)) /\
    (3 <= List.length emas)%nat /\
    Forall (fun kv => if up then snd kv < price else price < snd kv) emas /\
    StronglySorted
      (fun a b => (fst a < fst b)%nat /\
                  if up then snd b < snd a else snd a < snd b) emas.
Proof.
  unfold _analyze_trend.
  destruct (cell df 1 "close") as [price|] eqn:Ec;
    [|destruct up; discriminate].
  cbn [bind].
  destruct (read_emas df [9; 20; 50; 100; 200]%nat) as [emas|] eqn:Ee;
    [|destruct up; discriminate].
  cbn [bind].
  assert (Hkeys : StronglySorted lt (map fst emas)).
  { apply (read_emas_sorted df [9; 20; 50; 100; 200]%nat); [|exact Ee].
    repeat (constructor; [|repeat constructor; lia]). constructor. }
  set (choice :=
    if Nat.leb 3 (List.length emas) then
      if all_aligned Qgtb price (map snd emas) then ("STRONG_BULLISH", 95)
      else if all_aligned Qltb price (map snd emas)
      then ("STRONG_BEARISH", 95)
      else if Qgtb price (ema_get emas 20)
              && Qgtb (ema_get emas 20) (ema_get emas 50)
      then ("BULLISH", 70)
      else if Qltb price (ema_get emas 20)
              && Qltb (ema_get emas 20) (ema_get emas 50)
      then ("BEARISH", 70)
      else ("NEUTRAL", 0)
    else ("NEUTRAL", 0)) in *.
  destruct choice as [trend_direction trend_strength] eqn:Ech.
  repeat walk_head; try (destruct up; discriminate).
  cbn [path lookup String.eqb Ascii.eqb Bool.eqb].
  intros H. injection H as Hdir.
  exists price, emas. split; [reflexivity|].
  split; [reflexivity|].
  unfold choice in Ech.
  destruct (Nat.leb_spec 3 (List.length emas)) as [Hlen|Hlen];
    [|injection Ech as <- _; destruct up; discriminate].
  split; [exact Hlen|].
  assert (Hmap : List.length (map snd emas) = List.length emas)
    by apply length_map.
  destruct (all_aligned Qgtb price (map snd emas)) eqn:Eup.
  - injection Ech as <- _. destruct up; [|discriminate].
    destruct (all_aligned_up _ _ Eup) as [Hs Hh]. split.
    + assert (F : Forall (fun x => x < price) (map snd emas)).
      { apply (sorted_head_bound (fun a b => b < a) price); [|exact Hs|].
        - cbv beta. intros x1 x2 Hab Ha. lra.
        - intros x1 r1 El. destruct r1 as [|x2 r2].
          + rewrite El in Hmap. cbn in Hmap. lia.
          + eapply Hh. exact El. }
      rewrite Forall_map in F. exact F.
    + apply (sorted_pairs lt (fun a b => b < a)); assumption.
  - destruct (all_aligned Qltb price (map snd emas)) eqn:Edown.
    + injection Ech as <- _. destruct up; [discriminate|].
      destruct (all_aligned_down _ _ Edown) as [Hs Hh]. split.
      * assert (F : Forall (fun x => price < x) (map snd emas)).
        { apply (sorted_head_bound (fun a b => a < b) price); [|exact Hs|].
          - cbv beta. intros x1 x2 Hab Ha. lra.
          - intros x1 r1 El. destruct r1 as [|x2 r2].
            + rewrite El in Hmap. cbn in Hmap. lia.
            + eapply Hh. exact El. }
        rewrite Forall_map in F. exact F.
      * apply (sorted_pairs lt (fun a b => a < b)); assumption.
    + destruct (Qgtb price (ema_get emas 20)
                && Qgtb (ema_get emas 20) (ema_get emas 50));
        [injection Ech as <- _; destruct up; discriminate|].
      destruct (Qltb price (ema_get emas 20)
                && Qltb (ema_get emas 20) (ema_get emas 50));
        injection Ech as <- _; destruct up; discriminate.
Qed.

Lemma strong_trend_is_full_alignment_witness :
  exists price emas,
    cell rising_frame 1 "close" = Ok price /\
    path (_analyze_trend rising_frame) ["ema_alignment"]
    = Some (PDict (map (fun kv => (nat_str (fst kv), PNum (snd kv))) emas)) /\
    (3 <= List.length emas)%nat /\
    Forall (fun kv => snd kv < price) emas /\
    StronglySorted
      (fun a b => (fst a < fst b)%nat /\ snd b < snd a) emas.
Proof.
  apply (strong_trend_is_full_alignment rising_frame true).
  vm_compute. reflexivity.
Defined.

(** *** Scores of the technical stage *)

Lemma py_int_range (lo hi : Z) (q : Q) :
  inject_Z lo <= q -> q <= inject_Z hi ->
  inject_Z lo <= inject_Z (py_int q) /\ inject_Z (py_int q) <= inject_Z hi.
Proof.
  intros H1 H2. unfold py_int. rewrite <- !Zle_Qle.
  destruct (Qltb q 0).
  - split.
    + rewrite <- (Qceiling_Z lo). apply Qceiling_resp_le. exact H1.
    + rewrite <- (Qceiling_Z hi). apply Qceiling_resp_le. exact H2.
  - split.
    + rewrite <- (Qfloor_Z lo). apply Qfloor_resp_le. exact H1.
    + rewrite <- (Qfloor_Z hi). apply Qfloor_resp_le. exact H2.
Qed.

Lemma of_nat_pos (n : nat) : (0 < n)%nat -> 0 < of_nat n.
Proof.
  intros H. unfold of_nat. change 0 with (inject_Z 0).
  rewrite <- Zlt_Qlt. lia.
Qed.

Lemma sum_range (lo hi : Q) (l : list Q) (acc : Q) :
  Forall (fun x => lo <= x /\ x <= hi) l ->
  acc + lo * of_nat (List.length l) <= fold_left Qplus l acc /\
  fold_left Qplus l acc <= acc + hi * of_nat (List.length l).
Proof.
  intros H. revert acc. induction H as [|x r [Hx1 Hx2] Hr IH]; intros acc.
  - cbn [fold_left List.length]. change (of_nat 0) with 0. split; lra.
  - cbn [fold_left List.length]. destruct (IH (acc + x)) as [A B].
    assert (E : of_nat (S (List.length r)) == of_nat (List.length r) + 1).
    { unfold of_nat. rewrite Nat2Z.inj_succ, <- Z.add_1_r, inject_Z_plus.
      reflexivity. }
    rewrite E. split; lra.
Qed.

Lemma average_range (lo hi : Q) (l : list Q) :
  l <> [] -> Forall (fun x => lo <= x /\ x <= hi) l ->
  lo <= average l /\ average l <= hi.
Proof.
  intros Hne H. unfold average.
  destruct (sum_range lo hi l 0 H) as [A B].
  assert (Hn : 0 < of_nat (List.length l)).
  { apply of_nat_pos. destruct l; [congruence | cbn; lia]. }
  split.
  - apply Qle_shift_div_l; [exact Hn | lra].
  - apply Qle_shift_div_r; [exact Hn | lra].
Qed.

Ltac walk_pair :=
  match goal with
  | |- context [let (_, _) := ?p in _] =>
      let E := fresh "E" in destruct p eqn:E
  end.

Lemma clamp_0_100 (x : Q) : 0 <= max2 0 (min2 100 x) /\ max2 0 (min2 100 x) <= 100.
Proof.
  destruct (min2_cases 100 x) as [[E1 H1] | [E1 H1]]; rewrite E1;
    [destruct (max2_cases 0 x) as [[E2 H2] | [E2 H2]]
    |destruct (max2_cases 0 100) as [[E2 H2] | [E2 H2]]];
    rewrite E2; lra.
Qed.

Lemma momentum_score_range (df : DataFrame) :
  exists s, py_get (_analyze_momentum df) "score" (PNum 50) = Ok (PNum s) /\
            0 <= s /\ s <= 100.
Proof.
  unfold _analyze_momentum.
  repeat walk_head;
    try (exists 50; split; [reflexivity | split; lra]).
  walk_pair.
  destruct (Nat.ltb 0 n).
  - cbv beta iota zeta. cbn [py_get lookup String.eqb Ascii.eqb Bool.eqb].
    eexists. split; [reflexivity|].
    destruct (clamp_0_100 (50 + inject_Z z / of_nat n * 50)) as [A B].
    apply (py_int_range 0 100); assumption.
  - cbv beta iota zeta. cbn [py_get lookup String.eqb Ascii.eqb Bool.eqb].
    eexists. split; [reflexivity|].
    apply (py_int_range 0 100); change (inject_Z 0) with 0;
      change (inject_Z 100) with 100; lra.
Qed.

Lemma volatility_scores_range (indicators : pyval) (scores : list Q) :
  volatility_scores indicators = Ok scores ->
  Forall (fun x => 2 <= x /\ x <= 8) scores.
Proof.
  unfold volatility_scores.
  assert (G : forall x : Q,
    2 <= (if Qgtb x 1.5 then 8 else if Qgtb x 1.0 then 6
          else if Qgtb x 0.5 then 4 else 2)
    /\ (if Qgtb x 1.5 then 8 else if Qgtb x 1.0 then 6
        else if Qgtb x 0.5 then 4 else 2) <= 8).
  { intros x. destruct (Qgtb x 1.5); [split; lra|].
    destruct (Qgtb x 1.0); [split; lra|].
    destruct (Qgtb x 0.5); split; lra. }
  assert (G' : forall x : Q,
    2 <= (if Qgtb x 0.02 then 8 else if Qgtb x 0.01 then 6
          else if Qgtb x 0.005 then 4 else 2)
    /\ (if Qgtb x 0.02 then 8 else if Qgtb x 0.01 then 6
        else if Qgtb x 0.005 then 4 else 2) <= 8).
  { intros x. destruct (Qgtb x 0.02); [split; lra|].
    destruct (Qgtb x 0.01); [split; lra|].
    destruct (Qgtb x 0.005); split; lra. }
  destruct (truthy indicators); [|intros H; injection H as <-; constructor].
  destruct (py_contains indicators "atr") as [has_atr|]; [|discriminate].
  cbn [bind].
  assert (Hs : forall s1,
    (if has_atr
     then atr <- py_item indicators "atr" ;;
          p <- py_item atr "percent" ;;
          atr_percent <- num p ;;
          Ok ([] ++
              [if Qgtb atr_percent 1.5 then 8
               else if Qgtb atr_percent 1.0 then 6
               else if Qgtb atr_percent 0.5 then 4 else 2])
     else Ok []) = Ok s1 ->
    Forall (fun x => 2 <= x /\ x <= 8) s1).
  { intros s1. destruct has_atr; [|intros H; injection H as <-; constructor].
    destruct (py_item indicators "atr") as [atr|]; [|discriminate]. cbn [bind].
    destruct (py_item atr "percent") as [p|]; [|discriminate]. cbn [bind].
    destruct (num p) as [x|]; [|discriminate]. cbn [bind].
    intros H. injection H as <-. constructor; [apply G | constructor]. }
  match goal with
  | |- bind ?c _ = _ -> _ => destruct c as [s1|] eqn:E1; [|discriminate]
  end.
  cbn [bind]. specialize (Hs s1 eq_refl).
  destruct (py_contains indicators "bollinger_bands") as [has_bb|];
    [|discriminate].
  cbn [bind]. destruct has_bb; [|intros H; injection H as <-; exact Hs].
  destruct (py_item indicators "bollinger_bands") as [bb|]; [|discriminate].
  cbn [bind].
  destruct (py_item bb "width") as [w|]; [|discriminate]. cbn [bind].
  destruct (num w) as [x|]; [|discriminate]. cbn [bind].
  intros H. injection H as <-. apply Forall_app. split; [exact Hs|].
  constructor; [apply G' | constructor].
Qed.

Lemma volatility_score_range (df : DataFrame) :
  exists v, py_get (_analyze_volatility df) "score" (PNum 5.0) = Ok (PNum v) /\
            2 <= v /\ v <= 8.
Proof.
  unfold _analyze_volatility.
  repeat walk_head;
    try (exists 5.0; split; [reflexivity | split; lra]).
  match goal with
  | E : volatility_scores _ = Ok ?l |- _ =>
      pose proof (volatility_scores_range _ _ E) as Hs; destruct l as [|x r]
  end.
  - cbv beta iota zeta. cbn [py_get lookup String.eqb Ascii.eqb Bool.eqb].
    eexists. split; [reflexivity | split; lra].
  - cbv beta iota zeta. cbn [py_get lookup String.eqb Ascii.eqb Bool.eqb].
    eexists. split; [reflexivity|].
    apply average_range; [discriminate | exact Hs].
Qed.

Lemma path_get (x : pyval) (k : string) (v dflt : pyval) :
  path x [k] = Some v -> py_get x k dflt = Ok v.
Proof.
  destruct x; cbn [path]; try discriminate.
  unfold py_get. destruct (lookup d k); [|discriminate].
  intros H. injection H as <-. reflexivity.
Qed.

(** X9. When the trend part of [_technical_analysis] is STRONG_BULLISH,
    the overall trend of the same record is neither BEARISH nor
    STRONG_BEARISH, whatever momentum and volatility say; and the
    mirrored statement for STRONG_BEARISH. *)
Theorem strong_trend_never_contradicted (df : DataFrame) (up : bool) :
  path (_technical_analysis df) ["trend"; "direction"]
  = Some (PStr (if up then "STRONG_BULLISH" else "STRONG_BEARISH")) ->
  exists overall,
    path (_technical_analysis df) ["overall_trend"] = Some (PStr overall) /\
    if up then overall <> "BEARISH" /\ overall <> "STRONG_BEARISH"
    else overall <> "BULLISH" /\ overall <> "STRONG_BULLISH".
Proof.
  unfold _technical_analysis.
  destruct (cell df 1 "close") as [price|]; [|discriminate].
  cbn [bind]. cbn [path lookup String.eqb Ascii.eqb Bool.eqb].
  intros H. eexists. split; [reflexivity|].
  apply (path_get _ _ _ (PStr "NEUTRAL")) in H.
  destruct (momentum_score_range df) as [m [Em [Hm1 Hm2]]].
  destruct (volatility_score_range df) as [v [Ev [Hv1 Hv2]]].
  unfold _determine_overall_trend. rewrite Em, Ev, H. cbn [bind].
  cbn [num as_num bind].
  destruct up.
  - change (is_str (PStr "STRONG_BULLISH") "STRONG_BULLISH") with true.
    cbv iota.
    set (score := 90 * 0.5 + m * 0.3 + (100 - v * 10) * 0.2).
    assert (Hs : 49 <= score) by (unfold score; lra).
    unfold Qgeb.
    destruct (Qleb 70 score); [split; discriminate|].
    destruct (Qleb 60 score); [split; discriminate|].
    destruct (Qleb score 30) eqn:E1.
    { apply Qleb_true_le in E1. lra. }
    destruct (Qleb score 40) eqn:E2.
    { apply Qleb_true_le in E2. lra. }
    split; discriminate.
  - change (is_str (PStr "STRONG_BEARISH") "STRONG_BULLISH") with false.
    change (is_str (PStr "STRONG_BEARISH") "BULLISH") with false.
    change (is_str (PStr "STRONG_BEARISH") "STRONG_BEARISH") with true.
    cbv iota.
    set (score := 10 * 0.5 + m * 0.3 + (100 - v * 10) * 0.2).
    assert (Hs : score <= 51) by (unfold score; lra).
    unfold Qgeb.
    destruct (Qleb 70 score) eqn:E1.
    { apply Qleb_true_le in E1. lra. }
    destruct (Qleb 60 score) eqn:E2.
    { apply Qleb_true_le in E2. lra. }
    destruct (Qleb score 30); [split; discriminate|].
    destruct (Qleb score 40); split; discriminate.
Qed.

Lemma strong_trend_never_contradicted_witness :
  exists overall,
    path (_technical_analysis rising_frame) ["overall_trend"]
    = Some (PStr overall) /\
    overall <> "BEARISH" /\ overall <> "STRONG_BEARISH".
Proof.
  apply (strong_trend_never_contradicted rising_frame true).
  vm_compute. reflexivity.
Defined.

(** *** Price analysis *)

Lemma ratio_percent_range (a b : Q) :
  0 <= a -> a <= b -> 0 < b -> 0 <= a / b * 100 /\ a / b * 100 <= 100.
Proof.
  intros Ha Hab Hb.
  assert (H0 : 0 <= a / b) by (apply Qle_shift_div_l; lra).
  assert (H1 : a / b <= 1) by (apply Qle_shift_div_r; lra).
  split; lra.
Qed.

(** X10. On a last bar whose open and close lie between its low and its
    high, [_price_analysis] reports a position in the range and a body
    ratio between 0 and 100, and calls the candle a DOJI exactly when the
    body ratio is below 10, a MARUBOZU exactly when it is above 90. *)
Theorem price_analysis_percentages (df : DataFrame) (o h l c : Q) :
  cell df 1 "open" = Ok o -> cell df 1 "high" = Ok h ->
  cell df 1 "low" = Ok l -> cell df 1 "close" = Ok c ->
  l <= o -> o <= h -> l <= c -> c <= h ->
  exists position ratio kind,
    path (_price_analysis df) ["position_in_range"] = Some (PNum position) /\
    path (_price_analysis df) ["candle"; "body_ratio"] = Some (PNum ratio) /\
    path (_price_analysis df) ["candle"; "type"] = Some (PStr kind) /\
    0 <= position /\ position <= 100 /\ 0 <= ratio /\ ratio <= 100 /\
    (kind = "DOJI" <-> ratio < 10) /\
    (kind = "MARUBOZU" <-> 90 < ratio).
Proof.
  intros Ho Hh Hl Hc H1 H2 H3 H4.
  unfold _price_analysis. rewrite Hc, Ho, Hh, Hl. cbn [bind].
  cbv zeta. cbn [path lookup String.eqb Ascii.eqb Bool.eqb].
  do 3 eexists. split; [reflexivity|]. split; [reflexivity|].
  split; [reflexivity|].
  assert (Hbody : 0 <= Qabs (c - o) /\ Qabs (c - o) <= h - l).
  { split; [apply Qabs_nonneg|]. apply Qabs_Qle_condition. split; lra. }
  destruct Hbody as [Hb1 Hb2].
  assert (Hpos : 0 <= (if Qgtb (h - l) 0 then (c - l) / (h - l) * 100 else 50)
                 /\ (if Qgtb (h - l) 0 then (c - l) / (h - l) * 100 else 50)
                    <= 100).
  { destruct (Qgtb (h - l) 0) eqn:E; [|split; lra].
    apply Qltb_true_iff in E. apply ratio_percent_range; lra. }
  assert (Hrat : 0 <= (if Qgtb (h - l) 0 then Qabs (c - o) / (h - l) * 100
                       else 0)
                 /\ (if Qgtb (h - l) 0 then Qabs (c - o) / (h - l) * 100
                     else 0) <= 100).
  { destruct (Qgtb (h - l) 0) eqn:E; [|split; lra].
    apply Qltb_true_iff in E. apply ratio_percent_range; lra. }
  set (ratio := if Qgtb (h - l) 0 then Qabs (c - o) / (h - l) * 100 else 0)
    in *.
  destruct Hpos as [P1 P2]. destruct Hrat as [R1 R2].
  repeat (split; [assumption|]).
  unfold Qgtb.
  destruct (Qltb ratio 10) eqn:E1.
  - apply Qltb_true_iff in E1. split; split; intros K;
      try reflexivity; try assumption; try discriminate; lra.
  - apply Qltb_false_iff in E1.
    destruct (Qltb 90 ratio) eqn:E2.
    + apply Qltb_true_iff in E2. split; split; intros K;
        try reflexivity; try assumption; try discriminate; lra.
    + apply Qltb_false_iff in E2. split; split; intros K;
        try discriminate; lra.
Qed.

Lemma price_analysis_percentages_witness :
  let df := frame_of_bars [one_bar] in
  exists position ratio kind,
    path (_price_analysis df) ["position_in_range"] = Some (PNum position) /\
    path (_price_analysis df) ["candle"; "body_ratio"] = Some (PNum ratio) /\
    path (_price_analysis df) ["candle"; "type"] = Some (PStr kind) /\
    0 <= position /\ position <= 100 /\ 0 <= ratio /\ ratio <= 100 /\
    (kind = "DOJI" <-> ratio < 10) /\
    (kind = "MARUBOZU" <-> 90 < ratio).
Proof.
  apply (price_analysis_percentages (frame_of_bars [one_bar])
           1.10 1.12 1.09 1.11);
    try reflexivity; unfold Qle; simpl; lia.
Defined.

(** *** What the candlestick detector can return *)

Lemma adds_nothing (allowed ps : list pyval) : adds allowed ps (Ok ps).
Proof. exists []. rewrite app_nil_r. auto. Qed.

Lemma adds_one (allowed ps : list pyval) (c : pyval) :
  In c allowed -> adds allowed ps (Ok (ps ++ [c])).
Proof. intros H. exists [c]. split; [reflexivity|]. right. eauto. Qed.

Ltac adds_walk :=
  repeat match goal with
  | |- adds _ _ (Ok (_ ++ [_])) => apply adds_one; cbn; tauto
  | |- adds _ _ (Ok _) => apply adds_nothing
  | |- adds _ _ (Raise _) => exact I
  | |- adds _ _ (bind ?c _) => destruct c; cbn [bind]
  | |- adds _ _ (if ?c then _ else _) => destruct c
  end.

Lemma engulfing_adds (df : DataFrame) (ps : list pyval) :
  adds [BULLISH_ENGULFING; BEARISH_ENGULFING] ps (engulfing df ps).
Proof. unfold engulfing. adds_walk. Qed.

Lemma hammer_adds (df : DataFrame) (ps : list pyval) :
  adds [HAMMER; HANGING_MAN] ps (hammer df ps).
Proof. unfold hammer. adds_walk. Qed.

Lemma star_adds (df : DataFrame) (ps : list pyval) :
  adds [MORNING_STAR; EVENING_STAR] ps (star df ps).
Proof. unfold star. adds_walk. Qed.

Lemma doji_adds (df : DataFrame) (ps : list pyval) :
  match doji df ps with
  | Ok ps' => ps' = ps \/ (ps' = ps ++ [DOJI] /\ last_bar_is_doji df)
  | Raise _ => True
  end.
Proof.
  unfold doji, row.
  destruct (Nat.leb 1 1 && Nat.leb 1 (len df)); cbn [bind]; [|exact I].
  destruct (cell df 1 "close") as [c|] eqn:Ec; cbn [bind]; [|exact I].
  destruct (cell df 1 "open") as [o|] eqn:Eo; cbn [bind]; [|exact I].
  destruct (cell df 1 "high") as [h|] eqn:Eh; cbn [bind]; [|exact I].
  destruct (cell df 1 "low") as [l|] eqn:El; cbn [bind]; [|exact I].
  destruct (Qgtb (h - l) 0) eqn:E1; cbn [andb]; [|left; reflexivity].
  destruct (Qltb (Qabs (c - o) / (h - l)) 0.1) eqn:E2; [|left; reflexivity].
  right. split; [reflexivity|].
  apply Qltb_true_iff in E1. apply Qltb_true_iff in E2.
  exists c, o, h, l. repeat split; assumption.
Qed.

Lemma guarded_extends (P : list pyval -> Prop)
  (f : list pyval -> result (list pyval)) (c : list pyval -> bool) :
  P [] ->
  (forall ps, match f ps with
              | Ok ps' => exists new, ps' = ps ++ new /\ P new
              | Raise _ => True
              end) ->
  extends_by P (when c [atomic f]).
Proof.
  intros P0 Hf ps. unfold when, atomic.
  destruct (c ps); [|exists []; rewrite app_nil_r; auto].
  cbn [exec_block]. specialize (Hf ps).
  destruct (f ps) as [ps'|e]; cbn [fst].
  - exact Hf.
  - exists []. rewrite app_nil_r. auto.
Qed.

Lemma block_of_four (P1 P2 P3 P4 : list pyval -> Prop)
  (st1 st2 st3 st4 : stmt (list pyval)) :
  P2 [] -> P3 [] -> P4 [] ->
  extends_by P1 st1 -> extends_by P2 st2 -> extends_by P3 st3 ->
  extends_by P4 st4 ->
  forall ps, exists n1 n2 n3 n4,
    fst (exec_block [st1; st2; st3; st4] ps) = ps ++ n1 ++ n2 ++ n3 ++ n4 /\
    P1 n1 /\ P2 n2 /\ P3 n3 /\ P4 n4.
Proof.
  intros Z2 Z3 Z4 H1 H2 H3 H4 ps.
  rewrite exec_block_cons.
  destruct (H1 ps) as [n1 [E1 Q1]].
  destruct (st1 ps) as [s1 [e|]]; cbn [fst] in *; subst s1.
  { exists n1, [], [], []. rewrite !app_nil_r. auto 10. }
  rewrite exec_block_cons.
  destruct (H2 (ps ++ n1)) as [n2 [E2 Q2]].
  destruct (st2 (ps ++ n1)) as [s2 [e|]]; cbn [fst] in *; subst s2.
  { exists n1, n2, [], []. rewrite !app_nil_r, <- app_assoc. auto 10. }
  rewrite exec_block_cons.
  destruct (H3 ((ps ++ n1) ++ n2)) as [n3 [E3 Q3]].
  destruct (st3 ((ps ++ n1) ++ n2)) as [s3 [e|]]; cbn [fst] in *; subst s3.
  { exists n1, n2, n3, []. rewrite !app_nil_r, <- !app_assoc. auto 10. }
  rewrite exec_block_cons.
  destruct (H4 (((ps ++ n1) ++ n2) ++ n3)) as [n4 [E4 Q4]].
  destruct (st4 (((ps ++ n1) ++ n2) ++ n3)) as [s4 [e|]]; cbn [fst] in *;
    subst s4; cbn [exec_block fst];
    exists n1, n2, n3, n4; rewrite <- !app_assoc; auto 10.
Qed.

(** The detector returns at most one engulfing pattern, then at
    most one of hammer and hanging man, then at most one doji, then at
    most one star, in this order. *)
Lemma candlestick_shape (df : DataFrame) :
  exists e h d s,
    _detect_candlestick_patterns df = e ++ h ++ d ++ s /\
    one_of [BULLISH_ENGULFING; BEARISH_ENGULFING] e /\
    one_of [HAMMER; HANGING_MAN] h /\
    (d = [] \/ (d = [DOJI] /\ last_bar_is_doji df)) /\
    one_of [MORNING_STAR; EVENING_STAR] s.
Proof.
  assert (N : forall allowed, one_of allowed []) by (left; reflexivity).
  unfold _detect_candlestick_patterns.
  destruct (Nat.ltb (len df) 3).
  { exists [], [], [], []. repeat split; auto. }
  apply (block_of_four
           (one_of [BULLISH_ENGULFING; BEARISH_ENGULFING])
           (one_of [HAMMER; HANGING_MAN])
           (fun d => d = [] \/ (d = [DOJI] /\ last_bar_is_doji df))
           (one_of [MORNING_STAR; EVENING_STAR])); auto.
  - apply guarded_extends; [apply N|]. intros ps.
    pose proof (engulfing_adds df ps) as H. unfold adds in H.
    destruct (engulfing df ps); [|exact I]. exact H.
  - apply guarded_extends; [apply N|]. intros ps.
    pose proof (hammer_adds df ps) as H. unfold adds in H.
    destruct (hammer df ps); [|exact I]. exact H.
  - apply guarded_extends; [auto|]. intros ps.
    pose proof (doji_adds df ps) as H.
    destruct (doji df ps) as [ps'|]; [|exact I].
    destruct H as [->|[-> H]].
    + exists []. rewrite app_nil_r. auto.
    + exists [DOJI]. auto.
  - apply guarded_extends; [apply N|]. intros ps.
    pose proof (star_adds df ps) as H. unfold adds in H.
    destruct (star df ps); [|exact I]. exact H.
Qed.

(** X11. [_detect_candlestick_patterns] answers at most one engulfing
    pattern, then at most one of hammer and hanging man, then at most one
    doji, then at most one star, in this order: never more than four
    patterns, and a doji only when the last bar has a range. *)
Theorem candlesticks_one_per_family (df : DataFrame) :
  exists e h d s,
    _detect_candlestick_patterns df = e ++ h ++ d ++ s /\
    one_of [BULLISH_ENGULFING; BEARISH_ENGULFING] e /\
    one_of [HAMMER; HANGING_MAN] h /\
    (d = [] \/ (d = [DOJI] /\ last_bar_has_range df)) /\
    one_of [MORNING_STAR; EVENING_STAR] s /\
    (List.length (_detect_candlestick_patterns df) <= 4)%nat.
Proof.
  destruct (candlestick_shape df) as [e [h [d [s [E [He [Hh [Hd Hs]]]]]]]].
  exists e, h, d, s.
  split; [exact E|]. split; [exact He|]. split; [exact Hh|]. split.
  { destruct Hd as [->|[-> Hd]]; [left; reflexivity|]. right.
    split; [reflexivity|].
    destruct Hd as [c [o [hi [lo [_ [_ [Eh [El [Hr _]]]]]]]]].
    exists hi, lo. split; [exact Eh|]. split; [exact El | lra]. }
  split; [exact Hs|].
  rewrite E, !length_app.
  assert (Le : (List.length e <= 1)%nat)
    by (destruct He as [->|[c [_ ->]]]; cbn; lia).
  assert (Lh : (List.length h <= 1)%nat)
    by (destruct Hh as [->|[c [_ ->]]]; cbn; lia).
  assert (Ld : (List.length d <= 1)%nat)
    by (destruct Hd as [->|[-> _]]; cbn; lia).
  assert (Ls : (List.length s <= 1)%nat)
    by (destruct Hs as [->|[c [_ ->]]]; cbn; lia).
  lia.
Qed.

Lemma one_of_In (allowed l : list pyval) (x : pyval) :
  one_of allowed l -> In x l -> In x allowed.
Proof.
  intros [-> | [c [Hc ->]]] H; [destruct H|].
  destruct H as [<-|[]]. exact Hc.
Qed.

(** X12. Whenever [_detect_candlestick_patterns] reports a doji,
    [_price_analysis] on the same frame reports a body ratio of at most
    10 for the last candle and types it DOJI or NORMAL, never MARUBOZU.
    The detector tests the quotient of body and range against 0.1, the
    price analysis a hundred times that quotient against 10: on floats
    the second test can fail where the first passes, so that the type is
    NORMAL beside a doji pattern, but the ratio reported is never above
    10. *)
Theorem doji_pattern_means_small_body (df : DataFrame) :
  In DOJI (_detect_candlestick_patterns df) ->
  exists ratio kind,
    path (_price_analysis df) ["candle"; "body_ratio"] = Some (PNum ratio) /\
    path (_price_analysis df) ["candle"; "type"] = Some (PStr kind) /\
    ratio <= 10 /\
    (kind = "DOJI" \/ kind = "NORMAL").
Proof.
  intros H.
  destruct (candlestick_shape df) as [e [h [d [s [E [He [Hh [Hd Hs]]]]]]]].
  rewrite E in H. rewrite !in_app_iff in H.
  assert (Hdoji : last_bar_is_doji df).
  { destruct H as [H|[H|[H|H]]].
    - apply (one_of_In _ _ _ He) in H. cbn in H.
      destruct H as [H|[H|[]]]; discriminate H.
    - apply (one_of_In _ _ _ Hh) in H. cbn in H.
      destruct H as [H|[H|[]]]; discriminate H.
    - destruct Hd as [->|[_ Hd]]; [destruct H | exact Hd].
    - apply (one_of_In _ _ _ Hs) in H. cbn in H.
      destruct H as [H|[H|[]]]; discriminate H. }
  destruct Hdoji as [c [o [hi [lo [Ec [Eo [Eh [El [Hr Hb]]]]]]]]].
  unfold _price_analysis. rewrite Ec, Eo, Eh, El. cbn [bind]. cbv zeta.
  cbn [path lookup String.eqb Ascii.eqb Bool.eqb].
  assert (E1 : Qgtb (hi - lo) 0 = true) by (apply Qltb_true_iff; exact Hr).
  rewrite E1.
  assert (E2 : Qltb (Qabs (c - o) / (hi - lo) * 100) 10 = true).
  { apply Qltb_true_iff. lra. }
  rewrite E2. do 2 eexists. split; [reflexivity|]. split; [reflexivity|].
  split; [lra | left; reflexivity].
Qed.

Lemma doji_pattern_means_small_body_witness :
  let df := frame_of_bars [flat_bar; flat_bar; flat_bar] in
  In DOJI (_detect_candlestick_patterns df) /\
  exists ratio kind,
    path (_price_analysis df) ["candle"; "body_ratio"] = Some (PNum ratio) /\
    path (_price_analysis df) ["candle"; "type"] = Some (PStr kind) /\
    ratio <= 10 /\
    (kind = "DOJI" \/ kind = "NORMAL").
Proof.
  assert (H : In DOJI (_detect_candlestick_patterns
                         (frame_of_bars [flat_bar; flat_bar; flat_bar])))
    by (vm_compute; left; reflexivity).
  split; [exact H|].
  apply (doji_pattern_means_small_body
           (frame_of_bars [flat_bar; flat_bar; flat_bar]) H).
Defined.

(** *** Pattern analysis *)

Ltac scored :=
  unfold scored_pattern;
  do 7 eexists; split; [reflexivity | split; lra].

Lemma one_of_scored (allowed l : list pyval) :
  Forall scored_pattern allowed -> one_of allowed l ->
  Forall scored_pattern l /\ (List.length l <= 1)%nat.
Proof.
  intros Ha [-> | [c [Hc ->]]].
  - split; [constructor | cbn; lia].
  - split; [|cbn; lia]. constructor; [|constructor].
    rewrite Forall_forall in Ha. apply Ha. exact Hc.
Qed.

Lemma candlesticks_scored (df : DataFrame) :
  Forall scored_pattern (_detect_candlestick_patterns df) /\
  (List.length (_detect_candlestick_patterns df) <= 4)%nat.
Proof.
  destruct (candlestick_shape df) as [e [h [d [s [E [He [Hh [Hd Hs]]]]]]]].
  rewrite E.
  destruct (one_of_scored [BULLISH_ENGULFING; BEARISH_ENGULFING] e
              ltac:(repeat (constructor; [scored|]); constructor) He) as [A1 B1].
  destruct (one_of_scored [HAMMER; HANGING_MAN] h
              ltac:(repeat (constructor; [scored|]); constructor) Hh) as [A2 B2].
  destruct (one_of_scored [MORNING_STAR; EVENING_STAR] s
              ltac:(repeat (constructor; [scored|]); constructor) Hs) as [A4 B4].
  assert (Hd' : Forall scored_pattern d /\ (List.length d <= 1)%nat).
  { destruct Hd as [->|[-> _]]; (split; [|cbn; lia]).
    - constructor.
    - constructor; [scored | constructor]. }
  destruct Hd' as [A3 B3].
  split.
  - repeat (apply Forall_app; split); assumption.
  - rewrite !length_app. lia.
Qed.

Lemma double_top_bottom_scored (df : DataFrame) :
  Forall scored_pattern (_detect_double_top_bottom df) /\
  (List.length (_detect_double_top_bottom df) <= 2)%nat.
Proof.
  unfold _detect_double_top_bottom.
  destruct (Nat.ltb (len df) 20); [split; [constructor | cbn; lia]|].
  match goal with
  | |- context [match ?h with Ok _ => _ | Raise _ => _ end] => destruct h as [[peaks valleys]|]
  end; [|split; [constructor | cbn; lia]].
  unfold atomic. cbn [exec_block].
  destruct (twin peaks valleys) as [[|]|]; cbn [bind fst app];
    destruct (twin valleys peaks) as [[|]|]; cbn [bind fst app];
    (split; [repeat (constructor; [scored|]); constructor | cbn; lia]).
Qed.

Lemma triangle_scored (linregress_slope : series -> result Q)
  (df : DataFrame) :
  Forall scored_pattern (_detect_triangle_patterns linregress_slope df) /\
  (List.length (_detect_triangle_patterns linregress_slope df) <= 1)%nat.
Proof.
  unfold _detect_triangle_patterns.
  destruct (Nat.ltb (len df) 15); [split; [constructor | cbn; lia]|].
  cbv zeta.
  repeat match goal with
  | |- context [match bind ?c _ with Ok _ => _ | Raise _ => _ end] =>
      destruct c; cbn [bind]
  | |- context [match (match ?o with Some _ => _ | None => _ end) with
                | Ok _ => _ | Raise _ => _ end] => destruct o
  | |- context [match (if ?c then _ else _) with Ok _ => _ | Raise _ => _ end] =>
      destruct c
  end;
  try (split; [apply Forall_nil | cbn; lia]);
  (split; [constructor; [unfold triangle; scored | constructor] | cbn; lia]).
Qed.

Lemma sum_of_scores (ps : list pyval) :
  Forall scored_pattern ps ->
  forall total, exists s,
    sum_of "strength_score" ps total = Ok s /\
    total + 3 * of_nat (List.length ps) <= s /\
    s <= total + 9 * of_nat (List.length ps).
Proof.
  induction 1 as [|p r Hp Hr IH]; intros total.
  - exists total. cbn [sum_of List.length]. change (of_nat 0) with 0.
    split; [reflexivity | split; lra].
  - destruct Hp as [n [t [d [st [sc [tf [ds [-> [H1 H2]]]]]]]]].
    cbn [sum_of]. unfold pattern at 1.
    cbn [py_get lookup String.eqb Ascii.eqb Bool.eqb bind num as_num].
    destruct (IH (total + sc)) as [s [E [A B]]].
    exists s. split; [exact E|].
    assert (En : of_nat (List.length (pattern n t d st sc tf ds :: r))
                 == of_nat (List.length r) + 1).
    { cbn [List.length]. unfold of_nat.
      rewrite Nat2Z.inj_succ, <- Z.add_1_r, inject_Z_plus. reflexivity. }
    rewrite En. split; lra.
Qed.

Lemma any_of_type_ok (kind : string) (ps : list pyval) :
  Forall scored_pattern ps -> exists b, any_of_type kind ps = Ok b.
Proof.
  unfold any_of_type. induction 1 as [|p r Hp Hr IH].
  - exists false. reflexivity.
  - destruct Hp as [n [t [d [st [sc [tf [ds [-> _]]]]]]]].
    cbn [anyM]. unfold pattern at 1.
    cbn [py_get lookup String.eqb Ascii.eqb Bool.eqb bind].
    destruct (is_str (PStr t) kind); [exists true; reflexivity | exact IH].
Qed.

(** X13. Whatever the frame and whatever the regression answers,
    [_pattern_analysis] returns its complete record of five entries, never
    the short one of its handler: at most seven patterns, their number
    under [count], and a strength that is 0 without patterns and between
    3 and 9 with them. *)
Theorem pattern_analysis_complete (linregress_slope : series -> result Q)
  (df : DataFrame) :
  exists ps strength reversal continuation,
    _pattern_analysis linregress_slope df
    = PDict [("patterns", PList ps);
             ("count", PNum (of_nat (List.length ps)));
             ("strength", PNum strength);
             ("has_reversal", PBool reversal);
             ("has_continuation", PBool continuation)] /\
    (List.length ps <= 7)%nat /\
    (ps = [] -> strength = 0) /\
    (ps <> [] -> 3 <= strength /\ strength <= 9).
Proof.
  unfold _pattern_analysis.
  set (ps := _detect_candlestick_patterns df
             ++ _detect_classic_patterns linregress_slope df
             ++ _detect_harmonic_patterns df
             ++ _detect_fibonacci_patterns df).
  assert (Hps : Forall scored_pattern ps /\ (List.length ps <= 7)%nat).
  { unfold ps, _detect_classic_patterns, _detect_head_shoulders,
      _detect_flag_pennant, _detect_harmonic_patterns,
      _detect_fibonacci_patterns.
    destruct (candlesticks_scored df) as [A1 B1].
    destruct (double_top_bottom_scored df) as [A2 B2].
    destruct (triangle_scored linregress_slope df) as [A3 B3].
    destruct (Nat.ltb (len df) 20); cbn [app]; rewrite ?app_nil_r.
    - split; [exact A1 | lia].
    - split.
      + repeat (apply Forall_app; split); assumption.
      + rewrite !length_app. lia. }
  destruct Hps as [Hs Hl].
  destruct (any_of_type_ok "REVERSAL" ps Hs) as [r Er].
  destruct (any_of_type_ok "CONTINUATION" ps Hs) as [c Ec].
  destruct (sum_of_scores ps Hs 0) as [s [Es [A B]]].
  destruct ps as [|p ps'] eqn:Eps.
  - cbn [bind]. rewrite Er, Ec. cbn [bind].
    exists [], 0, r, c. split; [reflexivity|]. split; [cbn; lia|].
    split; [intros _; reflexivity | intros K; congruence].
  - rewrite Es. cbn [bind]. rewrite Er, Ec. cbn [bind].
    eexists _, _, r, c. split; [reflexivity|].
    split; [exact Hl|]. split; [discriminate|]. intros _.
    assert (Hn : 0 < of_nat (List.length (p :: ps')))
      by (apply of_nat_pos; cbn; lia).
    split.
    + apply Qle_shift_div_l; [exact Hn | lra].
    + apply Qle_shift_div_r; [exact Hn | lra].
Qed.

(** *** Signals *)

Lemma confidence_range (score : Q) (reason_count : nat)
  (trend_strength pattern_count : pyval) :
  50 <= _calculate_confidence score reason_count trend_strength pattern_count
  /\ _calculate_confidence score reason_count trend_strength pattern_count
     <= 95.
Proof.
  unfold _calculate_confidence. cbv zeta.
  destruct (py_ge trend_strength (PNum 70)) as [strong|]; cbn [bind];
    [|split; lra].
  destruct (py_ge pattern_count (PNum 2)) as [several|]; cbn [bind];
    [|split; lra].
  match goal with
  | |- context [max2 0 (min2 100 ?c)] => set (conf := c)
  end.
  assert (H : 50 <= conf /\ conf <= 95).
  { unfold conf.
    destruct (Qgeb score 70 || Qleb score 30);
      [|destruct (Qgeb score 60 || Qleb score 40)];
      destruct (Nat.leb 3 reason_count); destruct strong; destruct several;
      split; lra. }
  destruct H as [H1 H2].
  destruct (min2_cases 100 conf) as [[E1 K1] | [E1 K1]]; rewrite E1;
    [destruct (max2_cases 0 conf) as [[E2 K2] | [E2 K2]]
    |destruct (max2_cases 0 100) as [[E2 K2] | [E2 K2]]];
    rewrite E2; split; lra.
Qed.

Ltac walk_let :=
  match goal with
  | |- context [match (let (_, _) := ?p in _) with Ok _ => _ | Raise _ => _ end] =>
      let E := fresh "E" in destruct p eqn:E
  end.

(** X14. Whatever the four analyses hold, [_generate_signals] answers a
    primary signal with a strength and a confidence: a HOLD has strength
    0, a BUY or SELL a strength from 65 to 100, a STRONG_BUY or
    STRONG_SELL from 75 to 100; the confidence is 0 (the handler) or lies
    between 50 and 95. *)
Theorem signals_strength_and_confidence
  (technical_analysis price_analysis pattern_analysis key_levels : pyval) :
  let signals :=
    _generate_signals technical_analysis price_analysis pattern_analysis
      key_levels in
  exists primary strength confidence,
    path signals ["primary"] = Some (PStr primary) /\
    path signals ["strength"] = Some (PNum strength) /\
    path signals ["confidence"] = Some (PNum confidence) /\
    (primary = "HOLD" /\ strength = 0 \/
     (primary = "BUY" \/ primary = "SELL") /\
       65 <= strength /\ strength <= 100 \/
     (primary = "STRONG_BUY" \/ primary = "STRONG_SELL") /\
       75 <= strength /\ strength <= 100) /\
    (confidence = 0 \/ 50 <= confidence /\ confidence <= 95).
Proof.
  cbv zeta. unfold _generate_signals.
  assert (Handler :
    let signals :=
      PDict [("primary", PStr "HOLD"); ("strength", PNum 0);
             ("reasons", PList [PStr "خطا در تحلیل"]);
             ("risk_level", PStr "HIGH"); ("confidence", PNum 0)] in
    exists primary strength confidence,
      path signals ["primary"] = Some (PStr primary) /\
      path signals ["strength"] = Some (PNum strength) /\
      path signals ["confidence"] = Some (PNum confidence) /\
      (primary = "HOLD" /\ strength = 0 \/
       (primary = "BUY" \/ primary = "SELL") /\
         65 <= strength /\ strength <= 100 \/
       (primary = "STRONG_BUY" \/ primary = "STRONG_SELL") /\
         75 <= strength /\ strength <= 100) /\
      (confidence = 0 \/ 50 <= confidence /\ confidence <= 95)).
  { cbv zeta. exists "HOLD", 0, 0. cbn. auto 10. }
  cbv zeta in Handler.
  repeat first [walk_head | walk_let]; try exact Handler.
  clear Handler.
  do 3 eexists.
  cbn [path lookup String.eqb Ascii.eqb Bool.eqb].
  split; [reflexivity|]. split; [reflexivity|]. split; [reflexivity|].
  split; [|right; apply confidence_range].
  match goal with
  | H : context [max2 0 (min2 100 ?x)] |- _ =>
      destruct (clamp_0_100 x) as [C1 C2]; set (score := max2 0 (min2 100 x)) in *
  end.
  unfold Qgeb in *.
  repeat match goal with
  | H : (if Qleb ?a ?b then _ else _) = _ |- _ =>
      let K := fresh "K" in
      destruct (Qleb a b) eqn:K;
      [apply Qleb_true_le in K | clear K]
  end;
  match goal with
  | H : _ = (_, _, _, _) |- _ => injection H as <- <- <- <-
  end.
  - right. right. split; [auto|]. split; lra.
  - right. left. split; [auto|]. split; lra.
  - right. right. split; [auto|]. split; lra.
  - right. left. split; [auto|]. split; lra.
  - left. auto.
Qed.

(** X15. Whatever its arguments hold, [_calculate_score_and_confidence]
    answers two whole numbers between 0 and 100. *)
Theorem final_score_and_confidence_bounded
  (technical_analysis pattern_analysis signals : pyval) :
  exists score confidence : Z,
    _calculate_score_and_confidence technical_analysis pattern_analysis
      signals
    = (PNum (inject_Z score), PNum (inject_Z confidence)) /\
    (0 <= score <= 100)%Z /\ (0 <= confidence <= 100)%Z.
Proof.
  assert (K : forall z : Z, exists c : Z,
            max2 0 (min2 100 (inject_Z z)) = inject_Z c /\ (0 <= c <= 100)%Z).
  { intros z.
    destruct (min2_cases 100 (inject_Z z)) as [[E1 H1] | [E1 H1]]; rewrite E1.
    - destruct (max2_cases 0 (inject_Z z)) as [[E2 H2] | [E2 H2]]; rewrite E2.
      + exists z. split; [reflexivity|].
        change 0 with (inject_Z 0) in H2. change 100 with (inject_Z 100) in H1.
        rewrite <- Zlt_Qlt in H1, H2. lia.
      + exists 0%Z. split; [reflexivity | lia].
    - destruct (max2_cases 0 100) as [[E2 H2] | [E2 H2]]; rewrite E2.
      + exists 100%Z. split; [reflexivity | lia].
      + exists 0%Z. split; [reflexivity | lia]. }
  unfold _calculate_score_and_confidence.
  repeat walk_head;
    try (exists 50%Z, 50%Z; split; [reflexivity | lia]).
  cbv zeta.
  match goal with
  | |- context [(PNum (max2 0 (min2 100 (inject_Z ?z1))),
                 PNum (max2 0 (min2 100 (inject_Z ?z2))))] =>
      destruct (K z1) as [c1 [-> B1]]; destruct (K z2) as [c2 [-> B2]]
  end.
  exists c1, c2. auto.
Qed.

Ltac unwind H :=
  repeat match type of H with
  | (if ?c then _ else _) = _ => destruct c
  | bind ?c _ = _ => destruct c; cbn [bind] in H
  | Raise _ = Ok _ => discriminate H
  end;
  injection H as <- <-.

(** X16. The score of [_risk_analysis] is never below 5 nor above 9: its
    level is MEDIUM, HIGH or VERY_HIGH, never LOW or VERY_LOW, and the
    largest position it allows lies between 0.5 and 1.5 percent. *)
Theorem risk_analysis_never_low (df : DataFrame) (signals : pyval) :
  exists score level size,
    path (_risk_analysis df signals) ["score"] = Some (PNum score) /\
    path (_risk_analysis df signals) ["level"] = Some (PStr level) /\
    path (_risk_analysis df signals) ["max_position_size_percent"]
    = Some (PNum size) /\
    5 <= score /\ score <= 9 /\
    (level = "MEDIUM" \/ level = "HIGH" \/ level = "VERY_HIGH") /\
    0.5 <= size /\ size <= 1.5.
Proof.
  unfold _risk_analysis.
  repeat first [walk_head | walk_let];
    try (exists 5.0, "MEDIUM", 1.0; cbn; repeat split; auto; lra).
  repeat match goal with
  | H : _ = Ok (_, _) |- _ => unwind H
  end;
  cbv zeta; cbn [path lookup String.eqb Ascii.eqb Bool.eqb];
  do 3 eexists;
  (split; [reflexivity|]); (split; [reflexivity|]); (split; [reflexivity|]);
  (split; [vm_compute; discriminate|]); (split; [vm_compute; discriminate|]);
  (split; [vm_compute; auto|]);
  split; vm_compute; discriminate.
Qed.









(** *** Account monitor *)

Lemma py_gt_num (a b : Q) : py_gt (PNum a) (PNum b) = Ok (Qgtb a b).
Proof.
  unfold py_gt, Qgtb, Qltb. cbn [py_cmp bind].
  rewrite <- (Qcompare_antisym a b).
  destruct (Qcompare a b); reflexivity.
Qed.

Lemma py_lt_num (a b : Q) : py_lt (PNum a) (PNum b) = Ok (Qltb a b).
Proof. reflexivity. Qed.

(** X18. An account with no margin in use always carries the warning of
    a low margin level, at 0.00 percent, in [monitor_account_risk]; its
    risk counts as acceptable exactly when this is its only warning. *)
Theorem idle_account_always_warned (account_info daily_stats : pyval)
  (balance equity margin free_margin daily_profit : Q) :
  py_get account_info "balance" (PNum 0) = Ok (PNum balance) ->
  py_get account_info "equity" (PNum 0) = Ok (PNum equity) ->
  py_get account_info "margin" (PNum 0) = Ok (PNum margin) ->
  py_get account_info "free_margin" (PNum 0) = Ok (PNum free_margin) ->
  py_get daily_stats "daily_profit" (PNum 0) = Ok (PNum daily_profit) ->
  margin <= 0 ->
  exists warnings acceptable,
    path (monitor_account_risk account_info daily_stats) ["warnings"]
    = Some (PList (map PStr warnings)) /\
    path (monitor_account_risk account_info daily_stats)
         ["is_risk_acceptable"] = Some (PBool acceptable) /\
    In "سطح مارجین پایین: 0.00%" warnings /\
    (acceptable = true <-> warnings = ["سطح مارجین پایین: 0.00%"]).
Proof.
  intros Hb He Hm Hf Hd Hle.
  unfold monitor_account_risk. rewrite Hb, He, Hm, Hf, Hd. cbn [bind].
  rewrite !py_gt_num, !py_lt_num. cbn [bind andM].
  assert (Em : Qgtb margin 0 = false).
  { unfold Qgtb. apply Qltb_false_iff. exact Hle. }
  rewrite Em.
  assert (Hdiv : forall x : Q, Qgtb balance 0 = true ->
            py_div (PNum x) (PNum balance) = Ok (PNum (x / balance))).
  { intros x Hpos. unfold py_div. cbn [num as_num bind].
    destruct (Qeq_bool balance 0) eqn:E0; [|reflexivity].
    apply Qeq_bool_iff in E0. unfold Qgtb in Hpos.
    apply Qltb_true_iff in Hpos. lra. }
  unfold py_sub, py_abs, py_mul, fmt. cbn [num as_num bind].
  destruct (Qgtb balance 0) eqn:Eb.
  - rewrite !Hdiv by reflexivity. cbn [num as_num bind]. rewrite py_lt_num.
    cbn [bind].
    destruct (Qltb daily_profit 0); cbn [bind];
      rewrite ?Hdiv by reflexivity; cbn [num as_num bind];
      cbv zeta; change (Qltb 0 100) with true; cbv iota;
      repeat match goal with
      | |- context [if ?c then _ else _] => destruct c; cbn [bind]
      end;
      cbn [path lookup String.eqb Ascii.eqb Bool.eqb];
      do 2 eexists; (split; [reflexivity|]); (split; [reflexivity|]);
      (split; [rewrite ?in_app_iff; cbn; tauto|]);
      cbn; split; intros K; try discriminate K; try reflexivity.
    all: exfalso; apply (f_equal (@List.length string)) in K;
      rewrite ?length_app in K; cbn in K; lia.
  - rewrite py_lt_num. cbn [bind].
    destruct (Qltb daily_profit 0); cbn [bind];
      cbv zeta; change (Qltb 0 100) with true; cbv iota;
      repeat match goal with
      | |- context [if ?c then _ else _] => destruct c; cbn [bind]
      end;
      cbn [path lookup String.eqb Ascii.eqb Bool.eqb];
      do 2 eexists; (split; [reflexivity|]); (split; [reflexivity|]);
      (split; [rewrite ?in_app_iff; cbn; tauto|]);
      cbn; split; intros K; try discriminate K; try reflexivity.
    all: exfalso; apply (f_equal (@List.length string)) in K;
      rewrite ?length_app in K; cbn in K; lia.
Qed.

Lemma idle_account_always_warned_witness :
  exists warnings acceptable,
    path (monitor_account_risk idle_account flat_day) ["warnings"]
    = Some (PList (map PStr warnings)) /\
    path (monitor_account_risk idle_account flat_day)
         ["is_risk_acceptable"] = Some (PBool acceptable) /\
    In "سطح مارجین پایین: 0.00%" warnings /\
    (acceptable = true <-> warnings = ["سطح مارجین پایین: 0.00%"]).
Proof.
  apply (idle_account_always_warned idle_account flat_day
           10000 10000 0 10000 0);
    try reflexivity; unfold Qle; simpl; lia.
Defined.

Lemma percent_le (x y c : Q) : 0 < y -> x * 100 <= c * y -> x / y * 100 <= c.
Proof.
  intros Hy H.
  assert (E : x / y * 100 == x * 100 / y) by (field; lra).
  rewrite E. apply Qle_shift_div_r; assumption.
Qed.

Lemma percent_ge (x y c : Q) : 0 < y -> c * y <= x * 100 -> c <= x / y * 100.
Proof.
  intros Hy H.
  assert (E : x / y * 100 == x * 100 / y) by (field; lra).
  rewrite E. apply Qle_shift_div_l; assumption.
Qed.

(** X19. An account with margin in use that stays clear of the four
    limits of [monitor_account_risk] (a drawdown of at most 4.9 percent
    against the limit of 5, a margin level of at least 101 percent against
    100, a daily loss of at most 1.9 percent against 2, a free margin of
    at least 10.1 percent of the balance against 10) gets no warning and
    an acceptable risk. Exactly on a limit the rounding of floats
    decides, and a warning can appear. *)
Theorem account_within_limits_is_acceptable
  (account_info daily_stats : pyval)
  (balance equity margin free_margin daily_profit : Q) :
  py_get account_info "balance" (PNum 0) = Ok (PNum balance) ->
  py_get account_info "equity" (PNum 0) = Ok (PNum equity) ->
  py_get account_info "margin" (PNum 0) = Ok (PNum margin) ->
  py_get account_info "free_margin" (PNum 0) = Ok (PNum free_margin) ->
  py_get daily_stats "daily_profit" (PNum 0) = Ok (PNum daily_profit) ->
  0 < balance -> 0 < margin ->
  0.951 * balance <= equity -> 1.01 * margin <= equity ->
  - (0.019 * balance) <= daily_profit -> 0.101 * balance <= free_margin ->
  path (monitor_account_risk account_info daily_stats) ["warnings"]
  = Some (PList []) /\
  path (monitor_account_risk account_info daily_stats) ["is_risk_acceptable"]
  = Some (PBool true).
Proof.
  intros Hb He Hm Hf Hd Pb Pm L1 L2 L3 L4.
  unfold monitor_account_risk. rewrite Hb, He, Hm, Hf, Hd. cbn [bind].
  rewrite !py_gt_num, !py_lt_num. cbn [bind andM].
  assert (Eb : Qgtb balance 0 = true) by (apply Qltb_true_iff; exact Pb).
  assert (Em : Qgtb margin 0 = true) by (apply Qltb_true_iff; exact Pm).
  rewrite Eb, Em.
  assert (Hdiv : forall x y : Q, 0 < y ->
            py_div (PNum x) (PNum y) = Ok (PNum (x / y))).
  { intros x y Hpos. unfold py_div. cbn [num as_num bind].
    destruct (Qeq_bool y 0) eqn:E0; [|reflexivity].
    apply Qeq_bool_iff in E0. lra. }
  unfold py_sub, py_abs, py_mul, fmt. cbn [num as_num bind].
  rewrite !Hdiv by assumption. cbn [num as_num bind]. rewrite py_lt_num.
  cbn [bind].
  assert (E1 : Qgtb ((balance - equity) / balance * 100) 5 = false).
  { apply Qltb_false_iff. apply percent_le; lra. }
  assert (E2 : Qltb (equity / margin * 100) 100 = false).
  { apply Qltb_false_iff. apply percent_ge; lra. }
  assert (E4 : Qltb free_margin (balance * 0.1) = false).
  { apply Qltb_false_iff. lra. }
  destruct (Qltb daily_profit 0) eqn:Ep; cbn [bind];
    rewrite ?Hdiv by assumption; cbn [num as_num bind]; cbv zeta;
    rewrite E1, E2, E4.
  - assert (E3 : Qgtb (Qabs daily_profit / balance * 100) 2 = false).
    { apply Qltb_false_iff. apply percent_le; [exact Pb|].
      apply Qltb_true_iff in Ep. rewrite Qabs_neg by lra. lra. }
    rewrite E3. cbn. split; reflexivity.
  - change (Qgtb 0 2) with false. cbn. split; reflexivity.
Qed.

Lemma account_within_limits_is_acceptable_witness :
  path (monitor_account_risk active_account flat_day) ["warnings"]
  = Some (PList []) /\
  path (monitor_account_risk active_account flat_day) ["is_risk_acceptable"]
  = Some (PBool true).
Proof.
  apply (account_within_limits_is_acceptable active_account flat_day
           10000 10000 1000 9000 0);
    try reflexivity; try (unfold Qlt; simpl; lia); unfold Qle; simpl; lia.
Defined.

(** *** Rounding is monotone *)

Lemma round_half_even_monotone (x y : Q) :
  x <= y -> (round_half_even x <= round_half_even y)%Z.
Proof.
  intros H.
  pose proof (Qfloor_resp_le _ _ H) as Hf.
  pose proof (Qfloor_le x) as X1. pose proof (Qlt_floor x) as X2.
  pose proof (Qfloor_le y) as Y1. pose proof (Qlt_floor y) as Y2.
  rewrite inject_Z_plus in X2, Y2. change (inject_Z 1) with 1 in X2, Y2.
  unfold round_half_even.
  destruct (Z.eq_dec (Qfloor x) (Qfloor y)) as [E | NE].
  - rewrite <- E in *.
    destruct (Qcompare (x - inject_Z (Qfloor x)) 0.5) eqn:Cx;
      destruct (Qcompare (y - inject_Z (Qfloor x)) 0.5) eqn:Cy;
      try apply (proj1 (Qcompare_Eq_iff _ _)) in Cx;
      try apply (proj1 (Qcompare_Lt_iff _ _)) in Cx;
      try apply (proj1 (Qcompare_Gt_iff _ _)) in Cx;
      try apply (proj1 (Qcompare_Eq_iff _ _)) in Cy;
      try apply (proj1 (Qcompare_Lt_iff _ _)) in Cy;
      try apply (proj1 (Qcompare_Gt_iff _ _)) in Cy;
      try (exfalso; lra);
      destruct (Z.even (Qfloor x)); lia.
  - assert (Hlt : (Qfloor x + 1 <= Qfloor y)%Z) by lia.
    destruct (Qcompare (x - inject_Z (Qfloor x)) 0.5);
      destruct (Qcompare (y - inject_Z (Qfloor y)) 0.5);
      destruct (Z.even (Qfloor x)); destruct (Z.even (Qfloor y)); lia.
Qed.

Lemma py_round_monotone (x y : Q) (n : nat) :
  x <= y -> py_round x n <= py_round y n.
Proof.
  intros H. unfold py_round.
  pose proof (pow10_pos n) as Hp.
  set (t := inject_Z (10 ^ Z.of_nat n)) in *.
  unfold Qdiv. apply Qmult_le_compat_r.
  - rewrite <- Zle_Qle. apply round_half_even_monotone.
    apply Qmult_le_compat_r; [exact H | lra].
  - apply Qlt_le_weak, Qinv_lt_0_compat. exact Hp.
Qed.

(** *** Position size against the score *)

Lemma Qleb_gt (a b : Q) : Qleb a b = false <-> b < a.
Proof.
  destruct (Qleb a b) eqn:E.
  - apply Qleb_true_le in E. split; [discriminate | lra].
  - split; [|reflexivity]. intros _.
    destruct (Qlt_le_dec b a) as [H|H]; [exact H|].
    apply Qleb_true_le in H. congruence.
Qed.

Lemma size_factor_antitone (s1 s2 : Q) :
  s1 <= s2 -> 0.3 <= size_factor s2 /\ size_factor s2 <= size_factor s1.
Proof.
  intros H. unfold size_factor.
  repeat match goal with
  | |- context [Qleb ?a ?b] =>
      let E := fresh "E" in
      destruct (Qleb a b) eqn:E;
      [apply Qleb_true_le in E | apply Qleb_gt in E]
  end; split; lra.
Qed.

Lemma clamp_value (x : Q) :
  exists c,
    (capped <- py_min2 (PNum 5.0) (PNum x) ;;
     position_size <- py_max2 (PNum 0.1) capped ;;
     py_round_val position_size 2) = Ok (PNum (py_round c 2)) /\
    (x <= 0.1 /\ c == 0.1 \/ 0.1 <= x /\ x <= 5 /\ c == x \/ 5 <= x /\ c == 5).
Proof.
  unfold py_min2, py_max2, py_lt, py_gt, py_round_val.
  cbn [py_cmp bind].
  destruct (Qcompare x 5.0) eqn:E1; cbn [py_cmp bind num as_num].
  - apply (proj1 (Qcompare_Eq_iff _ _)) in E1.
    change (Qcompare 5.0 0.1) with Gt. cbn [bind num as_num].
    eexists; split; [reflexivity|]. right. right. split; [lra | reflexivity].
  - apply (proj1 (Qcompare_Lt_iff _ _)) in E1.
    destruct (Qcompare x 0.1) eqn:E2; cbn [bind num as_num];
      (eexists; split; [reflexivity|]).
    + apply (proj1 (Qcompare_Eq_iff _ _)) in E2. left. split; [lra | reflexivity].
    + apply (proj1 (Qcompare_Lt_iff _ _)) in E2. left. split; [lra | reflexivity].
    + apply (proj1 (Qcompare_Gt_iff _ _)) in E2. right. left.
      split; [lra|]. split; [lra | reflexivity].
  - apply (proj1 (Qcompare_Gt_iff _ _)) in E1.
    change (Qcompare 5.0 0.1) with Gt. cbn [bind num as_num].
    eexists; split; [reflexivity|]. right. right. split; [lra | reflexivity].
Qed.

Lemma position_size_value (overall_risk analysis risk_config : pyval)
  (score max_trade_risk : Q) :
  py_get overall_risk "score" (PNum 5.0) = Ok (PNum score) ->
  py_get risk_config "max_trade_risk" (PNum 1.0) = Ok (PNum max_trade_risk) ->
  exists c,
    _calculate_position_size overall_risk analysis risk_config
    = Ok (PNum (py_round c 2)) /\
    let x := max_trade_risk * size_factor score in
    (x <= 0.1 /\ c == 0.1 \/ 0.1 <= x /\ x <= 5 /\ c == x \/ 5 <= x /\ c == 5).
Proof.
  intros Hs Hm. unfold _calculate_position_size. rewrite Hs, Hm.
  unfold py_le, py_mul, size_factor, Qleb. cbn [bind py_cmp num as_num].
  repeat match goal with
  | |- context [Qcompare score ?c] => destruct (Qcompare score c)
  end; cbn [bind];
  match goal with
  | |- context [py_min2 (PNum 5.0) (PNum ?x)] =>
      destruct (clamp_value x) as [c [E B]]; rewrite E
  end; exists c; (split; [reflexivity|]); cbv zeta;
  try exact B;
  (destruct B as [[B1 B2] | [[B1 [B2 B3]] | [B1 B2]]];
   [left | right; left | right; right]; repeat split; lra).
Qed.

(** X20. [_calculate_position_size] is antitone in the combined risk
    score: under one configuration, the higher of two scores never gets
    the larger position. *)
Theorem position_size_shrinks_with_risk
  (risk1 risk2 analysis risk_config : pyval) (s1 s2 m : Q) :
  py_get risk1 "score" (PNum 5.0) = Ok (PNum s1) ->
  py_get risk2 "score" (PNum 5.0) = Ok (PNum s2) ->
  py_get risk_config "max_trade_risk" (PNum 1.0) = Ok (PNum m) ->
  s1 <= s2 ->
  exists p1 p2,
    _calculate_position_size risk1 analysis risk_config = Ok (PNum p1) /\
    _calculate_position_size risk2 analysis risk_config = Ok (PNum p2) /\
    p2 <= p1.
Proof.
  intros H1 H2 Hm Hle.
  destruct (position_size_value risk1 analysis risk_config s1 m H1 Hm)
    as [c1 [E1 B1]].
  destruct (position_size_value risk2 analysis risk_config s2 m H2 Hm)
    as [c2 [E2 B2]].
  exists (py_round c1 2), (py_round c2 2).
  split; [exact E1|]. split; [exact E2|].
  apply py_round_monotone.
  destruct (size_factor_antitone s1 s2 Hle) as [F1 F2].
  cbv zeta in B1, B2.
  destruct (Qlt_le_dec m 0) as [Hneg | Hpos].
  - assert (X1 : m * size_factor s1 <= 0) by nra.
    assert (X2 : m * size_factor s2 <= 0) by nra.
    destruct B1 as [[? ?] | [[? [? ?]] | [? ?]]];
      destruct B2 as [[? ?] | [[? [? ?]] | [? ?]]]; lra.
  - assert (X : m * size_factor s2 <= m * size_factor s1) by nra.
    destruct B1 as [[? ?] | [[? [? ?]] | [? ?]]];
      destruct B2 as [[? ?] | [[? [? ?]] | [? ?]]]; lra.
Qed.

Lemma position_size_shrinks_with_risk_witness :
  exists p1 p2,
    _calculate_position_size (PDict [("score", PNum 3)]) (PDict [])
      sample_config = Ok (PNum p1) /\
    _calculate_position_size (PDict [("score", PNum 7)]) (PDict [])
      sample_config = Ok (PNum p2) /\
    p2 <= p1.
Proof.
  apply (position_size_shrinks_with_risk
           (PDict [("score", PNum 3)]) (PDict [("score", PNum 7)])
           (PDict []) sample_config 3 7 1.0);
    try reflexivity; unfold Qle; simpl; lia.
Defined.

(** *** Restrictions against the score *)

(** X21. [_get_trade_restrictions] is antitone in the risk score: the
    higher of two scores never gets the larger position limit nor the
    larger leverage. *)
Theorem restrictions_tighten_with_risk (s1 s2 : Q) :
  s1 <= s2 ->
  exists r1 r2 size1 size2 leverage1 leverage2,
    _get_trade_restrictions (PNum s1) = Ok r1 /\
    _get_trade_restrictions (PNum s2) = Ok r2 /\
    path r1 ["max_position_size_percent"] = Some (PNum size1) /\
    path r2 ["max_position_size_percent"] = Some (PNum size2) /\
    path r1 ["max_leverage"] = Some (PNum leverage1) /\
    path r2 ["max_leverage"] = Some (PNum leverage2) /\
    size2 <= size1 /\ leverage2 <= leverage1.
Proof.
  intros H. unfold _get_trade_restrictions, py_ge, py_le.
  cbn [py_cmp bind].
  destruct (Qcompare s1 7.0) eqn:A1; destruct (Qcompare s2 7.0) eqn:A2;
    cbn [bind];
    try apply (proj1 (Qcompare_Eq_iff _ _)) in A1;
    try apply (proj1 (Qcompare_Lt_iff _ _)) in A1;
    try apply (proj1 (Qcompare_Gt_iff _ _)) in A1;
    try apply (proj1 (Qcompare_Eq_iff _ _)) in A2;
    try apply (proj1 (Qcompare_Lt_iff _ _)) in A2;
    try apply (proj1 (Qcompare_Gt_iff _ _)) in A2;
    try (exfalso; lra);
    try (do 6 eexists; repeat (split; [reflexivity|]);
         split; vm_compute; discriminate);
  destruct (Qcompare s1 6.0) eqn:B1; destruct (Qcompare s2 6.0) eqn:B2;
    cbn [bind];
    try apply (proj1 (Qcompare_Eq_iff _ _)) in B1;
    try apply (proj1 (Qcompare_Lt_iff _ _)) in B1;
    try apply (proj1 (Qcompare_Gt_iff _ _)) in B1;
    try apply (proj1 (Qcompare_Eq_iff _ _)) in B2;
    try apply (proj1 (Qcompare_Lt_iff _ _)) in B2;
    try apply (proj1 (Qcompare_Gt_iff _ _)) in B2;
    try (exfalso; lra);
    try (do 6 eexists; repeat (split; [reflexivity|]);
         split; vm_compute; discriminate);
  destruct (Qcompare s1 3.0) eqn:C1; destruct (Qcompare s2 3.0) eqn:C2;
    cbn [bind];
    try apply (proj1 (Qcompare_Eq_iff _ _)) in C1;
    try apply (proj1 (Qcompare_Lt_iff _ _)) in C1;
    try apply (proj1 (Qcompare_Gt_iff _ _)) in C1;
    try apply (proj1 (Qcompare_Eq_iff _ _)) in C2;
    try apply (proj1 (Qcompare_Lt_iff _ _)) in C2;
    try apply (proj1 (Qcompare_Gt_iff _ _)) in C2;
    try (exfalso; lra);
    do 6 eexists; repeat (split; [reflexivity|]);
    split; vm_compute; discriminate.
Qed.

Lemma restrictions_tighten_with_risk_witness :
  exists r1 r2 size1 size2 leverage1 leverage2,
    _get_trade_restrictions (PNum 3) = Ok r1 /\
    _get_trade_restrictions (PNum 8) = Ok r2 /\
    path r1 ["max_position_size_percent"] = Some (PNum size1) /\
    path r2 ["max_position_size_percent"] = Some (PNum size2) /\
    path r1 ["max_leverage"] = Some (PNum leverage1) /\
    path r2 ["max_leverage"] = Some (PNum leverage2) /\
    size2 <= size1 /\ leverage2 <= leverage1.
Proof.
  apply (restrictions_tighten_with_risk 3 8). unfold Qle; simpl; lia.
Defined.

(** *** The trade signal against the primary signal *)

(** X22. A BUY decision of [_generate_trade_signal] is only ever made for
    an analysis whose primary signal is STRONG_BUY or BUY, with a risk
    score not above the configured ceiling and a confidence not below the
    configured floor; a SELL decision likewise for STRONG_SELL or SELL. *)
Theorem trade_follows_primary_signal
  (overall_risk analysis risk_config confidence_out : pyval) (buy : bool) :
  _generate_trade_signal overall_risk analysis risk_config
  = (PStr (if buy then "BUY" else "SELL"), confidence_out) ->
  exists signals primary score ceiling confidence floor,
    py_get analysis "signals" (PDict []) = Ok signals /\
    py_get signals "primary" (PStr "HOLD") = Ok primary /\
    in_strs primary (if buy then ["STRONG_BUY"; "BUY"]
                     else ["STRONG_SELL"; "SELL"]) = true /\
    py_get overall_risk "score" (PNum 5.0) = Ok score /\
    py_get risk_config "max_risk_score" (PNum 6.0) = Ok ceiling /\
    py_gt score ceiling = Ok false /\
    py_get signals "confidence" (PNum 50) = Ok confidence /\
    py_get risk_config "min_confidence" (PNum 60) = Ok floor /\
    py_lt confidence floor = Ok false.
Proof.
  unfold _generate_trade_signal.
  repeat walk_head; intros H; try (destruct buy; discriminate H).
  all: destruct buy; try discriminate H.
  all: do 6 eexists; repeat (split; [eassumption|]).
  all: try eassumption.
  all: repeat match goal with
       | H : (if ?c then _ else _) = Ok true |- _ =>
           destruct c eqn:?; [|discriminate H]
       end; repeat split; eauto.
Qed.

Lemma trade_follows_primary_signal_witness :
  let overall_risk := PDict [("score", PNum 4.0)] in
  let analysis :=
    PDict [("signals", PDict [("primary", PStr "BUY");
                              ("confidence", PNum 80)])] in
  exists signals primary score ceiling confidence floor,
    py_get analysis "signals" (PDict []) = Ok signals /\
    py_get signals "primary" (PStr "HOLD") = Ok primary /\
    in_strs primary ["STRONG_BUY"; "BUY"] = true /\
    py_get overall_risk "score" (PNum 5.0) = Ok score /\
    py_get sample_config "max_risk_score" (PNum 6.0) = Ok ceiling /\
    py_gt score ceiling = Ok false /\
    py_get signals "confidence" (PNum 50) = Ok confidence /\
    py_get sample_config "min_confidence" (PNum 60) = Ok floor /\
    py_lt confidence floor = Ok false.
Proof.
  apply (trade_follows_primary_signal
           (PDict [("score", PNum 4.0)])
           (PDict [("signals", PDict [("primary", PStr "BUY");
                                      ("confidence", PNum 80)])])
           sample_config (PNum 80) true).
  vm_compute. reflexivity.
Defined.

(** *** Stop-loss against entry *)

Lemma fold_min_numbers (l : list Q) (cur : Q) :
  exists m, fold_min (PNum cur) (map PNum l) = Ok (PNum m) /\
            In m (cur :: l) /\ Forall (fun x => m <= x) (cur :: l).
Proof.
  revert cur. induction l as [|x l IH]; intros cur; cbn [map fold_min].
  - exists cur. split; [reflexivity|]. split; [left; reflexivity|].
    constructor; [lra | constructor].
  - unfold py_min2, py_lt. cbn [py_cmp bind].
    destruct (Qcompare x cur) eqn:E.
    + apply (proj1 (Qcompare_Eq_iff _ _)) in E.
      destruct (IH cur) as [m [Em [Hin Hall]]]. exists m.
      split; [exact Em|]. inversion Hall; subst. split.
      * destruct Hin as [<-|Hin]; [left; reflexivity | right; right; exact Hin].
      * constructor; [assumption|]. constructor; [lra | assumption].
    + apply (proj1 (Qcompare_Lt_iff _ _)) in E.
      destruct (IH x) as [m [Em [Hin Hall]]]. exists m.
      split; [exact Em|]. inversion Hall; subst. split.
      * right. exact Hin.
      * constructor; [lra|]. constructor; assumption.
    + apply (proj1 (Qcompare_Gt_iff _ _)) in E.
      destruct (IH cur) as [m [Em [Hin Hall]]]. exists m.
      split; [exact Em|]. inversion Hall; subst. split.
      * destruct Hin as [<-|Hin]; [left; reflexivity | right; right; exact Hin].
      * constructor; [assumption|]. constructor; [lra | assumption].
Qed.

Lemma fold_max_numbers (l : list Q) (cur : Q) :
  exists m, fold_max (PNum cur) (map PNum l) = Ok (PNum m) /\
            In m (cur :: l) /\ Forall (fun x => x <= m) (cur :: l).
Proof.
  revert cur. induction l as [|x l IH]; intros cur; cbn [map fold_max].
  - exists cur. split; [reflexivity|]. split; [left; reflexivity|].
    constructor; [lra | constructor].
  - unfold py_max2, py_gt. cbn [py_cmp bind].
    destruct (Qcompare x cur) eqn:E.
    + apply (proj1 (Qcompare_Eq_iff _ _)) in E.
      destruct (IH cur) as [m [Em [Hin Hall]]]. exists m.
      split; [exact Em|]. inversion Hall; subst. split.
      * destruct Hin as [<-|Hin]; [left; reflexivity | right; right; exact Hin].
      * constructor; [assumption|]. constructor; [lra | assumption].
    + apply (proj1 (Qcompare_Lt_iff _ _)) in E.
      destruct (IH cur) as [m [Em [Hin Hall]]]. exists m.
      split; [exact Em|]. inversion Hall; subst. split.
      * destruct Hin as [<-|Hin]; [left; reflexivity | right; right; exact Hin].
      * constructor; [assumption|]. constructor; [lra | assumption].
    + apply (proj1 (Qcompare_Gt_iff _ _)) in E.
      destruct (IH x) as [m [Em [Hin Hall]]]. exists m.
      split; [exact Em|]. inversion Hall; subst. split.
      * right. exact Hin.
      * constructor; [lra|]. constructor; assumption.
Qed.

Lemma py_min_numbers (l : list Q) :
  l <> [] ->
  exists m, py_min (numbers l) = Ok (PNum m) /\
            In m l /\ Forall (fun x => m <= x) l.
Proof.
  intros H. destruct l as [|x l]; [congruence|].
  unfold py_min, numbers. cbn [py_iter bind map]. apply fold_min_numbers.
Qed.

Lemma py_max_numbers (l : list Q) :
  l <> [] ->
  exists m, py_max (numbers l) = Ok (PNum m) /\
            In m l /\ Forall (fun x => x <= m) l.
Proof.
  intros H. destruct l as [|x l]; [congruence|].
  unfold py_max, numbers. cbn [py_iter bind map]. apply fold_max_numbers.
Qed.

Lemma levels_below_numbers (l : list Q) (bound : Q) :
  levels_below (numbers l) bound
  = Ok (map PNum (filter (fun x => Qltb x bound) l)).
Proof.
  unfold levels_below, numbers. cbn [py_iter bind].
  induction l as [|x l IH]; [reflexivity|].
  cbn [map filterM filter]. rewrite py_lt_num. cbn [bind]. rewrite IH.
  cbn [bind]. destruct (Qltb x bound); reflexivity.
Qed.

Lemma levels_above_numbers (l : list Q) (bound : Q) :
  levels_above (numbers l) bound
  = Ok (map PNum (filter (fun x => Qgtb x bound) l)).
Proof.
  unfold levels_above, numbers. cbn [py_iter bind].
  induction l as [|x l IH]; [reflexivity|].
  cbn [map filterM filter]. rewrite py_gt_num. cbn [bind]. rewrite IH.
  cbn [bind]. destruct (Qgtb x bound); reflexivity.
Qed.

Lemma truthy_numbers (l : list Q) :
  truthy (numbers l) = match l with [] => false | _ => true end.
Proof. destruct l; reflexivity. Qed.

(** The entry and the stop of a buy, before the targets are computed. *)
Lemma buy_entry_and_stop (current_price : Q) (supports : list Q)
  (df : DataFrame) (entry_price atr stop_loss : Q) :
  0 < current_price -> Forall (fun x => 0 < x) supports ->
  (if truthy (numbers supports) then
     below <- levels_below (numbers supports) current_price ;;
     nearest_support <- py_max (PList below) ;;
     q <- num nearest_support ;;
     Ok (q * 1.001)
   else Ok (current_price * 0.998)) = Ok entry_price ->
  (if truthy (numbers supports) then
     lowest <- py_min (numbers supports) ;;
     q <- num lowest ;;
     Ok (q * 0.995)
   else Ok (entry_price * 0.99)) = Ok stop_loss ->
  (if Qgtb atr 0 then max2 stop_loss (entry_price - atr * 2) else stop_loss)
  <= entry_price.
Proof.
  intros Hp Hs He Hst. rewrite truthy_numbers in He, Hst.
  assert (Hlt : stop_loss < entry_price).
  { destruct supports as [|x r] eqn:El.
    - injection He as <-. injection Hst as <-. lra.
    - rewrite <- El in *. rewrite levels_below_numbers in He. cbn [bind] in He.
      destruct (filter (fun x0 => Qltb x0 current_price) supports)
        as [|b bs] eqn:Ef; [discriminate He|].
      destruct (py_max_numbers (b :: bs) ltac:(discriminate))
        as [m [Em [Hin _]]].
      unfold numbers in Em. rewrite Em in He. cbn [bind num as_num] in He.
      injection He as <-.
      destruct (py_min_numbers supports ltac:(rewrite El; discriminate))
        as [lo [Elo [Hlo Hall]]].
      rewrite Elo in Hst. cbn [bind num as_num] in Hst. injection Hst as <-.
      rewrite <- Ef in Hin. apply filter_In in Hin. destruct Hin as [Hin _].
      rewrite Forall_forall in Hall, Hs.
      pose proof (Hall m Hin). pose proof (Hs lo Hlo). lra. }
  destruct (Qgtb atr 0) eqn:Ea; [|lra].
  apply Qltb_true_iff in Ea.
  destruct (max2_cases stop_loss (entry_price - atr * 2)) as [[E _]|[E _]];
    rewrite E; lra.
Qed.

Lemma sell_entry_and_stop (current_price : Q) (resistances : list Q)
  (df : DataFrame) (entry_price atr stop_loss : Q) :
  0 < current_price -> Forall (fun x => 0 < x) resistances ->
  (if truthy (numbers resistances) then
     above <- levels_above (numbers resistances) current_price ;;
     nearest_resistance <- py_min (PList above) ;;
     q <- num nearest_resistance ;;
     Ok (q * 0.999)
   else Ok (current_price * 1.002)) = Ok entry_price ->
  (if truthy (numbers resistances) then
     highest <- py_max (numbers resistances) ;;
     q <- num highest ;;
     Ok (q * 1.005)
   else Ok (entry_price * 1.01)) = Ok stop_loss ->
  entry_price
  <= (if Qgtb atr 0 then min2 stop_loss (entry_price + atr * 2) else stop_loss).
Proof.
  intros Hp Hs He Hst. rewrite truthy_numbers in He, Hst.
  assert (Hlt : entry_price < stop_loss).
  { destruct resistances as [|x r] eqn:El.
    - injection He as <-. injection Hst as <-. lra.
    - rewrite <- El in *. rewrite levels_above_numbers in He. cbn [bind] in He.
      destruct (filter (fun x0 => Qgtb x0 current_price) resistances)
        as [|b bs] eqn:Ef; [discriminate He|].
      destruct (py_min_numbers (b :: bs) ltac:(discriminate))
        as [m [Em [Hin _]]].
      unfold numbers in Em. rewrite Em in He. cbn [bind num as_num] in He.
      injection He as <-.
      destruct (py_max_numbers resistances ltac:(rewrite El; discriminate))
        as [hi [Ehi [Hhi Hall]]].
      rewrite Ehi in Hst. cbn [bind num as_num] in Hst. injection Hst as <-.
      rewrite <- Ef in Hin. apply filter_In in Hin. destruct Hin as [Hin _].
      rewrite Forall_forall in Hall, Hs.
      pose proof (Hall m Hin). pose proof (Hs m Hin). lra. }
  destruct (Qgtb atr 0) eqn:Ea; [|lra].
  apply Qltb_true_iff in Ea.
  destruct (min2_cases stop_loss (entry_price + atr * 2)) as [[E _]|[E _]];
    rewrite E; lra.
Qed.

(** X23. For a positive price and positive levels, whenever
    [_calculate_buy_points] answers an entry and a stop, the stop is not
    above the entry; whenever [_calculate_sell_points] does, the stop is
    not below the entry. *)
Theorem stop_loss_on_losing_side (buy : bool) (current_price : Q)
  (supports resistances : list Q) (pivot_points : pyval) (df : DataFrame)
  (entry stop : Q) :
  0 < current_price ->
  Forall (fun x => 0 < x) supports ->
  Forall (fun x => 0 < x) resistances ->
  let bundle :=
    if buy
    then _calculate_buy_points current_price (numbers supports)
           (numbers resistances) pivot_points df
    else _calculate_sell_points current_price (numbers supports)
           (numbers resistances) pivot_points df in
  path bundle ["entry"] = Some (PNum entry) ->
  path bundle ["stop_loss"] = Some (PNum stop) ->
  if buy then stop <= entry else entry <= stop.
Proof.
  intros Hp Hs Hr bundle. subst bundle. destruct buy.
  - unfold _calculate_buy_points. cbv zeta.
    destruct (if truthy (numbers supports) then _ else _) as [entry_price|]
      eqn:He at 1; cbn [bind]; [|discriminate].
    rewrite He.
    destruct (last_atr df) as [atr|]; cbn [bind]; [|discriminate].
    destruct (if truthy (numbers supports) then _ else _) as [stop_loss|]
      eqn:Hst at 1; cbn [bind]; [|discriminate].
    rewrite Hst.
    pose proof (buy_entry_and_stop current_price supports df entry_price atr
                  stop_loss Hp Hs He Hst) as Hle.
    repeat walk_head; try discriminate;
      unfold points; cbn;
      intros H1 H2; injection H1 as <-; injection H2 as <-;
      apply py_round_monotone; exact Hle.
  - unfold _calculate_sell_points. cbv zeta.
    destruct (if truthy (numbers resistances) then _ else _) as [entry_price|]
      eqn:He at 1; cbn [bind]; [|discriminate].
    rewrite He.
    destruct (last_atr df) as [atr|]; cbn [bind]; [|discriminate].
    destruct (if truthy (numbers resistances) then _ else _) as [stop_loss|]
      eqn:Hst at 1; cbn [bind]; [|discriminate].
    rewrite Hst.
    pose proof (sell_entry_and_stop current_price resistances df entry_price
                  atr stop_loss Hp Hr He Hst) as Hle.
    repeat walk_head; try discriminate;
      unfold points; cbn;
      intros H1 H2; injection H1 as <-; injection H2 as <-;
      apply py_round_monotone; exact Hle.
Qed.

Lemma stop_loss_on_losing_side_witness :
  let bundle :=
    _calculate_buy_points 1.10 (numbers [1.05; 1.08]) (numbers [1.15])
      (PDict []) (frame_of_bars [one_bar]) in
  path bundle ["entry"] = Some (PNum 1.08108) /\
  path bundle ["stop_loss"] = Some (PNum 1.04475) /\
  1.04475 <= 1.08108.
Proof.
  split; [vm_compute; reflexivity|]. split; [vm_compute; reflexivity|].
  apply (stop_loss_on_losing_side true 1.10 [1.05; 1.08] [1.15] (PDict [])
           (frame_of_bars [one_bar]) 1.08108 1.04475);
    try (vm_compute; reflexivity);
    try (unfold Qlt; simpl; lia);
    repeat constructor; unfold Qlt; simpl; lia.
Defined.

(** *** The second target against the first *)

Lemma py_insert_numbers (x : Q) (l : list Q) :
  exists l2,
    py_insert (PNum x) (map PNum l) = Ok (map PNum l2) /\
    (forall z, In z l2 <-> z = x \/ In z l) /\
    (head_bounds Qle l -> head_bounds Qle l2).
Proof.
  induction l as [|y r IH]; cbn [map py_insert].
  - exists [x]. split; [reflexivity|]. split.
    + intros z. cbn. intuition.
    + intros _. constructor.
  - rewrite py_lt_num. cbn [bind].
    destruct IH as [r2 [E [Hin _]]].
    destruct (Qltb y x) eqn:C.
    + rewrite E. cbn [bind]. exists (y :: r2).
      split; [reflexivity|]. split.
      * intros z. cbn. rewrite Hin. intuition.
      * cbn [head_bounds]. intros Hb. apply Forall_forall. intros z Hz.
        apply Hin in Hz. destruct Hz as [->|Hz].
        -- apply Qltb_true_iff in C. lra.
        -- rewrite Forall_forall in Hb. apply Hb. exact Hz.
    + exists (x :: y :: r). split; [reflexivity|]. split.
      * intros z. cbn. intuition.
      * cbn [head_bounds]. intros Hb. apply Qltb_false_iff in C.
        constructor; [exact C|].
        eapply Forall_impl; [|exact Hb]. intros z Hz. cbv beta in *. lra.
Qed.

Lemma py_insert_desc_numbers (x : Q) (l : list Q) :
  exists l2,
    py_insert_desc (PNum x) (map PNum l) = Ok (map PNum l2) /\
    (forall z, In z l2 <-> z = x \/ In z l) /\
    (head_bounds (fun a b => b <= a) l -> head_bounds (fun a b => b <= a) l2).
Proof.
  induction l as [|y r IH]; cbn [map py_insert_desc].
  - exists [x]. split; [reflexivity|]. split.
    + intros z. cbn. intuition.
    + intros _. constructor.
  - rewrite py_lt_num. cbn [bind].
    destruct IH as [r2 [E [Hin _]]].
    destruct (Qltb x y) eqn:C.
    + rewrite E. cbn [bind]. exists (y :: r2).
      split; [reflexivity|]. split.
      * intros z. cbn. rewrite Hin. intuition.
      * cbn [head_bounds]. intros Hb. apply Forall_forall. intros z Hz.
        apply Hin in Hz. destruct Hz as [->|Hz].
        -- apply Qltb_true_iff in C. lra.
        -- rewrite Forall_forall in Hb. apply Hb. exact Hz.
    + exists (x :: y :: r). split; [reflexivity|]. split.
      * intros z. cbn. intuition.
      * cbn [head_bounds]. intros Hb. apply Qltb_false_iff in C.
        constructor; [exact C|].
        eapply Forall_impl; [|exact Hb]. intros z Hz. cbv beta in *. lra.
Qed.

Lemma py_sorted_numbers (l : list Q) :
  exists l2,
    py_sorted (map PNum l) = Ok (map PNum l2) /\
    (forall z, In z l2 <-> In z l) /\ head_bounds Qle l2.
Proof.
  induction l as [|x r IH]; cbn [map py_sorted fold_right].
  - exists []. split; [reflexivity|]. split; [tauto | exact I].
  - destruct IH as [r2 [E [Hin Hb]]]. unfold py_sorted in E. rewrite E.
    cbn [bind].
    destruct (py_insert_numbers x r2) as [l2 [E2 [Hin2 Hb2]]].
    exists l2. split; [exact E2|]. split; [|apply Hb2; exact Hb].
    intros z. rewrite Hin2, Hin. cbn. intuition.
Qed.

Lemma py_sorted_desc_numbers (l : list Q) :
  exists l2,
    py_sorted_desc (map PNum l) = Ok (map PNum l2) /\
    (forall z, In z l2 <-> In z l) /\ head_bounds (fun a b => b <= a) l2.
Proof.
  induction l as [|x r IH]; cbn [map py_sorted_desc fold_right].
  - exists []. split; [reflexivity|]. split; [tauto | exact I].
  - destruct IH as [r2 [E [Hin Hb]]]. unfold py_sorted_desc in E. rewrite E.
    cbn [bind].
    destruct (py_insert_desc_numbers x r2) as [l2 [E2 [Hin2 Hb2]]].
    exists l2. split; [exact E2|]. split; [|apply Hb2; exact Hb].
    intros z. rewrite Hin2, Hin. cbn. intuition.
Qed.

(** The two targets of a buy, once the entry is known. *)
Lemma buy_targets (resistances : list Q) (entry_price stop_loss : Q)
  (take_profit_1 take_profit_2 : Q) :
  Forall (fun x => 0 < x) resistances ->
  (2 <= List.length resistances)%nat ->
  (if truthy (numbers resistances) then
     above <- levels_above (numbers resistances) entry_price ;;
     nearest_resistance <- py_min (PList above) ;;
     q <- num nearest_resistance ;;
     Ok (q * 0.999)
   else
     let risk := entry_price - stop_loss in
     Ok (entry_price + risk * 1.5)) = Ok take_profit_1 ->
  forall n, py_len (numbers resistances) = Ok n ->
  (if Nat.ltb 1 n then
     above <- levels_above (numbers resistances) take_profit_1 ;;
     next_resistance <- py_sorted above ;;
     match next_resistance with
     | first :: _ => q <- num first ;; Ok (q * 0.999)
     | [] =>
         let risk := entry_price - stop_loss in
         Ok (entry_price + risk * 2.5)
     end
   else
     let risk := entry_price - stop_loss in
     Ok (entry_price + risk * 2.5)) = Ok take_profit_2 ->
  take_profit_2 <= take_profit_1.
Proof.
  intros Hpos Hlen H1 n Hn H2.
  rewrite truthy_numbers in H1.
  destruct resistances as [|x0 r0] eqn:El; [cbn in Hlen; lia|].
  rewrite <- El in *.
  rewrite levels_above_numbers in H1. cbn [bind] in H1.
  destruct (filter (fun x => Qgtb x entry_price) resistances)
    as [|b bs] eqn:Ef; [discriminate H1|].
  destruct (py_min_numbers (b :: bs) ltac:(discriminate)) as [m [Em [Hin _]]].
  unfold numbers in Em. rewrite Em in H1. cbn [bind num as_num] in H1.
  injection H1 as <-.
  rewrite <- Ef in Hin. apply filter_In in Hin. destruct Hin as [Hin _].
  assert (Hm : 0 < m) by (rewrite Forall_forall in Hpos; apply Hpos; exact Hin).
  unfold numbers in Hn. cbn [py_len] in Hn. rewrite length_map in Hn.
  injection Hn as <-.
  assert (En : Nat.ltb 1 (List.length resistances) = true)
    by (apply Nat.ltb_lt; lia).
  rewrite En in H2. rewrite levels_above_numbers in H2. cbn [bind] in H2.
  destruct (py_sorted_numbers
              (filter (fun x => Qgtb x (m * 0.999)) resistances))
    as [l2 [Es [Hin2 Hb]]].
  rewrite Es in H2. cbn [bind] in H2.
  assert (Hm2 : In m l2).
  { apply Hin2. apply filter_In. split; [exact Hin|].
    apply Qltb_true_iff. lra. }
  destruct l2 as [|h r2]; [destruct Hm2|].
  cbn [map num as_num bind] in H2. injection H2 as <-.
  cbn [head_bounds] in Hb.
  destruct Hm2 as [->|Hm2]; [lra|].
  rewrite Forall_forall in Hb. pose proof (Hb m Hm2). lra.
Qed.

Lemma sell_targets (supports : list Q) (entry_price stop_loss : Q)
  (take_profit_1 take_profit_2 : Q) :
  Forall (fun x => 0 < x) supports ->
  (2 <= List.length supports)%nat ->
  (if truthy (numbers supports) then
     below <- levels_below (numbers supports) entry_price ;;
     nearest_support <- py_max (PList below) ;;
     q <- num nearest_support ;;
     Ok (q * 1.001)
   else
     let risk := stop_loss - entry_price in
     Ok (entry_price - risk * 1.5)) = Ok take_profit_1 ->
  forall n, py_len (numbers supports) = Ok n ->
  (if Nat.ltb 1 n then
     below <- levels_below (numbers supports) take_profit_1 ;;
     next_support <- py_sorted_desc below ;;
     match next_support with
     | first :: _ => q <- num first ;; Ok (q * 1.001)
     | [] =>
         let risk := stop_loss - entry_price in
         Ok (entry_price - risk * 2.5)
     end
   else
     let risk := stop_loss - entry_price in
     Ok (entry_price - risk * 2.5)) = Ok take_profit_2 ->
  take_profit_1 <= take_profit_2.
Proof.
  intros Hpos Hlen H1 n Hn H2.
  rewrite truthy_numbers in H1.
  destruct supports as [|x0 r0] eqn:El; [cbn in Hlen; lia|].
  rewrite <- El in *.
  rewrite levels_below_numbers in H1. cbn [bind] in H1.
  destruct (filter (fun x => Qltb x entry_price) supports)
    as [|b bs] eqn:Ef; [discriminate H1|].
  destruct (py_max_numbers (b :: bs) ltac:(discriminate)) as [m [Em [Hin _]]].
  unfold numbers in Em. rewrite Em in H1. cbn [bind num as_num] in H1.
  injection H1 as <-.
  rewrite <- Ef in Hin. apply filter_In in Hin. destruct Hin as [Hin _].
  assert (Hm : 0 < m) by (rewrite Forall_forall in Hpos; apply Hpos; exact Hin).
  unfold numbers in Hn. cbn [py_len] in Hn. rewrite length_map in Hn.
  injection Hn as <-.
  assert (En : Nat.ltb 1 (List.length supports) = true)
    by (apply Nat.ltb_lt; lia).
  rewrite En in H2. rewrite levels_below_numbers in H2. cbn [bind] in H2.
  destruct (py_sorted_desc_numbers
              (filter (fun x => Qltb x (m * 1.001)) supports))
    as [l2 [Es [Hin2 Hb]]].
  rewrite Es in H2. cbn [bind] in H2.
  assert (Hm2 : In m l2).
  { apply Hin2. apply filter_In. split; [exact Hin|].
    apply Qltb_true_iff. lra. }
  destruct l2 as [|h r2]; [destruct Hm2|].
  cbn [map num as_num bind] in H2. injection H2 as <-.
  cbn [head_bounds] in Hb.
  destruct Hm2 as [->|Hm2]; [lra|].
  rewrite Forall_forall in Hb. pose proof (Hb m Hm2) as K.
  cbv beta in K. lra.
Qed.

(** X24. With two or more positive resistance levels, the second target
    of [_calculate_buy_points] is never above the first; with two or more
    positive support levels, the second target of
    [_calculate_sell_points] is never below the first. The second target
    is thus never farther from the entry than the first. *)
Theorem second_target_not_beyond_first (buy : bool) (current_price : Q)
  (supports resistances : list Q) (pivot_points : pyval) (df : DataFrame)
  (target1 target2 : Q) :
  let side := if buy then resistances else supports in
  Forall (fun x => 0 < x) side ->
  (2 <= List.length side)%nat ->
  let bundle :=
    if buy
    then _calculate_buy_points current_price (numbers supports)
           (numbers resistances) pivot_points df
    else _calculate_sell_points current_price (numbers supports)
           (numbers resistances) pivot_points df in
  path bundle ["take_profit_1"] = Some (PNum target1) ->
  path bundle ["take_profit_2"] = Some (PNum target2) ->
  if buy then target2 <= target1 else target1 <= target2.
Proof.
  intros side Hpos Hlen bundle. subst side bundle. destruct buy.
  - unfold _calculate_buy_points. cbv zeta.
    destruct (if truthy (numbers supports) then _ else _) as [entry_price|]
      eqn:He at 1; cbn [bind]; [|discriminate].
    rewrite He; cbn [bind].
    destruct (last_atr df) as [atr|]; cbn [bind]; [|discriminate].
    destruct (if truthy (numbers supports) then _ else _) as [stop_loss|]
      eqn:Hst at 1; cbn [bind]; [|discriminate].
    rewrite Hst; cbn [bind].
    set (stop := if Qgtb atr 0 then _ else stop_loss).
    destruct (if truthy (numbers resistances) then _ else _)
      as [take_profit_1|] eqn:H1 at 1; cbn [bind]; [|discriminate].
    rewrite H1; cbn [bind].
    destruct (py_len (numbers resistances)) as [n|] eqn:Hn; cbn [bind];
      [|discriminate].
    destruct (if Nat.ltb 1 n then _ else _) as [take_profit_2|] eqn:H2 at 1;
      cbn [bind]; [|discriminate].
    rewrite H2; cbn [bind].
    pose proof (buy_targets resistances entry_price stop take_profit_1
                  take_profit_2 Hpos Hlen H1 n Hn H2) as Hle.
    unfold points;
      cbn [path lookup String.eqb Ascii.eqb Bool.eqb].
    intros K1 K2; injection K1 as <-; injection K2 as <-.
    apply py_round_monotone; exact Hle.
  - unfold _calculate_sell_points. cbv zeta.
    destruct (if truthy (numbers resistances) then _ else _) as [entry_price|]
      eqn:He at 1; cbn [bind]; [|discriminate].
    rewrite He; cbn [bind].
    destruct (last_atr df) as [atr|]; cbn [bind]; [|discriminate].
    destruct (if truthy (numbers resistances) then _ else _) as [stop_loss|]
      eqn:Hst at 1; cbn [bind]; [|discriminate].
    rewrite Hst; cbn [bind].
    set (stop := if Qgtb atr 0 then _ else stop_loss).
    destruct (if truthy (numbers supports) then _ else _)
      as [take_profit_1|] eqn:H1 at 1; cbn [bind]; [|discriminate].
    rewrite H1; cbn [bind].
    destruct (py_len (numbers supports)) as [n|] eqn:Hn; cbn [bind];
      [|discriminate].
    destruct (if Nat.ltb 1 n then _ else _) as [take_profit_2|] eqn:H2 at 1;
      cbn [bind]; [|discriminate].
    rewrite H2; cbn [bind].
    pose proof (sell_targets supports entry_price stop take_profit_1
                  take_profit_2 Hpos Hlen H1 n Hn H2) as Hle.
    unfold points;
      cbn [path lookup String.eqb Ascii.eqb Bool.eqb].
    intros K1 K2; injection K1 as <-; injection K2 as <-.
    apply py_round_monotone; exact Hle.
Qed.

Lemma second_target_not_beyond_first_witness :
  let bundle :=
    _calculate_buy_points 1.10 (numbers [1.05; 1.08]) (numbers [1.15; 1.20])
      (PDict []) (frame_of_bars [one_bar]) in
  path bundle ["take_profit_1"] = Some (PNum 1.14885) /\
  path bundle ["take_profit_2"] = Some (PNum 1.14885) /\
  1.14885 <= 1.14885.
Proof.
  split; [vm_compute; reflexivity|]. split; [vm_compute; reflexivity|].
  apply (second_target_not_beyond_first true 1.10 [1.05; 1.08] [1.15; 1.20]
           (PDict []) (frame_of_bars [one_bar]) 1.14885 1.14885);
    try (vm_compute; reflexivity);
    try (simpl; lia);
    repeat constructor; unfold Qlt; simpl; lia.
Defined.

(** *** Where the rounding of floats decides

    Three computations of the code, evaluated on floats at inputs that sit
    exactly on a boundary. They are the reason for the margins in the
    statements above. *)

(** [(high + low + close) / 3] of a bar without a range, at 0.7: the pivot
    comes out below the low. *)
Remark pivot_of_flat_bar_binary64 :
  PrimFloat.ltb
    (PrimFloat.div
       (PrimFloat.add (PrimFloat.add (binary64 0.7) (binary64 0.7))
                      (binary64 0.7))
       (binary64 3))
    (binary64 0.7) = true.
Proof. vm_compute. reflexivity. Qed.

(** The bar 7.25 / 30.33 / 5.93 / 9.69 (open, high, low, close): the
    quotient of body and range is below 0.1, a hundred times the quotient
    is not below 10. *)
Remark doji_tests_differ_binary64 :
  let body := PrimFloat.abs (PrimFloat.sub (binary64 9.69) (binary64 7.25)) in
  let range := PrimFloat.sub (binary64 30.33) (binary64 5.93) in
  PrimFloat.ltb (PrimFloat.div body range) (binary64 0.1) = true /\
  PrimFloat.ltb (PrimFloat.mul (PrimFloat.div body range) (binary64 100))
                (binary64 10) = false.
Proof. vm_compute. split; reflexivity. Qed.

(** A balance of 10004 with an equity of 9503.8 and a free margin of
    1000.4: the drawdown of exactly 5 percent comes out above 5, and a
    tenth of the balance above the free margin. *)
Remark account_on_limits_binary64 :
  PrimFloat.ltb
    (binary64 5)
    (PrimFloat.mul
       (PrimFloat.div (PrimFloat.sub (binary64 10004) (binary64 9503.8))
                      (binary64 10004))
       (binary64 100)) = true /\
  PrimFloat.ltb (binary64 1000.4)
                (PrimFloat.mul (binary64 10004) (binary64 0.1)) = true.
Proof. vm_compute. split; reflexivity. Qed.
